(** * PR anomaly detection: feature encoding, scoring and the predict handler

    A shallow embedding of [src/training/train.py] and [src/serving/app.py].

    Conventions of the embedding:
    - a JSON value / Python object received by the service is a [json];
    - a Python [dict] with string keys is a [gmap string _];
    - a Python float is a [pyfloat]: an exact rational, or one of the three
      non-finite values.  Rounding error of float arithmetic is outside the
      model (the conversion of an [int] to a float is rounded, see
      [float_of_int]); scores and thresholds are finite and are rationals;
    - a Python [str] is a [string] holding its UTF-8 bytes; [len] counts code
      points ([py_len]);
    - code that may raise returns [exc A] = [exn + A]; [try ... except] is a
      [match] on that sum;
    - the module-level singleton [_artefact] and the model file on disk are
      fields of an explicit [World] that the handlers thread through;
    - pandas, numpy and scikit-learn are not part of the repository: the
      operations whose behaviour is a matter of their documentation
      ([LabelEncoder], [np.percentile], [np.clip], [round], the reading of
      an empty CSV field) are written out,
      the others ([pd.to_datetime], parsing a float from a string, [str] of a
      float or container, fitting the forest) are the fields of the class
      [Externals], and every property holds for every instance of it. *)

From Stdlib Require Import ZArith QArith Qround Qabs Lqa Ascii String DecimalString.
From stdpp Require Import gmap strings list fin_maps sorting.

Set Warnings "-register-all".
Set Default Proof Using "Type".

(** ** Python values *)

Inductive pyfloat :=
| Fin (q : Q)
| PosInf
| NegInf
| NaN.

Inductive json :=
| JNull
| JBool (b : bool)
| JInt (z : Z)
| JFloat (x : pyfloat)
| JStr (s : string)
| JList (l : list json)
| JObj (o : gmap string json).

(** ** Exceptions *)

Inductive exn_kind :=
| FileNotFoundError
| ValueError
| TypeError
| KeyError
| AttributeError
| ZeroDivisionError
| OverflowError
| IndexError
| LibraryError.

Record exn := Exn { exn_kind_of : exn_kind; exn_msg : string }.

Definition exc (A : Type) : Type := exn + A.

Definition raise {A} (k : exn_kind) (msg : string) : exc A := inl (Exn k msg).

#[global] Instance exc_ret : MRet exc := fun A x => inr x.

#[global] Instance exc_bind : MBind exc := fun A B f m =>
  match m with
  | inl e => inl e
  | inr a => f a
  end.

Fixpoint exc_mapM {A B} (f : A -> exc B) (l : list A) : exc (list B) :=
  match l with
  | [] => mret []
  | x :: l' => y ← f x; ys ← exc_mapM f l'; mret (y :: ys)
  end.

(** [a[0]] on a sequence. *)
Definition index0 {A} (l : list A) : exc A :=
  match l with
  | x :: _ => inr x
  | [] => raise IndexError "index 0 is out of bounds"
  end.

(** ** Truthiness, [or], [dict.get] *)

Definition truthy (v : json) : bool :=
  match v with
  | JNull => false
  | JBool b => b
  | JInt z => negb (z =? 0)%Z
  | JFloat (Fin q) => negb (Qeq_bool q 0)
  | JFloat _ => true
  | JStr s => negb (String.eqb s "")
  | JList l => match l with [] => false | _ :: _ => true end
  | JObj o => negb (Nat.eqb (size o) 0)
  end.

(** [a or b] *)
Definition py_or (a b : json) : json := if truthy a then a else b.

(** [d.get(k, dflt)] *)
Definition dict_get (d : gmap string json) (k : string) (dflt : json) : json :=
  default dflt (d !! k).

Definition str_of_Z (z : Z) : string := NilZero.string_of_int (Z.to_int z).

Definition UNKNOWN : string := "__UNKNOWN__".

(** ** Feature lists (identical in train.py and app.py) *)

Definition CATEGORICAL_FEATURES : list string :=
  [ "pr_type"; "company_code"; "plant"; "purchasing_group";
    "material_group"; "unit"; "currency";
    "gl_account"; "cost_center"; "wbs_element"; "profit_center" ].

Definition NUMERIC_FEATURES : list string :=
  [ "quantity"; "net_price"; "day_of_week"; "month"; "text_length" ].

Definition enc_name (col : string) : string := col +:+ "_enc".

(** ** scikit-learn's [LabelEncoder] on strings

    [fit] stores the sorted distinct values ([sorted(set(values))]);
    [transform] maps each value to its position in [classes_] and raises
    [ValueError] on a value that is not there. *)

Record LabelEncoder := { classes_ : list string }.

Definition string_le (a b : string) : Prop := String.leb a b = true.

#[global] Instance string_le_dec : RelDecision string_le.
Proof. intros a b. unfold string_le. apply _. Defined.

Definition unique_sorted (ys : list string) : list string :=
  merge_sort string_le (remove_dups ys).

Definition position (v : string) (l : list string) : option nat :=
  fst <$> list_find (eq v) l.

Definition encode_label (classes : list string) (v : string) : exc Z :=
  match position v classes with
  | Some i => inr (Z.of_nat i)
  | None => raise ValueError ("y contains previously unseen labels: " +:+ v)
  end.

Definition le_fit (ys : list string) : LabelEncoder :=
  {| classes_ := unique_sorted ys |}.

Definition le_transform (le : LabelEncoder) (ys : list string) : exc (list Z) :=
  exc_mapM (encode_label (classes_ le)) ys.

Definition le_fit_transform (ys : list string) : exc (LabelEncoder * list Z) :=
  let le := le_fit ys in
  codes ← le_transform le ys;
  mret (le, codes).

(** ** Data frames: ordered columns, each a series of cells *)

Definition Series := list json.
Definition DataFrame := list (string * Series).

Definition df_columns (df : DataFrame) : list string := fst <$> df.

(** [df[col]] *)
Fixpoint df_get (df : DataFrame) (col : string) : exc Series :=
  match df with
  | [] => raise KeyError col
  | (c, s) :: df' => if String.eqb c col then inr s else df_get df' col
  end.

(** [df[col] = s]: replaces the column where it stands, or appends it. *)
Fixpoint df_set (df : DataFrame) (col : string) (s : Series) : DataFrame :=
  match df with
  | [] => [(col, s)]
  | (c, s') :: df' =>
      if String.eqb c col then (c, s) :: df' else (c, s') :: df_set df' col s
  end.

(** [df[cols]] with a list of labels. *)
Definition df_select (df : DataFrame) (cols : list string) : exc DataFrame :=
  exc_mapM (fun c => s ← df_get df c; mret (c, s)) cols.

(** [pd.DataFrame([record])[cols]]: one row, the columns picked by label. *)
Definition record_select (record : gmap string json) (cols : list string)
  : exc DataFrame :=
  exc_mapM (fun c => match record !! c with
                     | Some v => inr (c, [v])
                     | None => raise KeyError c
                     end) cols.

(** ** The fitted model and the artefact *)

Record Model := {
  decision_function : DataFrame -> exc (list Q);
  predict_labels : DataFrame -> exc (list Z)
}.

Record Artefact := {
  art_model : Model;
  art_encoders : gmap string LabelEncoder;
  art_feature_cols : list string;
  art_threshold : Q
}.

(** ** Numbers: comparison, division, [np.clip], [round] *)

Definition eps : Q := 1 # 1000000000.

Definition Qltb (x y : Q) : bool := negb (Qle_bool y x).

(** [a / b] on floats. *)
Definition py_div (a b : Q) : exc Q :=
  if Qeq_bool b 0 then raise ZeroDivisionError "float division by zero"
  else mret (a / b)%Q.

(** [np.clip(x, lo, hi)] = [minimum(maximum(x, lo), hi)]. *)
Definition np_clip (x lo hi : Q) : Q :=
  let m := if Qle_bool x lo then lo else x in
  if Qle_bool hi m then hi else m.

Definition round_half_even (x : Q) : Z :=
  let f := Qfloor x in
  match (x - inject_Z f ?= 1 # 2)%Q with
  | Lt => f
  | Gt => (f + 1)%Z
  | Eq => if Z.even f then f else (f + 1)%Z
  end.

Definition pow10 (n : nat) : Q := inject_Z (10 ^ Z.of_nat n).

(** [round(x, ndigits)]: the nearest multiple of [10^-ndigits], ties to even. *)
Definition py_round (x : Q) (ndigits : nat) : Q :=
  (inject_Z (round_half_even (x * pow10 ndigits)) / pow10 ndigits)%Q.

(** [float(np.clip((threshold - raw_score) / abs(threshold + 1e-9), 0, 1))] *)
Definition confidence_of (threshold raw_score : Q) : exc Q :=
  ratio ← py_div (threshold - raw_score) (Qabs (threshold + eps));
  mret (np_clip ratio 0 1).

(** ** Prediction entries *)

Inductive Label := NORMAL | ANOMALY | ERROR.

Record Prediction := {
  pr_number : json;
  item_number : json;
  anomaly : option bool;
  score : option Q;
  confidence : option Q;
  label : Label;
  error : option string
}.

(** [obj.get(k, dflt)]: only a dict has the method. *)
Definition py_get (obj : json) (k : string) (dflt : json) : exc json :=
  match obj with
  | JObj d => mret (dict_get d k dflt)
  | _ => raise AttributeError "object has no attribute 'get'"
  end.

(** [len(s)] on a [str]: the number of code points, that is of the bytes
    that are not UTF-8 continuation bytes ([10xxxxxx]). *)
Definition is_continuation (a : ascii) : bool :=
  let n := nat_of_ascii a in (128 <=? n)%nat && (n <? 192)%nat.

Fixpoint py_len (s : string) : nat :=
  match s with
  | EmptyString => 0%nat
  | String a s' => ((if is_continuation a then 0 else 1) + py_len s')%nat
  end.

(** [float(z)] on an [int]: the nearest number with a 53-bit significand,
    ties to the even significand; [None] where the result would exceed the
    largest double, [2^1024 - 2^971], and Python raises [OverflowError]. *)
Definition round_to_double (z : Z) : Z :=
  let a := Z.abs z in
  let bits := (Z.log2 a + 1)%Z in
  if (bits <=? 53)%Z then z
  else
    let sh := (bits - 53)%Z in
    let q := (a / 2 ^ sh)%Z in
    let r := (a - q * 2 ^ sh)%Z in
    let half := (2 ^ (sh - 1))%Z in
    let q' :=
      if (r <? half)%Z then q
      else if (half <? r)%Z then (q + 1)%Z
      else if Z.even q then q else (q + 1)%Z in
    (Z.sgn z * (q' * 2 ^ sh))%Z.

Definition float_of_int (z : Z) : option Z :=
  let r := round_to_double z in
  if (Z.abs r <? 2 ^ 1024)%Z then Some r else None.

(** ** Training configuration (environment variables of train.py) *)

Record Config := {
  CONTAMINATION : Q;
  N_ESTIMATORS : Z;
  RANDOM_STATE : Z
}.

(** ** Library operations that are taken as given *)

Class Externals := {
  (** [str(v)] for a float, a list or a dict. *)
  str_repr : json -> string;
  (** [float(s)] for a string [s]; [None] where Python raises [ValueError]. *)
  float_of_str : string -> option pyfloat;
  (** [pd.to_datetime(v, errors="coerce")] on one value, followed by reading
      [.dayofweek] and [.month]; [None] stands for [None] and [NaT]. *)
  to_datetime : json -> exc (option (Z * Z));
  (** [pd.to_datetime(s, errors="coerce")] on a column, each cell read as
      above. *)
  series_to_datetime : Series -> exc (list (option (Z * Z)));
  (** [s.str.len()] on a column. *)
  series_str_len : Series -> exc Series;
  (** [IsolationForest(n_estimators, contamination, random_state).fit(X)]. *)
  forest_fit : Config -> DataFrame -> exc Model
}.

Section Service.

Context `{Externals}.

Definition py_str (v : json) : string :=
  match v with
  | JStr s => s
  | JNull => "None"
  | JBool true => "True"
  | JBool false => "False"
  | JInt z => str_of_Z z
  | JFloat _ | JList _ | JObj _ => str_repr v
  end.

(** [float(v)]. *)
Definition py_float (v : json) : exc pyfloat :=
  match v with
  | JBool b => mret (Fin (if b then 1 else 0))
  | JInt z =>
      match float_of_int z with
      | Some r => mret (Fin (inject_Z r))
      | None => raise OverflowError "int too large to convert to float"
      end
  | JFloat x => mret x
  | JStr s =>
      match float_of_str s with
      | Some x => mret x
      | None => raise ValueError ("could not convert string to float: " +:+ s)
      end
  | JNull | JList _ | JObj _ =>
      raise TypeError "float() argument must be a string or a real number"
  end.

(** *** app.py: [_engineer_row] *)

(** [int(le.transform([val])[0]) if val in classes else -1], and [-1] when
    the column has no encoder. *)
Definition encode_category (le : option LabelEncoder) (val : string) : exc Z :=
  match le with
  | Some le =>
      let classes := classes_ le in
      if bool_decide (val ∈ classes)
      then codes ← le_transform le [val]; index0 codes
      else mret (-1)%Z
  | None => mret (-1)%Z
  end.

(** The loop over [CATEGORICAL_FEATURES]. *)
Fixpoint encode_categoricals (encoders : gmap string LabelEncoder) (row : json)
    (cols : list string) (record : gmap string json) : exc (gmap string json) :=
  match cols with
  | [] => mret record
  | col :: cols' =>
      let le := encoders !! col in
      raw ← py_get row col (JStr UNKNOWN);
      let val := py_str (py_or raw (JStr UNKNOWN)) in
      c ← encode_category le val;
      encode_categoricals encoders row cols' (<[enc_name col := JInt c]> record)
  end.

Definition _engineer_row (row : json) (artefact : Artefact) : exc DataFrame :=
  let encoders := art_encoders artefact in
  let feature_cols := art_feature_cols artefact in
  record ← encode_categoricals encoders row CATEGORICAL_FEATURES ∅;
  raw_date ← py_get row "pr_date" JNull;
  pr_date ← to_datetime raw_date;
  let record :=
    <["day_of_week" := JInt (match pr_date with Some d => d.1 | None => -1 end)]>
      record in
  let record :=
    <["month" := JInt (match pr_date with Some d => d.2 | None => -1 end)]>
      record in
  raw_quantity ← py_get row "quantity" (JInt 0);
  quantity ← py_float (py_or raw_quantity (JInt 0));
  let record := <["quantity" := JFloat quantity]> record in
  raw_price ← py_get row "net_price" (JInt 0);
  net_price ← py_float (py_or raw_price (JInt 0));
  let record := <["net_price" := JFloat net_price]> record in
  raw_text ← py_get row "short_text" (JStr "");
  let text := py_str (py_or raw_text (JStr "")) in
  let record := <["text_length" := JInt (Z.of_nat (py_len text))]> record in
  record_select record feature_cols.

(** *** app.py: [_score_items] *)

(** The body of the [try]. *)
Definition score_item (item : json) (artefact : Artefact) : exc Prediction :=
  let model := art_model artefact in
  let threshold := art_threshold artefact in
  X ← _engineer_row item artefact;
  scores ← decision_function model X;
  raw_score ← index0 scores;
  labels ← predict_labels model X;
  prediction ← index0 labels;
  let is_anomaly := Qltb raw_score threshold in
  confidence ← confidence_of threshold raw_score;
  pr ← py_get item "pr_number" JNull;
  it ← py_get item "item_number" JNull;
  mret {| pr_number := pr;
          item_number := it;
          anomaly := Some is_anomaly;
          score := Some (py_round raw_score 6);
          confidence := Some (py_round confidence 4);
          label := if is_anomaly then ANOMALY else NORMAL;
          error := None |}.

(** The [except Exception as exc] handler. *)
Definition error_entry (item : json) (e : exn) : exc Prediction :=
  logged ← py_get item "item_number" JNull;
  pr ← py_get item "pr_number" JNull;
  it ← py_get item "item_number" JNull;
  mret {| pr_number := pr;
          item_number := it;
          anomaly := None;
          score := None;
          confidence := None;
          label := ERROR;
          error := Some (exn_msg e) |}.

Definition score_or_error (item : json) (artefact : Artefact) : exc Prediction :=
  match score_item item artefact with
  | inr p => mret p
  | inl e => error_entry item e
  end.

(** The [for] loop, with [results] as its accumulator. *)
Fixpoint score_loop (items : list json) (artefact : Artefact)
    (results : list Prediction) : exc (list Prediction) :=
  match items with
  | [] => mret results
  | item :: items' =>
      p ← score_or_error item artefact;
      score_loop items' artefact (results ++ [p])
  end.

Definition _score_items (items : list json) (artefact : Artefact)
  : exc (list Prediction) :=
  score_loop items artefact [].


(** *** train.py: [engineer_features] *)

Definition is_missing (v : json) : bool :=
  match v with
  | JNull | JFloat NaN => true
  | _ => false
  end.

(** [s.fillna(dflt)] *)
Definition fillna (dflt : json) (s : Series) : Series :=
  (fun v => if is_missing v then dflt else v) <$> s.

(** The loop over [CATEGORICAL_FEATURES]: each column is filled, turned into
    strings, and encoded by a fresh [LabelEncoder]. *)
Fixpoint fit_categoricals (cols : list string) (df : DataFrame)
    (encoders : gmap string LabelEncoder)
  : exc (DataFrame * gmap string LabelEncoder) :=
  match cols with
  | [] => mret (df, encoders)
  | col :: cols' =>
      s ← df_get df col;
      let strs := py_str <$> fillna (JStr UNKNOWN) s in
      let df := df_set df col (JStr <$> strs) in
      fitted ← le_fit_transform strs;
      let df := df_set df (enc_name col) (JInt <$> fitted.2) in
      fit_categoricals cols' df (<[col := fitted.1]> encoders)
  end.

Definition feature_cols_of_training : list string :=
  (enc_name <$> CATEGORICAL_FEATURES) ++ NUMERIC_FEATURES.

(** The parsed dates replace column [pr_date]; its cells are read only by the
    two assignments that follow, so the frame keeps the raw column here. *)
Definition engineer_features (df : DataFrame)
  : exc (DataFrame * gmap string LabelEncoder) :=
  raw_dates ← df_get df "pr_date";
  dates ← series_to_datetime raw_dates;
  let df :=
    df_set df "day_of_week"
      ((fun d => JInt (match d with Some d => d.1 | None => -1 end)) <$> dates) in
  let df :=
    df_set df "month"
      ((fun d => JInt (match d with Some d => d.2 | None => -1 end)) <$> dates) in
  raw_text ← df_get df "short_text";
  lens ← series_str_len (fillna (JStr "") raw_text);
  let df := df_set df "text_length" lens in
  fitted ← fit_categoricals CATEGORICAL_FEATURES df ∅;
  let feature_cols := feature_cols_of_training in
  X ← df_select fitted.1 feature_cols;
  mret (X, fitted.2).

(** *** numpy: [np.percentile(a, q)], default (linear) method

    The virtual index is [q/100 * (n-1)]; the result interpolates between the
    two neighbouring order statistics.  On an empty array numpy returns nan
    and the next reduction of [train] ([np.min]) raises; here the percentile
    raises. *)

#[global] Instance Qle_dec : RelDecision Qle.
Proof. intros x y. destruct (Qlt_le_dec y x); [right | left]; [lra | assumption]. Defined.

Definition np_sort (a : list Q) : list Q := merge_sort Qle a.

Definition lerp (a b t : Q) : Q :=
  if Qle_bool (1 # 2) t then (b - (b - a) * (1 - t))%Q else (a + (b - a) * t)%Q.

Definition np_percentile (a : list Q) (q : Q) : exc Q :=
  if negb (Qle_bool 0 q && Qle_bool q 100)
  then raise ValueError "Percentiles must be in the range [0, 100]"
  else
    let arr := np_sort a in
    let n := length arr in
    match arr with
    | [] => raise ValueError "zero-size array"
    | x0 :: _ =>
        let virtual := (q / 100 * inject_Z (Z.of_nat n - 1))%Q in
        let lo := Z.to_nat (Qfloor virtual) in
        let hi := Nat.min (lo + 1) (n - 1) in
        let gamma := (virtual - inject_Z (Qfloor virtual))%Q in
        mret (lerp (nth lo arr x0) (nth hi arr x0) gamma)
    end.

(** *** train.py: [train]

    [training_stats] (mean, standard deviation, extrema, wall-clock time) is
    not read by the serving code and is left out of the artefact. *)
Definition train (cfg : Config) (df : DataFrame)
  : exc (Artefact * gmap string LabelEncoder) :=
  engineered ← engineer_features df;
  let X := engineered.1 in
  let encoders := engineered.2 in
  let feature_cols := df_columns X in
  model ← forest_fit cfg X;
  scores ← decision_function model X;
  threshold ← np_percentile scores (CONTAMINATION cfg * 100);
  mret ({| art_model := model;
           art_encoders := encoders;
           art_feature_cols := feature_cols;
           art_threshold := threshold |}, encoders).

(** *** app.py: [_load_model] and the module-level singleton

    [model_file] is the artefact that [joblib.load] returns for the file at
    [MODEL_PATH], [None] when no file is there: the worlds of this model are
    those in which a file that is there can be loaded.  The message of
    [FileNotFoundError] is written without the path that the code appends
    to it.  [trace] records the accesses to the model in the order they
    happen. *)

Inductive Event :=
| ModelAccess
| FileLoad
| Scoring.

Record World := {
  _artefact : option Artefact;
  model_file : option Artefact;
  trace : list Event
}.

Definition record_event (ev : Event) (w : World) : World :=
  {| _artefact := _artefact w;
     model_file := model_file w;
     trace := trace w ++ [ev] |}.

Definition _load_model (w : World) : exc Artefact * World :=
  let w := record_event ModelAccess w in
  match _artefact w with
  | Some a => (inr a, w)
  | None =>
      match model_file w with
      | None => (raise FileNotFoundError "Model file not found", w)
      | Some a =>
          (inr a, {| _artefact := Some a;
                     model_file := model_file w;
                     trace := trace w ++ [FileLoad] |})
      end
  end.

(** [create_app]: the model is loaded once at start-up when the file is
    there; a missing file is logged and the application starts without it. *)
Definition create_app (w : World) : World := (_load_model w).2.

(** *** app.py: [predict] *)

Inductive RequestBody :=
| NoBody
| InvalidJson
| JsonBody (j : json).

(** [request.get_json(force=True, silent=True)] *)
Definition get_json (b : RequestBody) : json :=
  match b with
  | JsonBody j => j
  | NoBody | InvalidJson => JNull
  end.

Inductive Body :=
| ErrorBody (message : string) (detail : option string)
| PredictionsBody (predictions : list Prediction).

Definition Response : Type := Body * Z.

(** ["items" in payload] *)
Definition contains_items (payload : json) : exc bool :=
  match payload with
  | JObj d => mret (bool_decide (is_Some (d !! "items")))
  | JList l =>
      mret (existsb (fun v => match v with
                              | JStr s => String.eqb s "items"
                              | _ => false
                              end) l)
  | JStr s => mret (bool_decide (is_Some (index 0 "items" s)))
  | _ => raise TypeError "argument is not iterable"
  end.

(** [payload["items"]] *)
Definition getitem_items (payload : json) : exc json :=
  match payload with
  | JObj d =>
      match d !! "items" with
      | Some v => mret v
      | None => raise KeyError "items"
      end
  | _ => raise TypeError "indices must be integers"
  end.

(** The single-item / batch split; [inl] is the early 400 response. *)
Definition select_items (payload : json) : exc (Response + list json) :=
  has_items ← contains_items payload;
  if has_items : bool then
    items ← getitem_items payload;
    match items with
    | JList l => mret (inr l)
    | _ => mret (inl (ErrorBody "'items' must be a list" None, 400%Z))
    end
  else mret (inr [payload]).

(** The two [except] clauses of the handler. *)
Definition on_exception (e : exn) : Response :=
  match exn_kind_of e with
  | FileNotFoundError => (ErrorBody "Model not loaded" (Some (exn_msg e)), 503%Z)
  | _ => (ErrorBody "Internal server error" (Some (exn_msg e)), 500%Z)
  end.

Definition predict (body : RequestBody) (w : World) : Response * World :=
  match get_json body with
  | JNull => ((ErrorBody "Invalid or missing JSON body" None, 400%Z), w)
  | payload =>
      match select_items payload with
      | inl e => (on_exception e, w)
      | inr (inl response) => (response, w)
      | inr (inr []) => ((ErrorBody "Empty items list" None, 400%Z), w)
      | inr (inr items) =>
          let loaded := _load_model w in
          match loaded.1 with
          | inl e => (on_exception e, loaded.2)
          | inr artefact =>
              let w' := record_event Scoring loaded.2 in
              match _score_items items artefact with
              | inl e => (on_exception e, w')
              | inr predictions => ((PredictionsBody predictions, 200%Z), w')
              end
          end
      end
  end.

End Service.

(** ** The wording of the specification, for comparison with the code *)

(** [clamp((t - s) / (|t| + ε), 0, 1)] *)
Definition confidence_spec (t s : Q) : Q :=
  np_clip ((t - s) / (Qabs t + eps)) 0 1.

(** The value at the [p*100]-th percentile: with the scores in ascending
    order and rank [h = p * (n - 1)], the order statistic at [floor h] plus the
    fractional part of [h] times the step to the next order statistic. *)
Definition calibrate_spec (scores : list Q) (p : Q) : Q :=
  let arr := np_sort scores in
  let h := (p * inject_Z (Z.of_nat (length arr) - 1))%Q in
  let lo := Z.to_nat (Qfloor h) in
  let x_lo := nth lo arr 0%Q in
  let x_hi := nth (lo + 1) arr x_lo in
  (x_lo + (h - inject_Z (Qfloor h)) * (x_hi - x_lo))%Q.

(** The rank [p * (n - 1)] of the percentile among [n] sorted scores. *)
Definition rank (n : nat) (p : Q) : Q := (p * inject_Z (Z.of_nat n - 1))%Q.

(** How many scores lie strictly below a threshold, and which fraction. *)
Definition count_below (thr : Q) (scores : list Q) : nat :=
  length (List.filter (fun x => Qltb x thr) scores).

Definition fraction_below (thr : Q) (scores : list Q) : Q :=
  (inject_Z (Z.of_nat (count_below thr scores)) /
   inject_Z (Z.of_nat (length scores)))%Q.

(** Scores that are pairwise different as numbers. *)
Definition distinct_scores (scores : list Q) : Prop := NoDup (Qred <$> scores).

(** The code a value has under a list of classes: its position, and [-1]
    when it is not one of them. *)
Definition code_in (classes : list string) (v : string) : Z :=
  match position v classes with
  | Some i => Z.of_nat i
  | None => (-1)%Z
  end.

(** ** The feature row in closed form

    What [_engineer_row] computes for a dict, column by column; the
    properties below show that the code produces exactly this frame. *)

Section FeatureRow.

Context `{Externals}.

Definition cat_value (d : gmap string json) (col : string) : string :=
  py_str (py_or (dict_get d col (JStr UNKNOWN)) (JStr UNKNOWN)).

Definition cat_code (encoders : gmap string LabelEncoder)
    (d : gmap string json) (col : string) : Z :=
  match encoders !! col with
  | Some le => code_in (classes_ le) (cat_value d col)
  | None => (-1)%Z
  end.

Definition numeric_value (d : gmap string json) (field : string) : exc pyfloat :=
  py_float (py_or (dict_get d field (JInt 0)) (JInt 0)).

(** A value that [float] rejects: what the specification calls a value that
    cannot be converted to a float. *)
Definition unconvertible (v : json) : Prop :=
  match v with
  | JNull | JList _ | JObj _ => True
  | JStr s => float_of_str s = None
  | JInt z => (2 ^ 1024 - 2 ^ 970 <= Z.abs z)%Z
  | JBool _ | JFloat _ => False
  end.

Definition text_length_of (d : gmap string json) : Z :=
  Z.of_nat (py_len (py_str (py_or (dict_get d "short_text" (JStr "")) (JStr "")))).

Definition feature_row (codes : string -> Z) (quantity net_price : pyfloat)
    (day_of_week month text_length : Z) : DataFrame :=
  ((fun col => (enc_name col, [JInt (codes col)])) <$> CATEGORICAL_FEATURES) ++
  [ ("quantity", [JFloat quantity]);
    ("net_price", [JFloat net_price]);
    ("day_of_week", [JInt day_of_week]);
    ("month", [JInt month]);
    ("text_length", [JInt text_length]) ].

Definition day_of (date : option (Z * Z)) : Z :=
  match date with Some d => d.1 | None => (-1)%Z end.

Definition month_of (date : option (Z * Z)) : Z :=
  match date with Some d => d.2 | None => (-1)%Z end.

End FeatureRow.

(** ** Entries and the checked handler in closed form *)

Section Entries.

Context `{Externals}.

(** The entry a dict item gets: the result of the [try] body, or the entry
    built by the handler. *)
Definition entry_of (d : gmap string json) (artefact : Artefact) : Prediction :=
  match score_item (JObj d) artefact with
  | inr p => p
  | inl e =>
      {| pr_number := dict_get d "pr_number" JNull;
         item_number := dict_get d "item_number" JNull;
         anomaly := None;
         score := None;
         confidence := None;
         label := ERROR;
         error := Some (exn_msg e) |}
  end.

(** The shape of one entry of the result list, for the item it belongs to. *)
Definition entry_shape (artefact : Artefact) (item : json) (p : Prediction)
  : Prop :=
  (label p = ERROR /\ (exists msg, error p = Some msg) /\
   anomaly p = None /\ score p = None /\ confidence p = None)
  \/
  (exists X raw scores conf s c,
     _engineer_row item artefact = inr X /\
     decision_function (art_model artefact) X = inr (raw :: scores) /\
     confidence_of (art_threshold artefact) raw = inr conf /\
     anomaly p = Some (Qltb raw (art_threshold artefact)) /\
     (Qltb raw (art_threshold artefact) = true <->
      (raw < art_threshold artefact)%Q) /\
     label p = (if Qltb raw (art_threshold artefact) then ANOMALY else NORMAL) /\
     score p = Some s /\ s = py_round raw 6 /\
     (s * pow10 6 == inject_Z (round_half_even (raw * pow10 6)))%Q /\
     (Qabs (s - raw) <= (1 # 2) / pow10 6)%Q /\
     confidence p = Some c /\ c = py_round conf 4 /\
     (c * pow10 4 == inject_Z (round_half_even (conf * pow10 4)))%Q /\
     (Qabs (c - conf) <= (1 # 2) / pow10 4)%Q /\
     error p = None).

(** The handler once the payload has passed the three checks. *)
Definition predict_checked (items : list json) (w : World) : Response * World :=
  let loaded := _load_model w in
  match loaded.1 with
  | inl e => (on_exception e, loaded.2)
  | inr artefact =>
      let w' := record_event Scoring loaded.2 in
      match _score_items items artefact with
      | inl e => (on_exception e, w')
      | inr predictions => ((PredictionsBody predictions, 200%Z), w')
      end
  end.

End Entries.

(** ** An instance of the library operations, to run the definitions

    No value parses as a date, no string parses as a number, and the fitted
    forest gives every row the score [0] and the label [1]. *)

Definition per_row {A} (x : A) (df : DataFrame) : list A :=
  match df with
  | [] => []
  | (_, s) :: _ => (fun _ => x) <$> s
  end.

Definition flat_model : Model :=
  {| decision_function := fun df => inr (per_row 0%Q df);
     predict_labels := fun df => inr (per_row 1%Z df) |}.

Definition plain_externals : Externals :=
  {| str_repr := fun _ => "?";
     float_of_str := fun _ => None;
     to_datetime := fun _ => inr None;
     series_to_datetime := fun s => inr ((fun _ => None) <$> s);
     series_str_len := fun s =>
       inr ((fun v => match v with
                      | JStr t => JInt (Z.of_nat (py_len t))
                      | _ => JFloat NaN
                      end) <$> s);
     forest_fit := fun _ _ => inr flat_model |}.

(** ** The rest of the two files *)

(** *** train.py: [REQUIRED_COLS] and [load_data]

    [pd.read_csv] is an argument: the frame it returns for a path, or the
    exception it raises.  What it makes of the fields of the file is
    [read_frame] below. *)

Definition REQUIRED_COLS : list string :=
  [ "pr_number"; "pr_date"; "pr_type"; "company_code"; "plant";
    "purchasing_group"; "created_by";
    "item_number"; "material_group"; "quantity"; "unit"; "net_price";
    "currency"; "delivery_date";
    "gl_account"; "cost_center"; "wbs_element"; "order_number";
    "profit_center";
    "short_text"; "header_text" ].

(** [str] of a list of strings, as the f-string of the error message prints
    it. *)
Definition repr_str_list (l : list string) : string :=
  "[" +:+ String.concat ", " ((fun c => "'" +:+ c +:+ "'") <$> l) +:+ "]".

Definition load_data (read_csv : string -> exc DataFrame) (path : string)
  : exc DataFrame :=
  df ← read_csv path;
  let missing :=
    List.filter (fun c => negb (bool_decide (c ∈ df_columns df))) REQUIRED_COLS in
  match missing with
  | [] => mret df
  | _ :: _ =>
      raise ValueError ("Missing required columns: " +:+ repr_str_list missing)
  end.

(** *** train.py: [pd.read_csv(path, low_memory=False)]

    The file is a table of text fields, column by column.  [load_data]
    leaves the NA handling of [read_csv] at its default, under which an
    empty field is read as NaN.  What a field that is not empty is read as
    (a number, a boolean, text, NaN for the other NA markers) is decided per
    column by [infer], which is given the fields of the column. *)

Definition CsvTable := list (string * list string).

Definition read_field (infer : list string -> string -> json)
    (fields : list string) (field : string) : json :=
  if String.eqb field "" then JFloat NaN else infer fields field.

Definition read_frame (infer : list string -> string -> json)
    (table : CsvTable) : DataFrame :=
  (fun col => (col.1, read_field infer col.2 <$> col.2)) <$> table.

(** The fields of the column with the given name. *)
Fixpoint csv_fields (table : CsvTable) (col : string)
  : option (list string) :=
  match table with
  | [] => None
  | (c, fields) :: table' =>
      if String.eqb c col then Some fields else csv_fields table' col
  end.

(** *** app.py: [health] *)

Inductive HealthBody :=
| HealthOk (model_loaded : bool) (n_features : nat) (threshold : Q)
| HealthError (detail : string).

Definition health (w : World) : (HealthBody * Z) * World :=
  let loaded := _load_model w in
  match loaded.1 with
  | inr art =>
      ((HealthOk true (length (art_feature_cols art)) (art_threshold art), 200%Z),
       loaded.2)
  | inl e => ((HealthError (exn_msg e), 503%Z), loaded.2)
  end.

(** *** A serving process: start-up, then requests one after the other *)

Inductive Request :=
| GetHealth
| PostPredict (body : RequestBody).

Inductive Reply :=
| HealthReply (r : HealthBody * Z)
| PredictReply (r : Response).

(** The module as imported: nothing cached, nothing logged. *)
Definition fresh_process (file : option Artefact) : World :=
  {| _artefact := None; model_file := file; trace := [] |}.

(** The model file is written, replaced or removed from outside. *)
Definition with_model_file (file : option Artefact) (w : World) : World :=
  {| _artefact := _artefact w; model_file := file; trace := trace w |}.

(** The artefact a call of [_load_model] would return: the cached one, and
    the one on disk when nothing is cached. *)
Definition effective_model (w : World) : option Artefact :=
  match _artefact w with
  | Some a => Some a
  | None => model_file w
  end.

(** [isinstance(item, dict)] *)
Definition is_obj (j : json) : bool :=
  match j with
  | JObj _ => true
  | _ => false
  end.

Section Serving.

Context `{Externals}.

Definition handle (req : Request) (w : World) : Reply * World :=
  match req with
  | GetHealth => let r := health w in (HealthReply r.1, r.2)
  | PostPredict body => let r := predict body w in (PredictReply r.1, r.2)
  end.

Fixpoint serve (reqs : list Request) (w : World) : list Reply * World :=
  match reqs with
  | [] => ([], w)
  | req :: reqs' =>
      let r := handle req w in
      let rest := serve reqs' r.2 in
      (r.1 :: rest.1, rest.2)
  end.

(** What the checked handler answers, as a function of the artefact that is
    in effect. *)
Definition checked_response (items : list json) (model : option Artefact)
  : Response :=
  match model with
  | None => (ErrorBody "Model not loaded" (Some "Model file not found"), 503%Z)
  | Some a =>
      match _score_items items a with
      | inl e => on_exception e
      | inr predictions => (PredictionsBody predictions, 200%Z)
      end
  end.

End Serving.

(** How often the model file was read, according to the trace. *)
Definition file_loads (w : World) : nat :=
  length (List.filter (fun ev => match ev with FileLoad => true | _ => false end)
            (trace w)).

(** The fields of a record that [_engineer_row] reads. *)
Definition fields_read : list string :=
  CATEGORICAL_FEATURES ++ ["pr_date"; "quantity"; "net_price"; "short_text"].

(** The string a training cell is encoded as: the sentinel for a missing
    cell, [str] of the cell otherwise. *)
Definition training_string `{Externals} (cell : json) : string :=
  py_str (if is_missing cell then JStr UNKNOWN else cell).

(** The strings of a column of the training frame, and the codes the column
    gets: the position of each string among the sorted distinct strings. *)
Definition col_strings `{Externals} (df : DataFrame) (col : string)
  : list string :=
  match df_get df col with
  | inr cells => training_string <$> cells
  | inl _ => []
  end.

Definition col_codes `{Externals} (df : DataFrame) (col : string) : Series :=
  JInt <$> (code_in (unique_sorted (col_strings df col)) <$> col_strings df col).

(** The training matrix in closed form: the code columns, then the numeric
    and derived columns. *)
Definition training_matrix (codes : string -> Series)
    (quantity net_price : Series) (dates : list (option (Z * Z)))
    (lens : Series) : DataFrame :=
  ((fun col => (enc_name col, codes col)) <$> CATEGORICAL_FEATURES) ++
  [ ("quantity", quantity);
    ("net_price", net_price);
    ("day_of_week", (fun d => JInt (day_of d)) <$> dates);
    ("month", (fun d => JInt (month_of d)) <$> dates);
    ("text_length", lens) ].

(** ** Example data *)

Definition example_config : Config :=
  {| CONTAMINATION := 5 # 100; N_ESTIMATORS := 200; RANDOM_STATE := 42 |}.

(** A frame of two rows, built in memory. *)
Definition example_frame : DataFrame :=
  [ ("pr_number", [JStr "1000012345"; JStr "1000012346"]);
    ("pr_date", [JStr "2024-03-15"; JStr "2024-03-18"]);
    ("pr_type", [JStr ""; JStr "NB"]);
    ("company_code", [JStr "1000"; JStr "1000"]);
    ("plant", [JStr "1010"; JStr "1020"]);
    ("purchasing_group", [JStr "001"; JStr "002"]);
    ("material_group", [JStr "01010"; JNull]);
    ("quantity", [JFloat (Fin 10); JFloat (Fin 3)]);
    ("unit", [JStr "EA"; JStr "EA"]);
    ("net_price", [JFloat (Fin 250); JFloat (Fin 12)]);
    ("currency", [JStr "EUR"; JStr "EUR"]);
    ("gl_account", [JStr "400000"; JStr "400000"]);
    ("cost_center", [JStr "10001010"; JStr "10001020"]);
    ("wbs_element", [JNull; JNull]);
    ("profit_center", [JStr "YB10"; JStr "YB10"]);
    ("short_text", [JStr "Office supplies"; JStr "Pens"]) ].

Definition example_trained : Artefact * gmap string LabelEncoder :=
  match train (H := plain_externals) example_config example_frame with
  | inr r => r
  | inl _ =>
      ({| art_model := flat_model; art_encoders := ∅;
          art_feature_cols := []; art_threshold := 0 |}, ∅)
  end.

Definition example_artefact : Artefact := example_trained.1.

Definition example_items : list json :=
  [ JObj ∅;
    JObj (<["quantity" := JStr "abc"]> (<["item_number" := JStr "00020"]> ∅));
    JObj (<["pr_type" := JStr "NB"]> (<["quantity" := JInt 5]> ∅)) ].

Definition example_results : list Prediction :=
  match _score_items (H := plain_externals) example_items example_artefact with
  | inr r => r
  | inl _ => []
  end.

Definition example_world : World :=
  {| _artefact := None; model_file := Some example_artefact; trace := [] |}.

(** The frame above with the remaining required columns, and a reader that
    returns it for every path. *)
Definition example_csv : DataFrame :=
  example_frame ++
  [ ("created_by", [JStr "USER1"; JStr "USER2"]);
    ("item_number", [JStr "00010"; JStr "00020"]);
    ("delivery_date", [JStr "2024-04-01"; JStr "2024-04-02"]);
    ("order_number", [JNull; JNull]);
    ("header_text", [JNull; JNull]) ].

Definition example_reader (path : string) : exc DataFrame := inr example_csv.

(** An artefact whose [feature_cols] names a column that is not a feature. *)
Definition example_stale_artefact : Artefact :=
  {| art_model := flat_model;
     art_encoders := ∅;
     art_feature_cols := ["pr_type_enc"; "vendor_enc"];
     art_threshold := 0 |}.

Definition example_batch : list (gmap string json) :=
  [ ∅; <["quantity" := JStr "abc"]> (<["item_number" := JStr "00020"]> ∅) ].

(** The fields of a CSV file of two records, the first with an empty
    [pr_type] field, and a reader that takes every field that is not empty
    as text. *)
Definition example_table : CsvTable :=
  [ ("pr_number", ["1000012345"; "1000012346"]);
    ("pr_date", ["2024-03-15"; "2024-03-18"]);
    ("pr_type", [""; "NB"]);
    ("company_code", ["1000"; "1000"]);
    ("plant", ["1010"; "1020"]);
    ("purchasing_group", ["001"; "002"]);
    ("created_by", ["USER1"; "USER2"]);
    ("item_number", ["00010"; "00020"]);
    ("material_group", ["01010"; ""]);
    ("quantity", ["10"; "3"]);
    ("unit", ["EA"; "EA"]);
    ("net_price", ["250.00"; "12.00"]);
    ("currency", ["EUR"; "EUR"]);
    ("delivery_date", ["2024-04-01"; "2024-04-02"]);
    ("gl_account", ["400000"; "400000"]);
    ("cost_center", ["10001010"; "10001020"]);
    ("wbs_element", [""; ""]);
    ("order_number", [""; ""]);
    ("profit_center", ["YB10"; "YB10"]);
    ("short_text", ["Office supplies"; "Pens"]);
    ("header_text", [""; ""]) ].

Definition example_infer (fields : list string) (field : string) : json :=
  JStr field.

Definition example_table_trained : Artefact * gmap string LabelEncoder :=
  match train (H := plain_externals) example_config
          (read_frame example_infer example_table) with
  | inr r => r
  | inl _ =>
      ({| art_model := flat_model; art_encoders := ∅;
          art_feature_cols := []; art_threshold := 0 |}, ∅)
  end.

(** * Properties *)

(** ** The exception monad *)

Lemma exc_mapM_inr {A B} (f : A -> exc B) (g : A -> B) (l : list A) :
  (forall x, x ∈ l -> f x = inr (g x)) -> exc_mapM f l = inr (g <$> l).
Proof.
  induction l as [|x l IH]; intros Hf; [reflexivity|].
  cbn. rewrite (Hf x) by left. cbn.
  rewrite IH; [reflexivity|]. intros y Hy. apply Hf. by right.
Qed.

Lemma exc_mapM_length {A B} (f : A -> exc B) (l : list A) (r : list B) :
  exc_mapM f l = inr r -> length r = length l.
Proof.
  revert r. induction l as [|x l IH]; intros r; cbn.
  - intros [= <-]. reflexivity.
  - destruct (f x) as [e|y]; cbn; [discriminate|].
    destruct (exc_mapM f l) as [e|ys]; cbn; [discriminate|].
    intros [= <-]. cbn. f_equal. by apply IH.
Qed.

(** ** The label encoder *)

Lemma elem_of_unique_sorted (ys : list string) (v : string) :
  v ∈ unique_sorted ys <-> v ∈ ys.
Proof.
  unfold unique_sorted.
  rewrite (merge_sort_Permutation string_le (remove_dups ys)).
  apply elem_of_remove_dups.
Qed.

Lemma NoDup_unique_sorted (ys : list string) : NoDup (unique_sorted ys).
Proof.
  unfold unique_sorted.
  rewrite (merge_sort_Permutation string_le (remove_dups ys)).
  apply NoDup_remove_dups.
Qed.


Lemma position_elem_of (v : string) (l : list string) :
  v ∈ l -> exists i, position v l = Some i /\ l !! i = Some v.
Proof.
  intros Hin. unfold position.
  destruct (list_find (eq v) l) as [[j x]|] eqn:E.
  - exists j. split; [reflexivity|].
    apply list_find_Some in E as (Hj & <- & _). exact Hj.
  - apply list_find_None in E. rewrite Forall_forall in E.
    exfalso. by apply (E v).
Qed.

Lemma position_not_elem_of (v : string) (l : list string) :
  v ∉ l -> position v l = None.
Proof.
  intros Hin. unfold position.
  destruct (list_find (eq v) l) as [[j x]|] eqn:E; [|reflexivity].
  apply list_find_Some in E as (Hj & <- & _).
  exfalso. apply Hin. eapply list_elem_of_lookup_2. exact Hj.
Qed.

Lemma code_in_elem_of (classes : list string) (v : string) :
  v ∈ classes ->
  exists i : nat, code_in classes v = Z.of_nat i /\ classes !! i = Some v.
Proof.
  intros Hin. destruct (position_elem_of v classes Hin) as (i & Hp & Hi).
  exists i. unfold code_in. rewrite Hp. auto.
Qed.

Lemma encode_label_elem_of (classes : list string) (v : string) :
  v ∈ classes -> encode_label classes v = inr (code_in classes v).
Proof.
  intros Hin. destruct (position_elem_of v classes Hin) as (i & Hp & _).
  unfold encode_label, code_in. rewrite Hp. reflexivity.
Qed.

Lemma le_fit_transform_total (ys : list string) :
  le_fit_transform ys = inr (le_fit ys, code_in (unique_sorted ys) <$> ys).
Proof.
  unfold le_fit_transform, le_transform. cbn.
  rewrite (exc_mapM_inr _ (code_in (unique_sorted ys))); [reflexivity|].
  intros x Hx. apply encode_label_elem_of. by apply elem_of_unique_sorted.
Qed.

Section Encoding.

Context `{Externals}.

Lemma encode_category_total (le : option LabelEncoder) (val : string) :
  encode_category le val =
  inr (match le with
       | Some le => code_in (classes_ le) val
       | None => (-1)%Z
       end).
Proof.
  destruct le as [le|]; [|reflexivity].
  unfold encode_category. case_bool_decide as Hin.
  - unfold le_transform. cbn. rewrite encode_label_elem_of by exact Hin.
    reflexivity.
  - unfold code_in. rewrite position_not_elem_of by exact Hin. reflexivity.
Qed.

(** C3. Against an encoder fitted on the values [ys], the transform step of
    [_engineer_row] returns, for a value that occurs in [ys], the one
    position of that value in the fitted classes, which is the code
    [fit_transform] gave to every occurrence of the value in [ys]; for a
    value that does not occur in [ys] it returns [-1].  It returns in both
    cases: nothing is raised.  A column without encoder gives [-1] as well. *)
Theorem encode_category_fitted_code (ys : list string) (val : string) :
  exists codes : list Z,
    le_fit_transform ys = inr (le_fit ys, codes) /\
    length codes = length ys /\
    encode_category None val = inr (-1)%Z /\
    if bool_decide (val ∈ ys)
    then exists c : nat,
           encode_category (Some (le_fit ys)) val = inr (Z.of_nat c) /\
           classes_ (le_fit ys) !! c = Some val /\
           (forall j, classes_ (le_fit ys) !! j = Some val -> j = c) /\
           forall i, ys !! i = Some val -> codes !! i = Some (Z.of_nat c)
    else encode_category (Some (le_fit ys)) val = inr (-1)%Z.
Proof.
  exists (code_in (unique_sorted ys) <$> ys).
  split; [apply le_fit_transform_total|].
  split; [by rewrite length_fmap|].
  split; [reflexivity|].
  rewrite encode_category_total. cbn.
  case_bool_decide as Hin.
  - apply elem_of_unique_sorted in Hin.
    destruct (code_in_elem_of _ _ Hin) as (c & Hc & Hl).
    exists c. split; [by rewrite Hc|]. split; [exact Hl|].
    split.
    { intros j Hj. exact (NoDup_lookup _ j c val (NoDup_unique_sorted ys) Hj Hl). }
    intros i Hi. rewrite list_lookup_fmap, Hi. cbn. by rewrite Hc.
  - unfold code_in. rewrite position_not_elem_of; [reflexivity|].
    by rewrite elem_of_unique_sorted.
Qed.

End Encoding.

(** ** [_engineer_row] on a dict *)

Section EngineerRow.

Context `{Externals}.

Lemma encode_categoricals_dict (encoders : gmap string LabelEncoder)
    (d : gmap string json) (cols : list string) (record : gmap string json) :
  encode_categoricals encoders (JObj d) cols record =
  inr (foldl (fun rec col => <[enc_name col := JInt (cat_code encoders d col)]> rec)
         record cols).
Proof.
  revert record. induction cols as [|col cols IH]; intros record; [reflexivity|].
  cbn [encode_categoricals py_get]. cbn [mbind exc_bind mret exc_ret].
  rewrite encode_category_total. cbn [mbind exc_bind].
  rewrite IH. reflexivity.
Qed.

Lemma record_select_features (codes : string -> Z) (quantity net_price : pyfloat)
    (dow mon len : Z) :
  record_select
    (<["text_length" := JInt len]>
       (<["net_price" := JFloat net_price]>
          (<["quantity" := JFloat quantity]>
             (<["month" := JInt mon]>
                (<["day_of_week" := JInt dow]>
                   (foldl (fun rec col => <[enc_name col := JInt (codes col)]> rec)
                      ∅ CATEGORICAL_FEATURES))))))
    feature_cols_of_training
  = inr (feature_row codes quantity net_price dow mon len).
Proof. vm_compute. reflexivity. Qed.

Lemma engineer_row_dict (d : gmap string json) (artefact : Artefact) :
  art_feature_cols artefact = feature_cols_of_training ->
  _engineer_row (JObj d) artefact =
  (date ← to_datetime (dict_get d "pr_date" JNull);
   quantity ← numeric_value d "quantity";
   net_price ← numeric_value d "net_price";
   mret (feature_row (cat_code (art_encoders artefact) d) quantity net_price
           (day_of date) (month_of date) (text_length_of d))).
Proof.
  intros Hcols. unfold _engineer_row. rewrite Hcols.
  rewrite encode_categoricals_dict.
  cbn [py_get mbind exc_bind mret exc_ret].
  destruct (to_datetime (dict_get d "pr_date" JNull)) as [e|date]; [reflexivity|].
  unfold numeric_value.
  destruct (py_float (py_or (dict_get d "quantity" (JInt 0)) (JInt 0)))
    as [e|quantity]; [reflexivity|].
  destruct (py_float (py_or (dict_get d "net_price" (JInt 0)) (JInt 0)))
    as [e|net_price]; [reflexivity|].
  apply record_select_features.
Qed.

End EngineerRow.

(** ** Numbers *)

Lemma Qltb_lt (x y : Q) : Qltb x y = true <-> (x < y)%Q.
Proof.
  unfold Qltb. rewrite negb_true_iff.
  destruct (Qle_bool y x) eqn:E.
  - apply Qle_bool_iff in E. split; [discriminate|]. intros Hlt. lra.
  - split; [intros _|reflexivity].
    apply Qnot_le_lt. intros Hle. apply Qle_bool_iff in Hle. congruence.
Qed.

Lemma round_half_even_near (y : Q) :
  (inject_Z (round_half_even y) - (1 # 2) <= y
   /\ y <= inject_Z (round_half_even y) + (1 # 2))%Q.
Proof.
  unfold round_half_even.
  pose proof (Qfloor_le y) as Hlo. pose proof (Qlt_floor y) as Hhi.
  rewrite inject_Z_plus in Hhi. change (inject_Z 1) with 1%Q in Hhi.
  destruct (y - inject_Z (Qfloor y) ?= 1 # 2)%Q eqn:E.
  - apply Qeq_alt in E. destruct (Z.even (Qfloor y)).
    + lra.
    + rewrite inject_Z_plus. change (inject_Z 1) with 1%Q. lra.
  - apply Qlt_alt in E. lra.
  - apply Qgt_alt in E. rewrite inject_Z_plus. change (inject_Z 1) with 1%Q. lra.
Qed.

Lemma pow10_pos (n : nat) : (0 < pow10 n)%Q.
Proof.
  unfold pow10. change 0%Q with (inject_Z 0). rewrite <- Zlt_Qlt.
  apply Z.pow_pos_nonneg; lia.
Qed.

(** [round(x, n)] is a whole number of units [10^-n], and it is within half
    a unit of [x]. *)
Lemma py_round_spec (x : Q) (n : nat) :
  (py_round x n * pow10 n == inject_Z (round_half_even (x * pow10 n)))%Q /\
  (Qabs (py_round x n - x) <= (1 # 2) / pow10 n)%Q.
Proof.
  pose proof (pow10_pos n) as HP.
  pose proof (round_half_even_near (x * pow10 n)) as [Hlo Hhi].
  unfold py_round. set (k := inject_Z (round_half_even (x * pow10 n))) in *.
  set (P := pow10 n) in *.
  split.
  - field. lra.
  - apply Qabs_Qle_condition.
    assert (Hx : (k / P - x == (k - x * P) / P)%Q) by (field; lra).
    rewrite Hx. unfold Qdiv.
    assert (HinvP : (0 < / P)%Q) by (apply Qinv_lt_0_compat; exact HP).
    split; nra.
Qed.

(** ** [_score_items] *)

Section Scoring.

Context `{Externals}.

Lemma score_loop_mapM (items : list json) (artefact : Artefact)
    (results : list Prediction) :
  score_loop items artefact results =
  (rs ← exc_mapM (fun item => score_or_error item artefact) items;
   mret (results ++ rs)).
Proof.
  revert results. induction items as [|item items IH]; intros results.
  - cbn. by rewrite app_nil_r.
  - cbn [score_loop exc_mapM].
    destruct (score_or_error item artefact) as [e|p]; [reflexivity|].
    cbn [mbind exc_bind]. rewrite IH.
    destruct (exc_mapM _ items) as [e|rs]; [reflexivity|].
    cbn. by rewrite <- app_assoc.
Qed.

Lemma score_items_mapM (items : list json) (artefact : Artefact) :
  _score_items items artefact =
  exc_mapM (fun item => score_or_error item artefact) items.
Proof.
  unfold _score_items. rewrite score_loop_mapM.
  destruct (exc_mapM _ items); reflexivity.
Qed.

Lemma score_or_error_dict (d : gmap string json) (artefact : Artefact) :
  score_or_error (JObj d) artefact = inr (entry_of d artefact).
Proof.
  unfold score_or_error, entry_of.
  destruct (score_item (JObj d) artefact); reflexivity.
Qed.

Lemma score_items_dicts (rows : list (gmap string json)) (artefact : Artefact) :
  _score_items (JObj <$> rows) artefact =
  inr ((fun d => entry_of d artefact) <$> rows).
Proof.
  rewrite score_items_mapM.
  rewrite (exc_mapM_inr _ (fun item => match item with
                                       | JObj d => entry_of d artefact
                                       | _ => entry_of ∅ artefact
                                       end)).
  - f_equal. rewrite <- list_fmap_compose. reflexivity.
  - intros x Hx. apply list_elem_of_fmap in Hx as (d & -> & _).
    apply score_or_error_dict.
Qed.

(** What a successful run of the [try] body puts into the entry. *)
Lemma score_item_inr (item : json) (artefact : Artefact) (p : Prediction) :
  score_item item artefact = inr p ->
  exists X raw scores conf,
    _engineer_row item artefact = inr X /\
    decision_function (art_model artefact) X = inr (raw :: scores) /\
    confidence_of (art_threshold artefact) raw = inr conf /\
    anomaly p = Some (Qltb raw (art_threshold artefact)) /\
    score p = Some (py_round raw 6) /\
    confidence p = Some (py_round conf 4) /\
    label p = (if Qltb raw (art_threshold artefact) then ANOMALY else NORMAL) /\
    error p = None.
Proof.
  unfold score_item.
  destruct (_engineer_row item artefact) as [e|X]; [discriminate|].
  cbn [mbind exc_bind].
  destruct (decision_function (art_model artefact) X) as [e|[|raw scores]] eqn:Hd;
    [discriminate|discriminate|].
  cbn [mbind exc_bind index0].
  destruct (predict_labels (art_model artefact) X) as [e|[|l labels]];
    [discriminate|discriminate|].
  cbn [mbind exc_bind index0].
  destruct (confidence_of (art_threshold artefact) raw) as [e|conf] eqn:Hc;
    [discriminate|].
  cbn [mbind exc_bind].
  destruct (py_get item "pr_number" JNull) as [e|pr]; [discriminate|].
  cbn [mbind exc_bind].
  destruct (py_get item "item_number" JNull) as [e|it]; [discriminate|].
  cbn. intros [= <-]. exists X, raw, scores, conf. cbn.
  repeat (split; [assumption || reflexivity|]). reflexivity.
Qed.

Lemma error_entry_inr (item : json) (e : exn) (p : Prediction) :
  error_entry item e = inr p ->
  label p = ERROR /\ error p = Some (exn_msg e) /\
  anomaly p = None /\ score p = None /\ confidence p = None.
Proof.
  unfold error_entry.
  destruct (py_get item "item_number" JNull) as [e'|it]; [discriminate|].
  cbn [mbind exc_bind].
  destruct (py_get item "pr_number" JNull) as [e'|pr]; [discriminate|].
  cbn. intros [= <-]. cbn. auto.
Qed.

Lemma score_or_error_shape (item : json) (artefact : Artefact) (p : Prediction) :
  score_or_error item artefact = inr p -> entry_shape artefact item p.
Proof.
  unfold score_or_error.
  destruct (score_item item artefact) as [e|q] eqn:E.
  - intros Herr. apply error_entry_inr in Herr as (Hl & He & Ha & Hs & Hc).
    left. eauto 10.
  - intros [= <-].
    apply score_item_inr in E
      as (X & raw & scores & conf & HX & Hd & Hconf & Ha & Hs & Hc & Hl & He).
    right. exists X, raw, scores, conf, (py_round raw 6), (py_round conf 4).
    pose proof (py_round_spec raw 6) as [? ?].
    pose proof (py_round_spec conf 4) as [? ?].
    pose proof (Qltb_lt raw (art_threshold artefact)).
    repeat (split; [assumption || reflexivity|]). exact He.
Qed.

Lemma exc_mapM_Forall2 {A B} (f : A -> exc B) (l : list A) (r : list B) :
  exc_mapM f l = inr r -> Forall2 (fun x y => f x = inr y) l r.
Proof.
  revert r. induction l as [|x l IH]; intros r; cbn.
  - intros [= <-]. constructor.
  - destruct (f x) as [e|y] eqn:E; cbn; [discriminate|].
    destruct (exc_mapM f l) as [e|ys]; cbn; [discriminate|].
    intros [= <-]. constructor; [exact E|]. by apply IH.
Qed.

(** C5. When [_score_items] returns, its entries line up with the items, and
    each entry is either an ERROR entry, which carries an error string and
    has no anomaly flag, score or confidence, or a scored entry: its anomaly
    flag is true exactly when the raw score of the model is strictly below
    the stored threshold, its label is ANOMALY when the flag is true and
    NORMAL otherwise, its score is the raw score rounded to 6 decimals and
    its confidence the computed confidence rounded to 4 decimals (a whole
    number of units [10^-6], resp. [10^-4], within half a unit of the
    unrounded value). *)
Theorem score_items_entry_shape (items : list json) (artefact : Artefact)
    (results : list Prediction) :
  _score_items items artefact = inr results ->
  Forall2 (entry_shape artefact) items results.
Proof.
  rewrite score_items_mapM. intros Hm.
  apply exc_mapM_Forall2 in Hm.
  eapply Forall2_impl; [exact Hm|].
  intros item p. apply score_or_error_shape.
Qed.

(** C7. In a batch of dict items, take any item and call the items before it
    [before] and those after it [after].  [_score_items] returns a list made
    of the entries of [before], one entry for the item, and the entries of
    [after], in this order; the entries of [before] and [after] are those that
    scoring the batch without the item returns, and those of scoring [before]
    and [after] alone; there are as many entries as items.  When scoring the
    item raises, its entry is the ERROR entry with the message of the
    exception and with anomaly, score and confidence empty. *)
Theorem score_items_isolation (artefact : Artefact)
    (before after : list (gmap string json)) (row : gmap string json) :
  exists (rs_before rs_after : list Prediction) (p : Prediction),
    _score_items (JObj <$> before ++ row :: after) artefact
      = inr (rs_before ++ p :: rs_after) /\
    _score_items (JObj <$> before ++ after) artefact
      = inr (rs_before ++ rs_after) /\
    _score_items (JObj <$> before) artefact = inr rs_before /\
    _score_items (JObj <$> after) artefact = inr rs_after /\
    length rs_before = length before /\
    length rs_after = length after /\
    length (rs_before ++ p :: rs_after) = length (before ++ row :: after) /\
    match score_item (JObj row) artefact with
    | inl e =>
        p = {| pr_number := dict_get row "pr_number" JNull;
               item_number := dict_get row "item_number" JNull;
               anomaly := None;
               score := None;
               confidence := None;
               label := ERROR;
               error := Some (exn_msg e) |}
    | inr q => p = q /\ label p <> ERROR
    end.
Proof.
  exists ((fun d => entry_of d artefact) <$> before),
         ((fun d => entry_of d artefact) <$> after),
         (entry_of row artefact).
  rewrite !score_items_dicts, fmap_app, fmap_app, fmap_cons.
  do 4 (split; [reflexivity|]).
  split; [by rewrite length_fmap|].
  split; [by rewrite length_fmap|].
  split; [rewrite !length_app; cbn; by rewrite !length_fmap|].
  unfold entry_of.
  destruct (score_item (JObj row) artefact) as [e|q] eqn:E; [reflexivity|].
  split; [reflexivity|].
  apply score_item_inr in E as (_ & raw & _ & _ & _ & _ & _ & _ & _ & _ & Hl & _).
  rewrite Hl. by destruct (Qltb raw (art_threshold artefact)).
Qed.

End Scoring.

(** ** Column order *)

Section ColumnOrder.

Context `{Externals}.

Lemma exc_mapM_fst {A} (f : string -> exc (string * A)) (cols : list string)
    (X : list (string * A)) :
  (forall c y, f c = inr y -> y.1 = c) ->
  exc_mapM f cols = inr X -> fst <$> X = cols.
Proof.
  intros Hf. revert X. induction cols as [|c cols IH]; intros X; cbn.
  - intros [= <-]. reflexivity.
  - destruct (f c) as [e|y] eqn:E; cbn; [discriminate|].
    destruct (exc_mapM f cols) as [e|ys]; cbn; [discriminate|].
    intros [= <-]. cbn. rewrite (Hf c y E). f_equal. by apply IH.
Qed.

Lemma df_select_columns (df X : DataFrame) (cols : list string) :
  df_select df cols = inr X -> df_columns X = cols.
Proof.
  apply exc_mapM_fst. intros c y.
  destruct (df_get df c) as [e|s]; cbn; [discriminate|]. by intros [= <-].
Qed.

Lemma record_select_columns (record : gmap string json) (X : DataFrame)
    (cols : list string) :
  record_select record cols = inr X ->
  df_columns X = cols /\ Forall (fun c => length c.2 = 1) X.
Proof.
  intros HX. split.
  - revert HX. apply exc_mapM_fst. intros c y.
    destruct (record !! c); cbn; [|discriminate]. by intros [= <-].
  - apply exc_mapM_Forall2 in HX.
    induction HX as [|c y cols X Hy _ IH]; constructor; [|exact IH].
    destruct (record !! c); cbn in Hy; [|discriminate].
    by injection Hy as <-.
Qed.

Lemma engineer_row_columns (row : json) (artefact : Artefact) (X : DataFrame) :
  _engineer_row row artefact = inr X ->
  df_columns X = art_feature_cols artefact /\
  Forall (fun c => length c.2 = 1) X.
Proof.
  unfold _engineer_row.
  repeat (match goal with
          | |- context [mbind _ ?m] =>
              destruct m; cbn [mbind exc_bind]; [discriminate|]
          end).
  apply record_select_columns.
Qed.

Lemma engineer_features_columns (df X : DataFrame)
    (encoders : gmap string LabelEncoder) :
  engineer_features df = inr (X, encoders) ->
  df_columns X = feature_cols_of_training.
Proof.
  unfold engineer_features.
  repeat (match goal with
          | |- context [mbind _ ?m] =>
              lazymatch m with
              | df_select _ _ => fail
              | _ => destruct m; cbn [mbind exc_bind]; [discriminate|]
              end
          end).
  match goal with
  | |- context [df_select ?a ?b] => destruct (df_select a b) as [e|X'] eqn:E
  end; cbn [mbind exc_bind]; [discriminate|].
  cbn. intros [= <- _]. by apply df_select_columns in E.
Qed.

Lemma train_inr (cfg : Config) (df : DataFrame) (artefact : Artefact)
    (encoders : gmap string LabelEncoder) :
  train cfg df = inr (artefact, encoders) ->
  exists X scores,
    engineer_features df = inr (X, encoders) /\
    forest_fit cfg X = inr (art_model artefact) /\
    decision_function (art_model artefact) X = inr scores /\
    np_percentile scores (CONTAMINATION cfg * 100) = inr (art_threshold artefact) /\
    art_feature_cols artefact = df_columns X /\
    art_encoders artefact = encoders.
Proof.
  unfold train.
  destruct (engineer_features df) as [e|[X encs]] eqn:HX; [discriminate|].
  cbn [mbind exc_bind fst snd].
  destruct (forest_fit cfg X) as [e|model] eqn:Hm; [discriminate|].
  cbn [mbind exc_bind].
  destruct (decision_function model X) as [e|scores] eqn:Hs; [discriminate|].
  cbn [mbind exc_bind].
  destruct (np_percentile scores (CONTAMINATION cfg * 100)) as [e|thr] eqn:Ht;
    [discriminate|].
  cbn. intros [= <- <-]. exists X, scores. cbn. auto 10.
Qed.

(** C4. For an artefact produced by [train]: the recorded [feature_cols] is
    the encoded categorical columns in declared order followed by the
    numeric and derived features in declared order; the training matrix has
    its columns in that order; every frame [_engineer_row] produces against
    the artefact has one row and exactly these columns in this order, and two
    transforms of the same record give the same frame. *)
Theorem feature_column_order (cfg : Config) (df : DataFrame)
    (artefact : Artefact) (encoders : gmap string LabelEncoder) :
  train cfg df = inr (artefact, encoders) ->
  art_feature_cols artefact
    = (enc_name <$> CATEGORICAL_FEATURES) ++ NUMERIC_FEATURES /\
  (exists X, engineer_features df = inr (X, encoders) /\
             df_columns X = art_feature_cols artefact) /\
  forall (row : json) (X1 X2 : DataFrame),
    _engineer_row row artefact = inr X1 ->
    _engineer_row row artefact = inr X2 ->
    X1 = X2 /\
    df_columns X1 = art_feature_cols artefact /\
    Forall (fun c => length c.2 = 1) X1.
Proof.
  intros Ht.
  apply train_inr in Ht as (X & scores & HX & _ & _ & _ & Hcols & _).
  pose proof (engineer_features_columns _ _ _ HX) as HXc.
  split; [by rewrite Hcols, HXc|].
  split; [exists X; by rewrite Hcols|].
  intros row X1 X2 H1 H2.
  split; [congruence|].
  exact (engineer_row_columns row artefact X1 H1).
Qed.

End ColumnOrder.

(** ** [float] of an [int] *)

Section FloatOfInt.

Local Open Scope Z_scope.

Lemma abs_sgn_mul (z x : Z) :
  z <> 0 -> (0 <= x) -> Z.abs (Z.sgn z * x) = x.
Proof. intros Hz Hx. destruct z; [done|..]; cbn [Z.sgn]; lia. Qed.

Lemma float_of_int_exact (z : Z) :
  (Z.abs z < 2 ^ 53) -> float_of_int z = Some z.
Proof.
  intros Hz. unfold float_of_int, round_to_double.
  assert (Hb : (Z.log2 (Z.abs z) + 1 <= 53)).
  { destruct (Z.eq_dec (Z.abs z) 0) as [->|Hne]; [cbn; lia|].
    assert (Z.log2 (Z.abs z) < 53) by (apply Z.log2_lt_pow2; lia). lia. }
  apply Z.leb_le in Hb. rewrite Hb.
  assert (Hlt : (Z.abs z <? 2 ^ 1024) = true)
    by (apply Z.ltb_lt; eapply Z.lt_trans; [exact Hz|reflexivity]).
  by rewrite Hlt.
Qed.

Lemma float_of_int_overflow (z : Z) :
  float_of_int z = None <-> (2 ^ 1024 - 2 ^ 970 <= Z.abs z).
Proof.
  unfold float_of_int, round_to_double.
  set (a := Z.abs z).
  destruct (Z.leb_spec (Z.log2 a + 1) 53) as [Hb|Hb].
  { fold a.
    assert (Ha : (a < 2 ^ 53)).
    { destruct (Z.eq_dec a 0) as [->|Hne]; [reflexivity|].
      apply Z.log2_lt_pow2; unfold a in *; lia. }
    assert (H53 : (2 ^ 53 < 2 ^ 1024 - 2 ^ 970)) by reflexivity.
    assert (Hlt : (a <? 2 ^ 1024) = true) by (apply Z.ltb_lt; lia).
    rewrite Hlt. split; [discriminate|lia]. }
  assert (Hpos : (0 < a)).
  { destruct (Z.le_gt_cases a 0) as [Hle|]; [|lia].
    rewrite (Z.log2_nonpos a Hle) in Hb. lia. }
  assert (Hz : z <> 0) by (unfold a in Hpos; lia).
  destruct (Z.log2_spec a Hpos) as [Hlo Hhi].
  set (k := Z.log2 a) in *.
  set (sh := (k + 1 - 53)).
  set (P := (2 ^ sh)).
  assert (Hsh : (1 <= sh)) by (unfold sh; lia).
  assert (HP : (0 < P)) by (apply Z.pow_pos_nonneg; lia).
  assert (Hk : (2 ^ k = 2 ^ 52 * P)).
  { unfold P. rewrite <- Z.pow_add_r by lia. f_equal. unfold sh. lia. }
  assert (Hk1 : (2 ^ Z.succ k = 2 ^ 53 * P)).
  { unfold P. rewrite <- Z.pow_add_r by lia. f_equal. unfold sh. lia. }
  assert (Hhalf : (P = 2 * 2 ^ (sh - 1))).
  { unfold P. rewrite <- (Z.pow_succ_r 2 (sh - 1)) by lia. f_equal. lia. }
  set (half := (2 ^ (sh - 1))) in *.
  pose proof (Z.div_mod a P ltac:(lia)) as Hdm.
  pose proof (Z.mod_pos_bound a P HP) as Hr.
  set (q := (a / P)) in *.
  assert (Hrq : (a - q * P = a mod P)) by lia.
  rewrite Hrq. set (r := (a mod P)) in *.
  assert (Hq : (2 ^ 52 <= q < 2 ^ 53)).
  { split.
    - apply Z.div_le_lower_bound; [exact HP|]. lia.
    - apply Z.div_lt_upper_bound; [exact HP|]. lia. }
  set (q' := if (r <? half) then q
             else if (half <? r) then (q + 1)
             else if Z.even q then q else (q + 1)).
  assert (Hq' : (q <= q' <= q + 1)).
  { unfold q'. destruct (r <? half), (half <? r), (Z.even q); lia. }
  rewrite abs_sgn_mul; [|exact Hz|nia].
  destruct (Z.lt_trichotomy k 1023) as [Hlt|[Heq|Hgt]].
  - (* the result is at most [2^(k+1) <= 2^1023] *)
    assert (Hpow : (2 ^ Z.succ k <= 2 ^ 1023))
      by (apply Z.pow_le_mono_r; lia).
    assert (Hres : (q' * P <= 2 ^ 53 * P))
      by (apply Z.mul_le_mono_nonneg_r; lia).
    assert (H1 : (2 ^ 1023 < 2 ^ 1024 - 2 ^ 970)) by reflexivity.
    assert (H2 : (2 ^ 1023 < 2 ^ 1024)) by reflexivity.
    assert (Hlt' : (q' * P <? 2 ^ 1024) = true) by (apply Z.ltb_lt; lia).
    rewrite Hlt'. split; [discriminate|lia].
  - (* the binade below [2^1024] *)
    assert (Hs : sh = 971) by (unfold sh; lia).
    assert (HPv : P = 2 ^ 971) by (unfold P; by rewrite Hs).
    assert (Hhv : half = 2 ^ 970) by (unfold half; rewrite Hs; reflexivity).
    assert (Hc : 2 ^ 1024 = 2 ^ 53 * P) by (rewrite HPv; reflexivity).
    assert (Hc' : 2 ^ 970 = half) by (by rewrite Hhv).
    rewrite Hc, Hc'. clear Hlo Hhi Hk Hk1 Hc Hc' HPv Hhv Hrq.
    assert (Ha : a = q * P + r) by lia.
    clearbody q r. clear Hdm.
    assert (Hcases : q = 2 ^ 53 - 1 \/ q <= 2 ^ 53 - 2) by lia.
    destruct Hcases as [Hqv|Hqv].
    + assert (Hqp : q * P = 2 ^ 53 * P - P) by (rewrite Hqv; ring).
      assert (Hev : Z.even q = false) by (rewrite Hqv; reflexivity).
      unfold q'. rewrite Hev.
      destruct (Z.ltb_spec r half) as [H1|H1].
      * assert (Hlt' : (q * P <? 2 ^ 53 * P) = true) by (apply Z.ltb_lt; lia).
        rewrite Hlt'. split; [discriminate|lia].
      * assert (Hup : (if half <? r then q + 1 else q + 1) = q + 1)
          by (by destruct (half <? r)).
        rewrite Hup.
        assert (Hqp1 : (q + 1) * P = 2 ^ 53 * P) by (rewrite Hqv; ring).
        rewrite Hqp1, Z.ltb_irrefl. split; [lia|reflexivity].
    + assert (Hqp : q' * P <= (2 ^ 53 - 1) * P)
        by (apply Z.mul_le_mono_nonneg_r; lia).
      assert (Hqp2 : q * P <= (2 ^ 53 - 2) * P)
        by (apply Z.mul_le_mono_nonneg_r; lia).
      assert (Hlt' : (q' * P <? 2 ^ 53 * P) = true) by (apply Z.ltb_lt; lia).
      fold q'. rewrite Hlt'. split; [discriminate|lia].
  - (* at least [2^1024] *)
    assert (Hpow : (2 ^ 1024 <= 2 ^ k)) by (apply Z.pow_le_mono_r; lia).
    assert (Hres : (2 ^ 52 * P <= q' * P))
      by (apply Z.mul_le_mono_nonneg_r; lia).
    destruct (Z.ltb_spec (q' * P) (2 ^ 1024)) as [H3|H3]; [lia|].
    split; [|reflexivity]. intros _.
    assert (0 < 2 ^ 970) by reflexivity. lia.
Qed.

End FloatOfInt.

(** ** Numeric fields *)

Section NumericFields.

Context `{Externals}.

Lemma numeric_value_falsy (d : gmap string json) (field : string) :
  truthy (dict_get d field (JInt 0)) = false ->
  numeric_value d field = inr (Fin 0).
Proof.
  intros Hf. unfold numeric_value, py_or. rewrite Hf. reflexivity.
Qed.

Lemma numeric_value_raises (d : gmap string json) (field : string) (e : exn) :
  numeric_value d field = inl e ->
  exists v, d !! field = Some v /\ truthy v = true /\ py_float v = inl e.
Proof.
  unfold numeric_value, py_or, dict_get.
  destruct (d !! field) as [v|]; cbn.
  - destruct (truthy v) eqn:Hv.
    + intros He. exists v. auto.
    + cbn. discriminate.
  - discriminate.
Qed.

Lemma entry_of_engineer_raises (d : gmap string json) (artefact : Artefact)
    (e : exn) :
  _engineer_row (JObj d) artefact = inl e ->
  label (entry_of d artefact) = ERROR /\
  error (entry_of d artefact) = Some (exn_msg e).
Proof.
  intros He. unfold entry_of, score_item. rewrite He. cbn. auto.
Qed.

Lemma py_div_inr (a b : Q) : ~ (b == 0)%Q -> py_div a b = inr (a / b)%Q.
Proof.
  intros Hb. unfold py_div.
  destruct (Qeq_bool b 0) eqn:E; [|reflexivity].
  apply Qeq_bool_iff in E. contradiction.
Qed.

Lemma confidence_of_inr (t s : Q) :
  ~ (t + eps == 0)%Q ->
  confidence_of t s = inr (np_clip ((t - s) / Qabs (t + eps)) 0 1).
Proof.
  intros Ht. unfold confidence_of. rewrite py_div_inr; [reflexivity|].
  intros Habs. apply Ht. revert Habs.
  apply Qabs_case; intros; lra.
Qed.

Lemma entry_of_scored (d : gmap string json) (artefact : Artefact)
    (X : DataFrame) (raw : Q) (scores : list Q) (l : Z) (labels : list Z) :
  _engineer_row (JObj d) artefact = inr X ->
  decision_function (art_model artefact) X = inr (raw :: scores) ->
  predict_labels (art_model artefact) X = inr (l :: labels) ->
  ~ (art_threshold artefact + eps == 0)%Q ->
  label (entry_of d artefact) <> ERROR.
Proof.
  intros HX Hd Hl Ht. unfold entry_of, score_item.
  rewrite HX. cbn [mbind exc_bind]. rewrite Hd. cbn [mbind exc_bind index0].
  rewrite Hl. cbn [mbind exc_bind index0].
  rewrite confidence_of_inr by exact Ht. cbn.
  by destruct (Qltb raw (art_threshold artefact)).
Qed.

Lemma py_float_unconvertible (v : json) :
  (exists e, py_float v = inl e) <-> unconvertible v.
Proof.
  unfold py_float, unconvertible. destruct v as [|b|z|x|s|l|o].
  - split; [done|]. intros _. eexists. reflexivity.
  - split; [|done]. intros [e He]. discriminate.
  - pose proof (float_of_int_overflow z) as Hz.
    destruct (float_of_int z) as [r|].
    + split; [intros [e He]; discriminate|].
      intros Hge. apply Hz in Hge. discriminate.
    + split; [intros _; by apply Hz|]. intros _. eexists. reflexivity.
  - split; [|done]. intros [e He]. discriminate.
  - destruct (float_of_str s) as [x|].
    + split; [intros [e He]|intros He]; discriminate.
    + split; [done|]. intros _. eexists. reflexivity.
  - split; [done|]. intros _. eexists. reflexivity.
  - split; [done|]. intros _. eexists. reflexivity.
Qed.

Lemma numeric_value_truthy (d : gmap string json) (field : string) (v : json) :
  d !! field = Some v -> truthy v = true ->
  numeric_value d field = py_float v.
Proof.
  intros Hv Ht. unfold numeric_value, dict_get, py_or. rewrite Hv.
  cbn [default from_option id]. by rewrite Ht.
Qed.

Lemma engineer_row_numeric_raises (d : gmap string json) (artefact : Artefact)
    (date : option (Z * Z)) (field : string) (e : exn) :
  art_feature_cols artefact = feature_cols_of_training ->
  to_datetime (dict_get d "pr_date" JNull) = inr date ->
  field = "quantity" \/ field = "net_price" ->
  numeric_value d field = inl e ->
  exists e', _engineer_row (JObj d) artefact = inl e' /\
             (numeric_value d "quantity" = inl e' \/
              numeric_value d "net_price" = inl e').
Proof.
  intros Hcols Hdate Hfield He.
  rewrite (engineer_row_dict d artefact Hcols), Hdate.
  cbn [mbind exc_bind].
  destruct (numeric_value d "quantity") as [eq|q] eqn:Hq.
  - exists eq. auto.
  - destruct Hfield as [-> | ->]; [congruence|].
    exists e. rewrite He. auto.
Qed.

Lemma entry_of_scored_eq (d : gmap string json) (artefact : Artefact)
    (X : DataFrame) (raw : Q) (scores : list Q) (l : Z) (labels : list Z) :
  _engineer_row (JObj d) artefact = inr X ->
  decision_function (art_model artefact) X = inr (raw :: scores) ->
  predict_labels (art_model artefact) X = inr (l :: labels) ->
  ~ (art_threshold artefact + eps == 0)%Q ->
  entry_of d artefact =
  {| pr_number := dict_get d "pr_number" JNull;
     item_number := dict_get d "item_number" JNull;
     anomaly := Some (Qltb raw (art_threshold artefact));
     score := Some (py_round raw 6);
     confidence :=
       Some (py_round
               (np_clip ((art_threshold artefact - raw)
                         / Qabs (art_threshold artefact + eps)) 0 1) 4);
     label := if Qltb raw (art_threshold artefact) then ANOMALY else NORMAL;
     error := None |}.
Proof.
  intros HX Hd Hl Ht. unfold entry_of, score_item.
  rewrite HX. cbn [mbind exc_bind]. rewrite Hd. cbn [mbind exc_bind index0].
  rewrite Hl. cbn [mbind exc_bind index0].
  rewrite confidence_of_inr by exact Ht. reflexivity.
Qed.

(** C9, as the code has it.  For a dict item scored against an artefact
    with the training columns, once the date step has returned:
    - a numeric field that is absent or holds a falsy value (null, the empty
      string, zero, false, an empty list or dict) is encoded as [0.0];
    - a numeric field that holds a truthy value is handed to [float], which
      raises exactly on an unconvertible value: a list, a dict, a string
      that does not parse, an integer beyond the range of a double;
    - a truthy unconvertible value in [quantity] or [net_price] makes
      [_engineer_row] raise the exception of the first such conversion, and
      the item gets the ERROR entry carrying its message;
    - conversely, when [_engineer_row] raises, the exception is [float]'s,
      raised on a truthy unconvertible value of [quantity] or [net_price];
    - when both conversions return, [_engineer_row] returns the feature row
      with these two values; and when, on that row, the model gives a score
      and a label and [threshold + 1e-9] is not zero, the item gets the
      scored entry, which is not an ERROR entry. *)
Theorem numeric_fields_fallback (d : gmap string json) (artefact : Artefact)
    (date : option (Z * Z)) :
  art_feature_cols artefact = feature_cols_of_training ->
  to_datetime (dict_get d "pr_date" JNull) = inr date ->
  (forall field, truthy (dict_get d field (JInt 0)) = false ->
                 numeric_value d field = inr (Fin 0)) /\
  (forall field v, d !! field = Some v -> truthy v = true ->
     numeric_value d field = py_float v /\
     ((exists e, numeric_value d field = inl e) <-> unconvertible v)) /\
  (forall field v,
     field = "quantity" \/ field = "net_price" ->
     d !! field = Some v -> truthy v = true -> unconvertible v ->
     exists e,
       _engineer_row (JObj d) artefact = inl e /\
       (numeric_value d "quantity" = inl e \/
        numeric_value d "net_price" = inl e) /\
       _score_items [JObj d] artefact =
       inr [ {| pr_number := dict_get d "pr_number" JNull;
                item_number := dict_get d "item_number" JNull;
                anomaly := None;
                score := None;
                confidence := None;
                label := ERROR;
                error := Some (exn_msg e) |} ]) /\
  (forall e, _engineer_row (JObj d) artefact = inl e ->
     exists field v, (field = "quantity" \/ field = "net_price") /\
        d !! field = Some v /\ truthy v = true /\ unconvertible v /\
        py_float v = inl e) /\
  (forall q np, numeric_value d "quantity" = inr q ->
                numeric_value d "net_price" = inr np ->
     let X := feature_row (cat_code (art_encoders artefact) d) q np
                (day_of date) (month_of date) (text_length_of d) in
     _engineer_row (JObj d) artefact = inr X /\
     forall raw scores l labels,
       decision_function (art_model artefact) X = inr (raw :: scores) ->
       predict_labels (art_model artefact) X = inr (l :: labels) ->
       ~ (art_threshold artefact + eps == 0)%Q ->
       _score_items [JObj d] artefact =
       inr [ {| pr_number := dict_get d "pr_number" JNull;
                item_number := dict_get d "item_number" JNull;
                anomaly := Some (Qltb raw (art_threshold artefact));
                score := Some (py_round raw 6);
                confidence :=
                  Some (py_round
                          (np_clip ((art_threshold artefact - raw)
                                    / Qabs (art_threshold artefact + eps))
                             0 1) 4);
                label := if Qltb raw (art_threshold artefact)
                         then ANOMALY else NORMAL;
                error := None |} ]).
Proof.
  intros Hcols Hdate.
  pose proof (engineer_row_dict d artefact Hcols) as Hrow.
  rewrite Hdate in Hrow. cbn [mbind exc_bind] in Hrow.
  split; [apply numeric_value_falsy|].
  split.
  { intros field v Hv Ht.
    rewrite (numeric_value_truthy d field v Hv Ht).
    split; [reflexivity|apply py_float_unconvertible]. }
  split.
  { intros field v Hfield Hv Ht Hun.
    apply py_float_unconvertible in Hun as [e0 He0].
    rewrite <- (numeric_value_truthy d field v Hv Ht) in He0.
    destruct (engineer_row_numeric_raises d artefact date field e0
                Hcols Hdate Hfield He0) as (e & He & Hfrom).
    exists e. split; [exact He|]. split; [exact Hfrom|].
    rewrite (score_items_dicts [d] artefact). cbn [fmap list_fmap].
    unfold entry_of, score_item. rewrite He. reflexivity. }
  split.
  { intros e He. rewrite Hrow in He.
    destruct (numeric_value d "quantity") as [eq|q] eqn:Hq.
    - cbn in He. injection He as ->.
      destruct (numeric_value_raises _ _ _ Hq) as (v & Hv & Ht & Hf).
      exists "quantity", v. repeat (split; [by auto|]).
      split; [|exact Hf]. apply py_float_unconvertible. eauto.
    - cbn [mbind exc_bind] in He.
      destruct (numeric_value d "net_price") as [en|np] eqn:Hnp;
        [|discriminate].
      cbn in He. injection He as ->.
      destruct (numeric_value_raises _ _ _ Hnp) as (v & Hv & Ht & Hf).
      exists "net_price", v. repeat (split; [by auto|]).
      split; [|exact Hf]. apply py_float_unconvertible. eauto. }
  intros q np Hq Hnp X.
  assert (HX : _engineer_row (JObj d) artefact = inr X).
  { rewrite Hrow, Hq. cbn [mbind exc_bind]. rewrite Hnp. reflexivity. }
  split; [exact HX|].
  intros raw scores l labels Hd Hl Ht.
  rewrite (score_items_dicts [d] artefact). cbn [fmap list_fmap].
  by rewrite (entry_of_scored_eq d artefact X raw scores l labels HX Hd Hl Ht).
Qed.

End NumericFields.

(** ** The predict handler *)

Section Predict.

Context `{Externals}.

Lemma on_exception_status (e : exn) :
  (on_exception e).2 = 503%Z \/ (on_exception e).2 = 500%Z.
Proof. unfold on_exception. destruct (exn_kind_of e); cbn; auto. Qed.

Lemma load_model_trace (w : World) :
  exists rest, trace (_load_model w).2 = trace w ++ ModelAccess :: rest.
Proof.
  unfold _load_model. cbn.
  destruct (_artefact w); [exists []; reflexivity|].
  destruct (model_file w); cbn.
  - exists [FileLoad]. by rewrite <- app_assoc.
  - exists []. reflexivity.
Qed.

Lemma load_model_raises (w : World) (e : exn) :
  (_load_model w).1 = inl e ->
  _artefact w = None /\ model_file w = None /\
  e = Exn FileNotFoundError "Model file not found" /\
  (_load_model w).2 = record_event ModelAccess w.
Proof.
  unfold _load_model. cbn.
  destruct (_artefact w); [discriminate|].
  destruct (model_file w); cbn; [discriminate|].
  intros [= <-]. auto.
Qed.

Lemma predict_passes (body : RequestBody) (w : World) (items : list json) :
  get_json body <> JNull ->
  select_items (get_json body) = inr (inr items) ->
  items <> [] ->
  predict body w = predict_checked items w.
Proof.
  intros Hnull Hsel Hne. unfold predict.
  destruct (get_json body); try congruence;
    rewrite Hsel; destruct items; try congruence; reflexivity.
Qed.

Lemma predict_checked_status (items : list json) (w : World) :
  (predict_checked items w).1.2 <> 400%Z /\
  exists rest, trace (predict_checked items w).2 = trace w ++ ModelAccess :: rest.
Proof.
  unfold predict_checked.
  destruct (load_model_trace w) as [rest Hrest].
  destruct (_load_model w).1 as [e|artefact].
  - cbn [fst snd].
    split; [destruct (on_exception_status e) as [-> | ->]; lia|].
    exists rest. exact Hrest.
  - cbn zeta.
    assert (Htr : exists rest', trace (record_event Scoring (_load_model w).2)
                                = trace w ++ ModelAccess :: rest').
    { exists (rest ++ [Scoring]). cbn. rewrite Hrest.
      by rewrite <- app_assoc. }
    destruct (_score_items items artefact) as [e|ps]; cbn [fst snd].
    + split; [destruct (on_exception_status e) as [-> | ->]; lia|exact Htr].
    + split; [lia|exact Htr].
Qed.

(** Every run of the handler is an early answer that leaves the world as it
    was, or a run of [predict_checked] on a non-empty list of items. *)
Lemma predict_cases (body : RequestBody) (w : World) :
  ((predict body w).2 = w /\ trace (predict body w).2 = trace w) \/
  (exists items, get_json body <> JNull /\
     select_items (get_json body) = inr (inr items) /\ items <> [] /\
     predict body w = predict_checked items w).
Proof.
  assert (Hdec : get_json body = JNull \/ get_json body <> JNull)
    by (destruct (get_json body); auto; right; discriminate).
  destruct Hdec as [Hn|Hn].
  { left. unfold predict. rewrite Hn. auto. }
  destruct (select_items (get_json body)) as [e|[resp|[|item items]]] eqn:Hsel.
  - left. unfold predict. destruct (get_json body); try congruence;
      rewrite Hsel; auto.
  - left. unfold predict. destruct (get_json body); try congruence;
      rewrite Hsel; auto.
  - left. unfold predict. destruct (get_json body); try congruence;
      rewrite Hsel; auto.
  - right. exists (item :: items). split; [exact Hn|]. split; [reflexivity|].
    split; [discriminate|]. by apply predict_passes.
Qed.

(** C8. The handler answers 400 and leaves the world untouched, so that the
    model is neither loaded nor asked to score, when the body is missing or
    is not JSON (or is JSON null), when [items] is present and is not a list,
    and when [items] is the empty list.  Conversely a 400 answer never touches
    the world, and whenever the trace of model accesses grows the payload has
    passed the three checks and the first new event is the call of
    [_load_model].  When the checks have passed and the model is neither
    cached nor on disk, the answer is the 503 error body, with no prediction
    list. *)
Theorem predict_input_checks (body : RequestBody) (w : World) :
  (get_json body = JNull ->
   predict body w = ((ErrorBody "Invalid or missing JSON body" None, 400%Z), w)) /\
  (forall d v, get_json body = JObj d -> d !! "items" = Some v ->
     (forall l, v <> JList l) ->
     predict body w = ((ErrorBody "'items' must be a list" None, 400%Z), w)) /\
  (forall d, get_json body = JObj d -> d !! "items" = Some (JList []) ->
     predict body w = ((ErrorBody "Empty items list" None, 400%Z), w)) /\
  ((predict body w).1.2 = 400%Z -> (predict body w).2 = w) /\
  (trace (predict body w).2 <> trace w ->
   exists items rest,
     get_json body <> JNull /\
     select_items (get_json body) = inr (inr items) /\ items <> [] /\
     trace (predict body w).2 = trace w ++ ModelAccess :: rest) /\
  (forall items,
     get_json body <> JNull ->
     select_items (get_json body) = inr (inr items) -> items <> [] ->
     _artefact w = None -> model_file w = None ->
     predict body w =
     ((ErrorBody "Model not loaded" (Some "Model file not found"), 503%Z),
      record_event ModelAccess w)).
Proof.
  split; [intros Hn; unfold predict; by rewrite Hn|].
  split.
  { intros d v Hd Hv Hnl. unfold predict, select_items. rewrite Hd.
    cbn [contains_items getitem_items mbind exc_bind mret exc_ret].
    rewrite Hv. rewrite bool_decide_eq_true_2 by eauto.
    destruct v; try reflexivity. exfalso. by eapply Hnl. }
  split.
  { intros d Hd Hv. unfold predict, select_items. rewrite Hd.
    cbn [contains_items getitem_items mbind exc_bind mret exc_ret].
    rewrite Hv. rewrite bool_decide_eq_true_2 by eauto. reflexivity. }
  split.
  { intros H400.
    destruct (predict_cases body w) as [[Hw _]|(items & _ & _ & _ & Hp)];
      [exact Hw|].
    rewrite Hp in H400.
    destruct (predict_checked_status items w) as [Hs _]. contradiction. }
  split.
  { intros Htr.
    destruct (predict_cases body w) as [[_ Hw]|(items & Hn & Hsel & Hne & Hp)];
      [contradiction|].
    destruct (predict_checked_status items w) as [_ [rest Hrest]].
    exists items, rest. rewrite Hp. auto. }
  intros items Hn Hsel Hne Hcache Hfile.
  rewrite (predict_passes body w items Hn Hsel Hne).
  unfold predict_checked, _load_model. cbn. rewrite Hcache, Hfile. reflexivity.
Qed.

Lemma predict_single (d : gmap string json) (w : World) :
  d !! "items" = None ->
  predict (JsonBody (JObj d)) w = predict_checked [JObj d] w.
Proof.
  intros Hd. apply predict_passes; [discriminate| |discriminate].
  unfold select_items. cbn [get_json contains_items mbind exc_bind mret exc_ret].
  rewrite bool_decide_eq_false_2; [reflexivity|].
  rewrite Hd. by intros [? ?].
Qed.

(** C10, as the code has it.  A JSON object without an [items] key is
    handled as the batch that holds this one record: the answer is never the
    400 of an empty batch; when the model loads, the answer is 200 with
    exactly one prediction, the entry of this record, which is the scored
    entry whenever [_engineer_row] returns a row, the model gives a score
    and a label on it and [threshold + 1e-9] is not zero, and the handler's
    ERROR entry whenever the [try] body raises; when the model file is
    missing and nothing is cached, [_load_model] raises [FileNotFoundError]
    and the answer is the 503 body with its message.
    The empty object is such a body.  Against an artefact with the training
    columns, with [pd.to_datetime(None)] being [None], its feature row is:
    for each categorical column the code of the sentinel string, which is
    [-1] when the sentinel was not fitted and the position of the sentinel
    among the fitted classes when it was; [0.0] for quantity and net price;
    [-1] for day of week and month; [0] for the text length.  This row is
    what the model scores: with a score and a label from the model and
    [threshold + 1e-9] not zero, the answer to the empty object is 200 with
    the one scored entry, whose identifiers are null. *)
Theorem predict_single_record (d : gmap string json) (w : World) :
  d !! "items" = None ->
  (predict (JsonBody (JObj d)) w).1.2 <> 400%Z /\
  (forall artefact, (_load_model w).1 = inr artefact ->
     predict (JsonBody (JObj d)) w =
     ((PredictionsBody [entry_of d artefact], 200%Z),
      record_event Scoring (_load_model w).2) /\
     score_or_error (JObj d) artefact = inr (entry_of d artefact) /\
     _score_items [JObj d] artefact = inr [entry_of d artefact] /\
     (forall X raw scores l labels,
        _engineer_row (JObj d) artefact = inr X ->
        decision_function (art_model artefact) X = inr (raw :: scores) ->
        predict_labels (art_model artefact) X = inr (l :: labels) ->
        ~ (art_threshold artefact + eps == 0)%Q ->
        entry_of d artefact =
        {| pr_number := dict_get d "pr_number" JNull;
           item_number := dict_get d "item_number" JNull;
           anomaly := Some (Qltb raw (art_threshold artefact));
           score := Some (py_round raw 6);
           confidence :=
             Some (py_round
                     (np_clip ((art_threshold artefact - raw)
                               / Qabs (art_threshold artefact + eps)) 0 1) 4);
           label := if Qltb raw (art_threshold artefact)
                    then ANOMALY else NORMAL;
           error := None |}) /\
     (forall e, score_item (JObj d) artefact = inl e ->
        entry_of d artefact =
        {| pr_number := dict_get d "pr_number" JNull;
           item_number := dict_get d "item_number" JNull;
           anomaly := None;
           score := None;
           confidence := None;
           label := ERROR;
           error := Some (exn_msg e) |})) /\
  (forall e, (_load_model w).1 = inl e ->
     exn_kind_of e = FileNotFoundError ->
     predict (JsonBody (JObj d)) w =
     ((ErrorBody "Model not loaded" (Some (exn_msg e)), 503%Z),
      (_load_model w).2)) /\
  (_artefact w = None -> model_file w = None ->
   exists e, (_load_model w).1 = inl e /\
             exn_kind_of e = FileNotFoundError) /\
  (forall artefact,
     art_feature_cols artefact = feature_cols_of_training ->
     to_datetime JNull = inr None ->
     let X :=
       feature_row
         (fun col => match art_encoders artefact !! col with
                     | Some le => code_in (classes_ le) UNKNOWN
                     | None => (-1)%Z
                     end)
         (Fin 0) (Fin 0) (-1) (-1) 0 in
     (∅ : gmap string json) !! "items" = None /\
     _engineer_row (JObj ∅) artefact = inr X /\
     (forall col le, art_encoders artefact !! col = Some le ->
        ((UNKNOWN ∉ classes_ le) -> code_in (classes_ le) UNKNOWN = (-1)%Z) /\
        (UNKNOWN ∈ classes_ le ->
         exists i : nat, code_in (classes_ le) UNKNOWN = Z.of_nat i /\
                         classes_ le !! i = Some UNKNOWN)) /\
     (forall raw scores l labels,
        decision_function (art_model artefact) X = inr (raw :: scores) ->
        predict_labels (art_model artefact) X = inr (l :: labels) ->
        ~ (art_threshold artefact + eps == 0)%Q ->
        (_load_model w).1 = inr artefact ->
        (predict (JsonBody (JObj ∅)) w).1 =
        (PredictionsBody
           [ {| pr_number := JNull;
                item_number := JNull;
                anomaly := Some (Qltb raw (art_threshold artefact));
                score := Some (py_round raw 6);
                confidence :=
                  Some (py_round
                          (np_clip ((art_threshold artefact - raw)
                                    / Qabs (art_threshold artefact + eps))
                             0 1) 4);
                label := if Qltb raw (art_threshold artefact)
                         then ANOMALY else NORMAL;
                error := None |} ], 200%Z))).
Proof.
  intros Hd.
  assert (Hok : forall (d' : gmap string json) artefact,
            d' !! "items" = None ->
            (_load_model w).1 = inr artefact ->
            predict (JsonBody (JObj d')) w =
            ((PredictionsBody [entry_of d' artefact], 200%Z),
             record_event Scoring (_load_model w).2)).
  { intros d' artefact Hd' Hload. rewrite (predict_single d' w Hd').
    unfold predict_checked. rewrite Hload. cbn zeta.
    by rewrite (score_items_dicts [d'] artefact). }
  split; [rewrite (predict_single d w Hd); apply predict_checked_status|].
  split.
  { intros artefact Hload.
    split; [by apply Hok|]. split; [apply score_or_error_dict|].
    split; [exact (score_items_dicts [d] artefact)|].
    split; [apply entry_of_scored_eq|].
    intros e He. unfold entry_of. by rewrite He. }
  split.
  { intros e Hload Hkind. rewrite (predict_single d w Hd).
    unfold predict_checked. rewrite Hload.
    unfold on_exception. by rewrite Hkind. }
  split.
  { intros Hcache Hfile. eexists.
    unfold _load_model. cbn. rewrite Hcache, Hfile. cbn. eauto. }
  intros artefact Hcols Hdate X.
  assert (HX : _engineer_row (JObj ∅) artefact = inr X).
  { rewrite (engineer_row_dict ∅ artefact Hcols).
    unfold dict_get. rewrite lookup_empty. cbn [default from_option id].
    rewrite Hdate. reflexivity. }
  split; [apply lookup_empty|].
  split; [exact HX|].
  split.
  { intros col le _. split.
    - intros Hnot. unfold code_in. by rewrite position_not_elem_of.
    - apply code_in_elem_of. }
  intros raw scores l labels Hdf Hl Ht Hload.
  rewrite (Hok ∅ artefact (lookup_empty _) Hload). cbn [fst].
  by rewrite (entry_of_scored_eq ∅ artefact X raw scores l labels HX Hdf Hl Ht).
Qed.

End Predict.

(** ** The calibrated threshold *)

Section Percentile.

#[local] Instance Qle_total : Total Qle.
Proof. intros x y. destruct (Qlt_le_dec x y); [left; lra|right; assumption]. Qed.

#[local] Instance Qle_transitive : Transitive Qle.
Proof. intros x y z. apply Qle_trans. Qed.

Lemma np_sort_sorted (a : list Q) : StronglySorted Qle (np_sort a).
Proof. apply StronglySorted_merge_sort; apply _. Qed.

Lemma np_sort_perm (a : list Q) : np_sort a ≡ₚ a.
Proof. apply merge_sort_Permutation. Qed.

Lemma np_sort_length (a : list Q) : length (np_sort a) = length a.
Proof. by rewrite np_sort_perm. Qed.

Lemma sorted_lookup_le (l : list Q) (i j : nat) (x y : Q) :
  StronglySorted Qle l -> i <= j ->
  l !! i = Some x -> l !! j = Some y -> (x <= y)%Q.
Proof.
  intros Hs. revert i j. induction Hs as [|a l Hs IH Hall]; intros i j Hij Hi Hj.
  - discriminate.
  - destruct i as [|i], j as [|j]; cbn in Hi, Hj.
    + injection Hi as <-. injection Hj as <-. apply Qle_refl.
    + injection Hi as <-. rewrite Forall_forall in Hall.
      apply Hall. eapply list_elem_of_lookup_2. exact Hj.
    + lia.
    + apply (IH i j); [lia|assumption..].
Qed.

Lemma sorted_lookup_lt (l : list Q) (i j : nat) (x y : Q) :
  StronglySorted Qle l -> distinct_scores l -> i < j ->
  l !! i = Some x -> l !! j = Some y -> (x < y)%Q.
Proof.
  intros Hs Hd Hij Hi Hj.
  pose proof (sorted_lookup_le l i j x y Hs ltac:(lia) Hi Hj) as Hle.
  apply Qle_lteq in Hle as [Hlt|Heq]; [exact Hlt|].
  exfalso. apply Qred_complete in Heq.
  assert (i = j); [|lia].
  apply (NoDup_lookup (Qred <$> l) i j (Qred x) Hd).
  - by rewrite list_lookup_fmap, Hi.
  - by rewrite list_lookup_fmap, Hj, Heq.
Qed.

Lemma count_below_app (thr : Q) (l1 l2 : list Q) :
  count_below thr (l1 ++ l2) = count_below thr l1 + count_below thr l2.
Proof. unfold count_below. by rewrite List.filter_app, length_app. Qed.

Lemma count_below_perm (thr : Q) (l1 l2 : list Q) :
  l1 ≡ₚ l2 -> count_below thr l1 = count_below thr l2.
Proof.
  unfold count_below. induction 1 as [|x l1 l2 _ IH|x y l|l1 l2 l3 _ IH1 _ IH2]; cbn.
  - reflexivity.
  - destruct (Qltb x thr); cbn; by rewrite IH.
  - destruct (Qltb x thr), (Qltb y thr); reflexivity.
  - by rewrite IH1.
Qed.

Lemma count_below_le_length (thr : Q) (l : list Q) :
  count_below thr l <= length l.
Proof. unfold count_below. apply List.filter_length_le. Qed.

Lemma count_below_none (thr : Q) (l : list Q) :
  Forall (fun x => (thr <= x)%Q) l -> count_below thr l = 0.
Proof.
  unfold count_below. induction 1 as [|x l Hx _ IH]; [reflexivity|]. cbn.
  destruct (Qltb x thr) eqn:E; [|exact IH].
  apply Qltb_lt in E. lra.
Qed.

Lemma count_below_all (thr : Q) (l : list Q) :
  Forall (fun x => (x < thr)%Q) l -> count_below thr l = length l.
Proof.
  unfold count_below. induction 1 as [|x l Hx _ IH]; [reflexivity|]. cbn.
  destruct (Qltb x thr) eqn:E; [cbn; by rewrite IH|].
  apply Qltb_lt in Hx. congruence.
Qed.

Lemma count_below_upper (arr : list Q) (k : nat) (thr : Q) :
  (forall j y, k <= j -> arr !! j = Some y -> (thr <= y)%Q) ->
  count_below thr arr <= k.
Proof.
  intros Hge. rewrite <- (take_drop k arr), count_below_app.
  rewrite (count_below_none thr (drop k arr)).
  - pose proof (count_below_le_length thr (take k arr)) as Hle.
    rewrite length_take in Hle. lia.
  - apply Forall_lookup. intros j y Hj. rewrite lookup_drop in Hj.
    apply (Hge (k + j)); [lia|exact Hj].
Qed.

Lemma count_below_lower (arr : list Q) (k : nat) (thr : Q) :
  k <= length arr ->
  (forall j y, j < k -> arr !! j = Some y -> (y < thr)%Q) ->
  k <= count_below thr arr.
Proof.
  intros Hk Hlt. rewrite <- (take_drop k arr), count_below_app.
  rewrite (count_below_all thr (take k arr)).
  - rewrite length_take. lia.
  - apply Forall_lookup. intros j y Hj.
    pose proof (lookup_lt_Some _ _ _ Hj) as Hjk. rewrite length_take in Hjk.
    rewrite lookup_take_lt in Hj by lia. apply (Hlt j); [lia|exact Hj].
Qed.

Lemma lerp_eq (a b t : Q) : (lerp a b t == a + (b - a) * t)%Q.
Proof. unfold lerp. destruct (Qle_bool (1 # 2) t); ring. Qed.

Lemma rank_bounds (n : nat) (p : Q) :
  1 <= n -> (0 < p)%Q -> (p < 1)%Q ->
  (0 <= Qfloor (rank n p))%Z /\
  (Qfloor (rank n p) <= Z.of_nat n - 1)%Z /\
  (0 <= rank n p - inject_Z (Qfloor (rank n p)))%Q /\
  (rank n p - inject_Z (Qfloor (rank n p)) < 1)%Q /\
  ((0 < rank n p - inject_Z (Qfloor (rank n p)))%Q ->
   (Qfloor (rank n p) + 1 <= Z.of_nat n - 1)%Z).
Proof.
  intros Hn Hp0 Hp1. unfold rank.
  set (m := (Z.of_nat n - 1)%Z).
  assert (Hm : (0 <= inject_Z m)%Q).
  { change 0%Q with (inject_Z 0). rewrite <- Zle_Qle. lia. }
  set (v := (p * inject_Z m)%Q).
  assert (Hv0 : (0 <= v)%Q) by (unfold v; nra).
  assert (Hv1 : (v <= inject_Z m)%Q) by (unfold v; nra).
  pose proof (Qfloor_le v) as Hfl. pose proof (Qlt_floor v) as Hfu.
  rewrite inject_Z_plus in Hfu. change (inject_Z 1) with 1%Q in Hfu.
  split.
  { pose proof (Qfloor_resp_le _ _ Hv0) as H0. exact H0. }
  split.
  { pose proof (Qfloor_resp_le _ _ Hv1) as H1. by rewrite Qfloor_Z in H1. }
  split; [lra|]. split; [lra|].
  intros Hg.
  assert (Hmpos : (0 < inject_Z m)%Q).
  { apply Qle_lteq in Hm as [Hlt|Heq]; [exact Hlt|].
    exfalso. assert (Hvz : (v == 0)%Q) by (unfold v; rewrite <- Heq; ring).
    assert (Hfz : Qfloor v = 0%Z) by (rewrite Hvz; reflexivity).
    rewrite Hfz in Hg. change (inject_Z 0) with 0%Q in Hg. lra. }
  assert (Hlt : (inject_Z (Qfloor v) < inject_Z m)%Q) by (unfold v in *; nra).
  rewrite <- Zlt_Qlt in Hlt. lia.
Qed.

Lemma np_percentile_value (S : list Q) (p : Q) :
  S <> [] -> (0 < p)%Q -> (p < 1)%Q ->
  let v := rank (length S) p in
  let lo := Z.to_nat (Qfloor v) in
  exists x_lo x_hi thr,
    np_sort S !! lo = Some x_lo /\
    np_sort S !! Nat.min (lo + 1) (length S - 1) = Some x_hi /\
    np_percentile S (p * 100) = inr thr /\
    (thr == x_lo + (x_hi - x_lo) * (v - inject_Z (Qfloor v)))%Q.
Proof.
  intros HS Hp0 Hp1. cbn zeta.
  pose proof (np_sort_length S) as Hlen.
  assert (Hn : 1 <= length S) by (destruct S; [congruence|cbn; lia]).
  destruct (rank_bounds (length S) p Hn Hp0 Hp1) as (Hf0 & Hf1 & _).
  set (v := rank (length S) p) in *. set (lo := Z.to_nat (Qfloor v)).
  assert (Hlo : lo < length (np_sort S)) by lia.
  assert (Hhi : Nat.min (lo + 1) (length S - 1) < length (np_sort S)) by lia.
  destruct (lookup_lt_is_Some_2 _ _ Hlo) as [x_lo Hxlo].
  destruct (lookup_lt_is_Some_2 _ _ Hhi) as [x_hi Hxhi].
  exists x_lo, x_hi. unfold np_percentile.
  assert (Hrange : negb (Qle_bool 0 (p * 100) && Qle_bool (p * 100) 100) = false).
  { apply negb_false_iff, andb_true_iff.
    split; apply Qle_bool_iff; lra. }
  rewrite Hrange.
  assert (Hv : (p * 100 / 100 * inject_Z (Z.of_nat (length (np_sort S)) - 1) == v)%Q).
  { rewrite Hlen. unfold v, rank. field. }
  assert (Hfl : Qfloor (p * 100 / 100 * inject_Z (Z.of_nat (length (np_sort S)) - 1))
                = Qfloor v) by (by rewrite Hv).
  rewrite Hfl. fold lo. rewrite Hlen.
  destruct (np_sort S) as [|x0 arr] eqn:E; [cbn in Hlo; lia|].
  eexists. split; [exact Hxlo|]. split; [exact Hxhi|].
  split; [reflexivity|].
  rewrite lerp_eq, !nth_lookup, Hxlo, Hxhi. cbn [default from_option id].
  unfold v, rank. field.
Qed.

Lemma distinct_scores_sort (S : list Q) :
  distinct_scores S -> distinct_scores (np_sort S).
Proof. unfold distinct_scores. by rewrite np_sort_perm. Qed.

Lemma Q_of_nat_le (a b : nat) :
  a <= b -> (inject_Z (Z.of_nat a) <= inject_Z (Z.of_nat b))%Q.
Proof. intros Hab. rewrite <- Zle_Qle. lia. Qed.

(** The percentile against the wording of the specification, and the number
    of scores strictly below it. *)
Lemma percentile_properties (S : list Q) (p thr : Q) :
  S <> [] -> (0 < p)%Q -> (p < 1)%Q ->
  np_percentile S (p * 100) = inr thr ->
  (thr == calibrate_spec S p)%Q /\
  (inject_Z (Z.of_nat (count_below thr S)) < rank (length S) p + 1)%Q /\
  (distinct_scores S ->
   (rank (length S) p <= inject_Z (Z.of_nat (count_below thr S)))%Q).
Proof.
  intros HS Hp0 Hp1 Hperc.
  destruct (np_percentile_value S p HS Hp0 Hp1)
    as (x_lo & x_hi & thr' & Hlo & Hhi & Hperc' & Hthr).
  rewrite Hperc in Hperc'. injection Hperc' as <-.
  assert (Hn : 1 <= length S) by (destruct S; [congruence|cbn; lia]).
  destruct (rank_bounds (length S) p Hn Hp0 Hp1) as (Hf0 & Hf1 & Hg0 & Hg1 & Hgpos).
  pose proof (np_sort_sorted S) as Hsorted.
  pose proof (np_sort_length S) as Hlen.
  set (v := rank (length S) p) in *.
  set (lo := Z.to_nat (Qfloor v)) in *.
  set (g := (v - inject_Z (Qfloor v))%Q) in *.
  assert (Hlo_le : lo <= length S - 1) by lia.
  assert (Hlohi : (x_lo <= x_hi)%Q).
  { apply (sorted_lookup_le (np_sort S) lo (Nat.min (lo + 1) (length S - 1)));
      [assumption|lia|assumption..]. }
  assert (HloQ : inject_Z (Z.of_nat lo) = inject_Z (Qfloor v)).
  { unfold lo. by rewrite Z2Nat.id. }
  rewrite <- (count_below_perm thr _ _ (np_sort_perm S)).
  split.
  { unfold calibrate_spec. cbn zeta. rewrite Hlen. fold (rank (length S) p).
    fold v. fold lo. fold g.
    rewrite (nth_lookup (np_sort S) lo), Hlo. cbn [default from_option id].
    rewrite Hthr.
    destruct (decide (lo + 1 <= length S - 1)) as [Hle|Hgt].
    - rewrite Nat.min_l in Hhi by exact Hle.
      rewrite (nth_lookup (np_sort S) (lo + 1)), Hhi. cbn [default from_option id].
      ring.
    - rewrite Nat.min_r in Hhi by lia.
      replace (length S - 1) with lo in Hhi by lia.
      rewrite Hlo in Hhi. injection Hhi as <-.
      rewrite (nth_lookup (np_sort S) (lo + 1)).
      rewrite lookup_ge_None_2 by lia. cbn [default from_option id]. ring. }
  destruct (Qlt_le_dec 0 g) as [Hpos|Hzero].
  - (* the rank falls strictly between two order statistics *)
    specialize (Hgpos Hpos).
    rewrite Nat.min_l in Hhi by lia.
    assert (Hthr_hi : (thr <= x_hi)%Q) by (rewrite Hthr; nra).
    split.
    + assert (Hc : count_below thr (np_sort S) <= lo + 1).
      { apply count_below_upper. intros j y Hj Hy.
        pose proof (sorted_lookup_le _ _ _ _ _ Hsorted Hj Hhi Hy). lra. }
      apply Q_of_nat_le in Hc.
      rewrite Nat2Z.inj_add, inject_Z_plus, HloQ in Hc.
      change (inject_Z (Z.of_nat 1)) with 1%Q in Hc. unfold g in Hpos. lra.
    + intros Hd. apply distinct_scores_sort in Hd.
      assert (Hstrict : (x_lo < x_hi)%Q).
      { apply (sorted_lookup_lt (np_sort S) lo (lo + 1));
          [assumption|assumption|lia|assumption..]. }
      assert (Hthr_lo : (x_lo < thr)%Q) by (rewrite Hthr; nra).
      assert (Hc : lo + 1 <= count_below thr (np_sort S)).
      { apply count_below_lower; [lia|]. intros j y Hj Hy.
        pose proof (sorted_lookup_le _ j lo y x_lo Hsorted ltac:(lia) Hy Hlo).
        lra. }
      apply Q_of_nat_le in Hc.
      rewrite Nat2Z.inj_add, inject_Z_plus, HloQ in Hc.
      change (inject_Z (Z.of_nat 1)) with 1%Q in Hc. unfold g in Hg1. lra.
  - (* the rank is an order statistic *)
    assert (Hgz : (g == 0)%Q) by lra.
    assert (Hthr_lo : (thr == x_lo)%Q) by (rewrite Hthr, Hgz; ring).
    split.
    + assert (Hc : count_below thr (np_sort S) <= lo).
      { apply count_below_upper. intros j y Hj Hy.
        pose proof (sorted_lookup_le _ _ _ _ _ Hsorted Hj Hlo Hy). lra. }
      apply Q_of_nat_le in Hc. rewrite HloQ in Hc. unfold g in Hg0. lra.
    + intros Hd. apply distinct_scores_sort in Hd.
      assert (Hc : lo <= count_below thr (np_sort S)).
      { apply count_below_lower; [lia|]. intros j y Hj Hy.
        pose proof (sorted_lookup_lt _ j lo y x_lo Hsorted Hd Hj Hy Hlo). lra. }
      apply Q_of_nat_le in Hc. rewrite HloQ in Hc. unfold g in Hgz. lra.
Qed.

End Percentile.

Section Calibration.

Context `{Externals}.

Lemma np_percentile_nonempty (scores : list Q) (q thr : Q) :
  np_percentile scores q = inr thr -> scores <> [].
Proof.
  intros Hp ->. unfold np_percentile in Hp.
  destruct (negb (Qle_bool 0 q && Qle_bool q 100)); discriminate.
Qed.

Lemma fraction_bounds (c n : nat) (p : Q) :
  1 <= n -> (0 < p)%Q -> (p < 1)%Q ->
  ((inject_Z (Z.of_nat c) < rank n p + 1)%Q ->
   (inject_Z (Z.of_nat c) / inject_Z (Z.of_nat n)
    < p + 1 / inject_Z (Z.of_nat n))%Q) /\
  ((inject_Z (Z.of_nat c) < rank n p + 1)%Q ->
   (rank n p <= inject_Z (Z.of_nat c))%Q ->
   (Qabs (inject_Z (Z.of_nat c) / inject_Z (Z.of_nat n) - p)
    < 1 / inject_Z (Z.of_nat n))%Q).
Proof.
  intros Hn Hp0 Hp1. unfold rank.
  rewrite <- (Z.add_opp_r (Z.of_nat n)), inject_Z_plus.
  change (inject_Z (- (1))) with (- (1))%Q.
  set (C := inject_Z (Z.of_nat c)). set (N := inject_Z (Z.of_nat n)).
  assert (HN : (1 <= N)%Q).
  { unfold N. change 1%Q with (inject_Z 1). rewrite <- Zle_Qle. lia. }
  assert (Hinv : (0 < / N)%Q) by (apply Qinv_lt_0_compat; lra).
  assert (HNinv : (N * / N == 1)%Q) by (apply Qmult_inv_r; lra).
  unfold Qdiv. split.
  - intros Hup. nra.
  - intros Hup Hlow. apply Qabs_Qlt_condition. split; nra.
Qed.

(** C6, as the code has it.  When [train] returns with a contamination [p]
    in (0,1): the stored threshold is the one value [np.percentile] gives
    for the decision scores of the training matrix at [p * 100]; the scores
    are not empty; the threshold equals the [p*100]-th percentile by linear
    interpolation between order statistics; the fraction of training scores
    strictly below it is less than [p + 1/n]; and when the training scores
    are pairwise different this fraction is within [1/n] of [p]. *)
Theorem threshold_calibration (cfg : Config) (df : DataFrame)
    (artefact : Artefact) (encoders : gmap string LabelEncoder) :
  train cfg df = inr (artefact, encoders) ->
  (0 < CONTAMINATION cfg)%Q -> (CONTAMINATION cfg < 1)%Q ->
  exists X scores,
    engineer_features df = inr (X, encoders) /\
    forest_fit cfg X = inr (art_model artefact) /\
    decision_function (art_model artefact) X = inr scores /\
    scores <> [] /\
    np_percentile scores (CONTAMINATION cfg * 100) = inr (art_threshold artefact) /\
    (art_threshold artefact == calibrate_spec scores (CONTAMINATION cfg))%Q /\
    (fraction_below (art_threshold artefact) scores
     < CONTAMINATION cfg + 1 / inject_Z (Z.of_nat (length scores)))%Q /\
    (distinct_scores scores ->
     (Qabs (fraction_below (art_threshold artefact) scores - CONTAMINATION cfg)
      < 1 / inject_Z (Z.of_nat (length scores)))%Q).
Proof.
  intros Ht Hp0 Hp1.
  apply train_inr in Ht as (X & scores & HX & Hfit & Hs & Hperc & _ & _).
  pose proof (np_percentile_nonempty _ _ _ Hperc) as Hne.
  destruct (percentile_properties scores _ _ Hne Hp0 Hp1 Hperc)
    as (Hspec & Hup & Hlow).
  assert (Hn : 1 <= length scores) by (destruct scores; [congruence|cbn; lia]).
  destruct (fraction_bounds (count_below (art_threshold artefact) scores)
              (length scores) (CONTAMINATION cfg) Hn Hp0 Hp1) as [Hf1 Hf2].
  exists X, scores. unfold fraction_below. auto 10.
Qed.

End Calibration.

(** ** Running the code on examples *)

Example example_train_runs :
  train (H := plain_externals) example_config example_frame
  = inr (example_artefact, example_trained.2).
Proof. vm_compute. reflexivity. Qed.

Example example_feature_cols :
  art_feature_cols example_artefact = feature_cols_of_training.
Proof. vm_compute. reflexivity. Qed.

Example example_labels :
  label <$> example_results = [NORMAL; ERROR; NORMAL].
Proof. vm_compute. reflexivity. Qed.


Example example_threshold : (art_threshold example_artefact == 0)%Q.
Proof. vm_compute. reflexivity. Qed.

Example float_of_int_examples :
  float_of_int (2 ^ 53 + 1) = Some (2 ^ 53)%Z /\
  float_of_int (2 ^ 53 + 3) = Some (2 ^ 53 + 4)%Z /\
  float_of_int (2 ^ 1024 - 2 ^ 970 - 1) = Some (2 ^ 1024 - 2 ^ 971)%Z /\
  float_of_int (2 ^ 1024 - 2 ^ 970) = None /\
  float_of_int (- (2 ^ 1024 - 2 ^ 970)) = None.
Proof. repeat split; vm_compute; reflexivity. Qed.

Example py_len_examples :
  py_len "Pens" = 4%nat /\
  String.length "Büro" = 5%nat /\ py_len "Büro" = 4%nat.
Proof. repeat split; vm_compute; reflexivity. Qed.

(** ** Confidence *)

Lemma np_clip_unit (x : Q) :
  (0 <= np_clip x 0 1)%Q /\ (np_clip x 0 1 <= 1)%Q /\
  ((x <= 0)%Q -> (np_clip x 0 1 == 0)%Q) /\
  ((0 <= x)%Q -> (x <= 1)%Q -> (np_clip x 0 1 == x)%Q) /\
  ((1 <= x)%Q -> (np_clip x 0 1 == 1)%Q).
Proof.
  unfold np_clip.
  destruct (Qle_bool x 0) eqn:E0.
  - apply Qle_bool_iff in E0.
    destruct (Qle_bool 1 0) eqn:E1; [apply Qle_bool_iff in E1; lra|].
    repeat split; intros; lra.
  - assert (H0 : ~ (x <= 0)%Q) by (rewrite <- Qle_bool_iff; congruence).
    destruct (Qle_bool 1 x) eqn:E1.
    + apply Qle_bool_iff in E1. repeat split; intros; lra.
    + assert (H1 : ~ (1 <= x)%Q) by (rewrite <- Qle_bool_iff; congruence).
      repeat split; intros; lra.
Qed.

(** Where [threshold + 1e-9] is not zero the confidence is defined, lies in
    [0, 1], and is [0] for every score at or above the threshold. *)
Lemma confidence_of_range (t s : Q) :
  ~ (t + eps == 0)%Q ->
  exists c, confidence_of t s = inr c /\
    (0 <= c)%Q /\ (c <= 1)%Q /\ ((t <= s)%Q -> (c == 0)%Q).
Proof.
  intros Ht. exists (np_clip ((t - s) / Qabs (t + eps)) 0 1).
  split.
  { unfold confidence_of. rewrite py_div_inr; [reflexivity|].
    intros Habs. apply Ht. revert Habs. apply Qabs_case; intros; lra. }
  destruct (np_clip_unit ((t - s) / Qabs (t + eps))) as (H0 & H1 & Hz & _).
  split; [exact H0|]. split; [exact H1|].
  intros Hts. apply Hz.
  assert (Hpos : (0 < Qabs (t + eps))%Q).
  { pose proof (Qabs_nonneg (t + eps)) as Hnn.
    apply Qle_lteq in Hnn as [Hlt|Heq]; [exact Hlt|].
    exfalso. apply Ht. symmetry in Heq. revert Heq.
    apply Qabs_case; intros; lra. }
  unfold Qdiv. assert (Hinv : (0 < / Qabs (t + eps))%Q)
    by (apply Qinv_lt_0_compat; exact Hpos).
  nra.
Qed.

(** C2, at inputs where the code and the formula part.  With the threshold
    [-1e-9] the denominator [abs(threshold + 1e-9)] is zero: the division
    raises and the item gets an ERROR entry, where the formula of the claim
    gives confidence 1.  With the threshold [-5e-10] and the score [-1e-9]
    the code gives 1 and the formula of the claim gives 1/3. *)
Theorem confidence_negative_threshold :
  confidence_of (- eps) (-1) = raise ZeroDivisionError "float division by zero" /\
  (confidence_spec (- eps) (-1) == 1)%Q /\
  (exists p, _score_items (H := plain_externals) [JObj ∅]
               {| art_model := flat_model;
                  art_encoders := ∅;
                  art_feature_cols := feature_cols_of_training;
                  art_threshold := - eps |} = inr [p] /\
             label p = ERROR /\ confidence p = None /\
             error p = Some "float division by zero") /\
  (exists c, confidence_of (- (1 # 2000000000)) (- (1 # 1000000000)) = inr c /\
             (c == 1)%Q) /\
  (confidence_spec (- (1 # 2000000000)) (- (1 # 1000000000)) == 1 # 3)%Q.
Proof.
  split; [vm_compute; reflexivity|].
  split; [vm_compute; reflexivity|].
  split.
  { eexists. split; [vm_compute; reflexivity|]. cbn. auto. }
  split.
  { eexists. split; [vm_compute; reflexivity|]. reflexivity. }
  vm_compute. reflexivity.
Qed.

(** ** Empty strings at fit time and at transform time *)

(** [engineer_features] replaces missing cells only.  On a frame built in
    memory whose [pr_type] column holds the empty string as text, where
    [read_frame] has a missing cell for an empty field, training keeps the
    empty string as a class of its own with code 0, while a request whose
    [pr_type] is the empty string is looked up as the sentinel string and
    gets code -1 against that artefact: the agreement of the two sides on
    empty values rests on [read_csv] turning empty fields into missing
    cells. *)
Remark empty_string_code_differs :
  df_get example_frame "pr_type" = inr [JStr ""; JStr "NB"] /\
  (exists X,
     engineer_features (H := plain_externals) example_frame
       = inr (X, art_encoders example_artefact) /\
     df_get X "pr_type_enc" = inr [JInt 0; JInt 1]) /\
  art_encoders example_artefact !! "pr_type" = Some {| classes_ := [""; "NB"] |} /\
  (exists X',
     _engineer_row (H := plain_externals)
       (JObj (<["pr_type" := JStr ""]> ∅)) example_artefact = inr X' /\
     df_get X' "pr_type_enc" = inr [JInt (-1)]) /\
  cat_value (H := plain_externals) (<["pr_type" := JStr ""]> ∅) "pr_type" = UNKNOWN /\
  py_str (H := plain_externals) <$> fillna (JStr UNKNOWN) [JStr ""; JNull]
    = [""; UNKNOWN].
Proof.
  split; [vm_compute; reflexivity|].
  split; [eexists; split; vm_compute; reflexivity|].
  split; [vm_compute; reflexivity|].
  split; [eexists; split; vm_compute; reflexivity|].
  split; vm_compute; reflexivity.
Qed.

(** ** Tied scores *)

(** C6, counterexample.  Four training scores that are all 1, contamination
    1/2: the threshold is 1, no score lies strictly below it, and the
    fraction 0 is not within 1/4 of 1/2. *)
Lemma tied_scores_fraction :
  [1; 1; 1; 1]%Q <> [] /\ (0 < 1 # 2)%Q /\ (1 # 2 < 1)%Q /\
  exists thr,
    np_percentile [1; 1; 1; 1]%Q ((1 # 2) * 100) = inr thr /\
    (thr == 1)%Q /\
    count_below thr [1; 1; 1; 1]%Q = 0 /\
    (fraction_below thr [1; 1; 1; 1]%Q == 0)%Q /\
    ~ (Qabs (fraction_below thr [1; 1; 1; 1]%Q - (1 # 2))
       < 1 / inject_Z (Z.of_nat (length [1; 1; 1; 1]%Q)))%Q.
Proof.
  split; [discriminate|]. split; [reflexivity|]. split; [reflexivity|].
  eexists. split; [vm_compute; reflexivity|].
  split; [vm_compute; reflexivity|].
  split; [vm_compute; reflexivity|].
  split; [vm_compute; reflexivity|].
  vm_compute. intros Hlt. discriminate Hlt.
Qed.

(** ** Numeric fields and the ERROR branch *)

(** C9, counterexample.  The empty object has neither [quantity] nor
    [net_price]: both are encoded as [0.0].  Against an artefact whose
    threshold is [-1e-9], [_engineer_row] returns its row and the item
    still gets an ERROR entry, because the division by
    [abs(threshold + 1e-9)] raises; against an artefact whose [feature_cols]
    names a column that is not a feature, the item gets an ERROR entry
    because the selection of the columns raises.  No value of the item was
    rejected by [float]. *)
Lemma absent_numeric_fields_error_entry :
  (∅ : gmap string json) !! "quantity" = None /\
  (∅ : gmap string json) !! "net_price" = None /\
  numeric_value (H := plain_externals) ∅ "quantity" = inr (Fin 0) /\
  numeric_value (H := plain_externals) ∅ "net_price" = inr (Fin 0) /\
  (exists X,
     _engineer_row (H := plain_externals) (JObj ∅)
       {| art_model := flat_model;
          art_encoders := ∅;
          art_feature_cols := feature_cols_of_training;
          art_threshold := - eps |} = inr X) /\
  _score_items (H := plain_externals) [JObj ∅]
    {| art_model := flat_model;
       art_encoders := ∅;
       art_feature_cols := feature_cols_of_training;
       art_threshold := - eps |}
  = inr [ {| pr_number := JNull;
             item_number := JNull;
             anomaly := None;
             score := None;
             confidence := None;
             label := ERROR;
             error := Some "float division by zero" |} ] /\
  (exists p,
     _score_items (H := plain_externals) [JObj ∅] example_stale_artefact
     = inr [p] /\
     label p = ERROR).
Proof.
  split; [reflexivity|]. split; [reflexivity|].
  split; [vm_compute; reflexivity|]. split; [vm_compute; reflexivity|].
  split; [eexists; vm_compute; reflexivity|].
  split; [vm_compute; reflexivity|].
  eexists. split; [vm_compute; reflexivity|]. reflexivity.
Qed.

(** ** The features of the empty object *)

(** C10, counterexample.  The file of the example has an empty
    [material_group] field, so the sentinel is among the fitted classes of
    that column, at position 1.  Against the artefact of that training run
    the empty object is answered 200 with one scored entry, and its
    [material_group] feature is 1: neither the code [-1] of an unknown
    category nor zero.  And against an artefact whose threshold is [-1e-9]
    the one entry of the empty object is an ERROR entry: the record is not
    scored. *)
Lemma empty_object_fitted_sentinel :
  (∅ : gmap string json) !! "items" = None /\
  csv_fields example_table "material_group" = Some ["01010"; ""] /\
  classes_ <$> (art_encoders example_table_trained.1 !! "material_group")
    = Some ["01010"; UNKNOWN] /\
  (exists X,
     _engineer_row (H := plain_externals) (JObj ∅) example_table_trained.1
       = inr X /\
     df_get X "material_group_enc" = inr [JInt 1]) /\
  (exists p,
     (predict (H := plain_externals) (JsonBody (JObj ∅))
        {| _artefact := None;
           model_file := Some example_table_trained.1;
           trace := [] |}).1
     = (PredictionsBody [p], 200%Z) /\
     label p = NORMAL) /\
  (exists p,
     (predict (H := plain_externals) (JsonBody (JObj ∅))
        {| _artefact := None;
           model_file :=
             Some {| art_model := flat_model;
                     art_encoders := ∅;
                     art_feature_cols := feature_cols_of_training;
                     art_threshold := - eps |};
           trace := [] |}).1
     = (PredictionsBody [p], 200%Z) /\
     label p = ERROR /\ score p = None).
Proof.
  split; [reflexivity|]. split; [reflexivity|].
  split; [vm_compute; reflexivity|].
  split; [eexists; split; vm_compute; reflexivity|].
  split; [eexists; split; vm_compute; reflexivity|].
  eexists. split; [vm_compute; reflexivity|]. split; reflexivity.
Qed.

(** ** The theorems at the examples *)

Lemma feature_column_order_witness :
  train (H := plain_externals) example_config example_frame
    = inr (example_artefact, example_trained.2) /\
  art_feature_cols example_artefact
    = (enc_name <$> CATEGORICAL_FEATURES) ++ NUMERIC_FEATURES /\
  forall (row : json) (X1 X2 : DataFrame),
    _engineer_row (H := plain_externals) row example_artefact = inr X1 ->
    _engineer_row (H := plain_externals) row example_artefact = inr X2 ->
    X1 = X2 /\
    df_columns X1 = art_feature_cols example_artefact /\
    Forall (fun c => length c.2 = 1) X1.
Proof.
  assert (Ht : train (H := plain_externals) example_config example_frame
               = inr (example_artefact, example_trained.2))
    by (vm_compute; reflexivity).
  split; [exact Ht|].
  destruct (feature_column_order (H := plain_externals) _ _ _ _ Ht)
    as (Hcols & _ & Hrows).
  split; [exact Hcols|exact Hrows].
Defined.

Lemma score_items_entry_shape_witness :
  _score_items (H := plain_externals) example_items example_artefact
    = inr example_results /\
  Forall2 (entry_shape (H := plain_externals) example_artefact)
    example_items example_results.
Proof.
  assert (Hs : _score_items (H := plain_externals) example_items example_artefact
               = inr example_results)
    by (vm_compute; reflexivity).
  split; [exact Hs|].
  exact (score_items_entry_shape (H := plain_externals) _ _ _ Hs).
Defined.

Lemma threshold_calibration_witness :
  train (H := plain_externals) example_config example_frame
    = inr (example_artefact, example_trained.2) /\
  (0 < CONTAMINATION example_config)%Q /\
  (CONTAMINATION example_config < 1)%Q /\
  exists scores,
    scores <> [] /\
    np_percentile scores (CONTAMINATION example_config * 100)
      = inr (art_threshold example_artefact) /\
    (art_threshold example_artefact
     == calibrate_spec scores (CONTAMINATION example_config))%Q /\
    (fraction_below (art_threshold example_artefact) scores
     < CONTAMINATION example_config + 1 / inject_Z (Z.of_nat (length scores)))%Q.
Proof.
  assert (Ht : train (H := plain_externals) example_config example_frame
               = inr (example_artefact, example_trained.2))
    by (vm_compute; reflexivity).
  assert (Hp0 : (0 < CONTAMINATION example_config)%Q) by reflexivity.
  assert (Hp1 : (CONTAMINATION example_config < 1)%Q) by reflexivity.
  split; [exact Ht|]. split; [exact Hp0|]. split; [exact Hp1|].
  destruct (threshold_calibration (H := plain_externals) _ _ _ _ Ht Hp0 Hp1)
    as (X & scores & _ & _ & _ & Hne & Hperc & Hspec & Hfrac & _).
  exists scores. auto.
Defined.

Lemma numeric_fields_fallback_witness :
  art_feature_cols example_artefact = feature_cols_of_training /\
  to_datetime (Externals := plain_externals) (dict_get ∅ "pr_date" JNull)
    = inr None /\
  numeric_value (H := plain_externals) ∅ "quantity" = inr (Fin 0) /\
  numeric_value (H := plain_externals) ∅ "net_price" = inr (Fin 0) /\
  _score_items (H := plain_externals) [JObj ∅] example_artefact =
  inr [ {| pr_number := JNull;
           item_number := JNull;
           anomaly := Some (Qltb 0 (art_threshold example_artefact));
           score := Some (py_round 0 6);
           confidence :=
             Some (py_round
                     (np_clip ((art_threshold example_artefact - 0)
                               / Qabs (art_threshold example_artefact + eps))
                        0 1) 4);
           label := if Qltb 0 (art_threshold example_artefact)
                    then ANOMALY else NORMAL;
           error := None |} ] /\
  unconvertible (H := plain_externals) (JStr "abc") /\
  exists e,
    _engineer_row (H := plain_externals)
      (JObj (<["quantity" := JStr "abc"]> ∅)) example_artefact = inl e /\
    _score_items (H := plain_externals)
      [JObj (<["quantity" := JStr "abc"]> ∅)] example_artefact =
    inr [ {| pr_number := JNull;
             item_number := JNull;
             anomaly := None;
             score := None;
             confidence := None;
             label := ERROR;
             error := Some (exn_msg e) |} ].
Proof.
  assert (Hcols : art_feature_cols example_artefact = feature_cols_of_training)
    by exact example_feature_cols.
  assert (Hdate : forall d : gmap string json,
            to_datetime (Externals := plain_externals)
              (dict_get d "pr_date" JNull) = inr None)
    by reflexivity.
  destruct (numeric_fields_fallback (H := plain_externals) ∅ example_artefact
              None Hcols (Hdate ∅)) as (Hfalsy & _ & _ & _ & Hrow).
  assert (Hq : numeric_value (H := plain_externals) ∅ "quantity" = inr (Fin 0))
    by (apply Hfalsy; reflexivity).
  assert (Hn : numeric_value (H := plain_externals) ∅ "net_price" = inr (Fin 0))
    by (apply Hfalsy; reflexivity).
  assert (Hthr : ~ (art_threshold example_artefact + eps == 0)%Q).
  { rewrite example_threshold. discriminate. }
  destruct (Hrow _ _ Hq Hn) as (_ & Hscored).
  split; [exact Hcols|]. split; [exact (Hdate ∅)|].
  split; [exact Hq|]. split; [exact Hn|].
  split; [exact (Hscored 0%Q [] 1%Z [] eq_refl eq_refl Hthr)|].
  assert (Hun : unconvertible (H := plain_externals) (JStr "abc"))
    by reflexivity.
  split; [exact Hun|].
  destruct (numeric_fields_fallback (H := plain_externals)
              (<["quantity" := JStr "abc"]> ∅) example_artefact
              None Hcols (Hdate _)) as (_ & _ & Hraise & _).
  destruct (Hraise "quantity" (JStr "abc") (or_introl eq_refl)
              eq_refl eq_refl Hun) as (e & He & _ & Hentry).
  exists e. split; [exact He|exact Hentry].
Defined.

Lemma predict_single_record_witness :
  (∅ : gmap string json) !! "items" = None /\
  (predict (H := plain_externals) (JsonBody (JObj ∅)) example_world).1.2
    <> 400%Z /\
  predict (H := plain_externals) (JsonBody (JObj ∅)) example_world =
  ((PredictionsBody [entry_of (H := plain_externals) ∅ example_artefact],
    200%Z),
   record_event Scoring (_load_model example_world).2) /\
  (predict (H := plain_externals) (JsonBody (JObj ∅)) example_world).1 =
  (PredictionsBody
     [ {| pr_number := JNull;
          item_number := JNull;
          anomaly := Some (Qltb 0 (art_threshold example_artefact));
          score := Some (py_round 0 6);
          confidence :=
            Some (py_round
                    (np_clip ((art_threshold example_artefact - 0)
                              / Qabs (art_threshold example_artefact + eps))
                       0 1) 4);
          label := if Qltb 0 (art_threshold example_artefact)
                   then ANOMALY else NORMAL;
          error := None |} ], 200%Z).
Proof.
  assert (Hd : (∅ : gmap string json) !! "items" = None) by reflexivity.
  destruct (predict_single_record (H := plain_externals) ∅ example_world Hd)
    as (H400 & Hok & _ & _ & Hempty).
  split; [exact Hd|]. split; [exact H400|].
  destruct (Hok example_artefact eq_refl) as (Hp & _).
  split; [exact Hp|].
  assert (Hthr : ~ (art_threshold example_artefact + eps == 0)%Q).
  { rewrite example_threshold. discriminate. }
  destruct (Hempty example_artefact example_feature_cols eq_refl)
    as (_ & _ & _ & Hscored).
  exact (Hscored 0%Q [] 1%Z [] eq_refl eq_refl Hthr eq_refl).
Defined.

(** * Further properties of the two files *)

(** ** [_load_model], [health] and runs of requests *)

Lemma load_model_effective (w : World) :
  match effective_model w with
  | Some a =>
      (_load_model w).1 = inr a /\ _artefact (_load_model w).2 = Some a
  | None =>
      (_load_model w).1 = inl (Exn FileNotFoundError "Model file not found") /\
      _artefact (_load_model w).2 = None
  end /\
  model_file (_load_model w).2 = model_file w /\
  effective_model (_load_model w).2 = effective_model w /\
  file_loads (_load_model w).2 =
    file_loads w + (match _artefact w, model_file w with
                    | None, Some _ => 1
                    | _, _ => 0
                    end).
Proof.
  unfold effective_model, _load_model, file_loads. cbn.
  destruct (_artefact w) as [a|] eqn:Hc; cbn.
  - rewrite Hc, List.filter_app, length_app. cbn. auto with lia.
  - destruct (model_file w) as [a|] eqn:Hf; cbn.
    + rewrite !List.filter_app, !length_app. cbn. auto with lia.
    + rewrite Hc, Hf, List.filter_app, length_app. cbn. auto with lia.
Qed.

Lemma record_scoring_effective (w : World) :
  effective_model (record_event Scoring w) = effective_model w /\
  _artefact (record_event Scoring w) = _artefact w /\
  model_file (record_event Scoring w) = model_file w /\
  file_loads (record_event Scoring w) = file_loads w.
Proof.
  unfold effective_model, file_loads. cbn.
  rewrite List.filter_app, length_app. cbn. auto with lia.
Qed.

Section ServingRuns.

Context `{Externals}.

Lemma predict_checked_effective (items : list json) (w : World) :
  (predict_checked items w).1 = checked_response items (effective_model w) /\
  effective_model (predict_checked items w).2 = effective_model w /\
  model_file (predict_checked items w).2 = model_file w /\
  file_loads (predict_checked items w).2 = file_loads (_load_model w).2 /\
  (forall a, _artefact w = Some a -> _artefact (predict_checked items w).2 = Some a).
Proof.
  destruct (load_model_effective w) as (Hload & Hfile & Heff & _).
  pose proof (record_scoring_effective (_load_model w).2) as (Hs1 & Hs2 & Hs3 & Hs4).
  unfold predict_checked, checked_response.
  destruct (effective_model w) as [a|] eqn:Hm.
  - destruct Hload as [Hl Hc]. rewrite Hl. cbn zeta.
    assert (Hkeep : forall a', _artefact w = Some a' ->
              _artefact (record_event Scoring (_load_model w).2) = Some a').
    { intros a' Ha'. rewrite Hs2, Hc. unfold effective_model in Hm.
      rewrite Ha' in Hm. congruence. }
    destruct (_score_items items a); cbn [fst snd];
      rewrite Hs1, Hs3, Hs4, Heff, Hfile; auto.
  - destruct Hload as [Hl Hc]. rewrite Hl. cbn [fst snd].
    rewrite Heff, Hfile. repeat split; try reflexivity.
    intros a Ha. unfold effective_model in Hm. rewrite Ha in Hm. discriminate.
Qed.

(** The answer of [predict] depends on the world only through the artefact
    in effect, and [predict] keeps that artefact and the file. *)
Lemma predict_effective (body : RequestBody) (w : World) :
  (forall w', effective_model w' = effective_model w ->
              (predict body w').1 = (predict body w).1) /\
  effective_model (predict body w).2 = effective_model w /\
  model_file (predict body w).2 = model_file w /\
  (forall a, _artefact w = Some a -> _artefact (predict body w).2 = Some a) /\
  ((_artefact w <> None \/ model_file w = None) ->
   file_loads (predict body w).2 = file_loads w).
Proof.
  assert (Hquiet : (_artefact w <> None \/ model_file w = None) ->
            file_loads (_load_model w).2 = file_loads w).
  { intros Hq. destruct (load_model_effective w) as (_ & _ & _ & Hn).
    rewrite Hn. destruct (_artefact w), (model_file w), Hq; try congruence; lia. }
  split.
  { intros w' Heff.
    assert (Hdec : get_json body = JNull \/ get_json body <> JNull)
      by (destruct (get_json body); auto; right; discriminate).
    destruct Hdec as [Hn|Hn]; [unfold predict; by rewrite Hn|].
    destruct (select_items (get_json body)) as [e|[resp|[|item items]]] eqn:Hsel;
      try (unfold predict; destruct (get_json body); try congruence;
           rewrite Hsel; reflexivity).
    rewrite !(predict_passes body _ (item :: items) Hn Hsel) by discriminate.
    destruct (predict_checked_effective (item :: items) w) as [-> _].
    destruct (predict_checked_effective (item :: items) w') as [-> _].
    by rewrite Heff. }
  destruct (predict_cases body w) as [[Hw _]|(items & _ & _ & _ & Hp)].
  - rewrite Hw. auto.
  - rewrite Hp.
    destruct (predict_checked_effective items w) as (_ & He & Hf & Hl & Hc).
    rewrite Hl. auto.
Qed.

Lemma health_effective (w : World) :
  (forall w', effective_model w' = effective_model w ->
              (health w').1 = (health w).1) /\
  effective_model (health w).2 = effective_model w /\
  model_file (health w).2 = model_file w /\
  ((_artefact w <> None \/ model_file w = None) ->
   file_loads (health w).2 = file_loads w).
Proof.
  assert (Hresp : forall v, (health v).1 =
            match effective_model v with
            | Some a => (HealthOk true (length (art_feature_cols a))
                           (art_threshold a), 200%Z)
            | None => (HealthError "Model file not found", 503%Z)
            end).
  { intros v. destruct (load_model_effective v) as (Hload & _).
    unfold health. destruct (effective_model v); destruct Hload as [-> _];
      reflexivity. }
  assert (Hworld : (health w).2 = (_load_model w).2)
    by (unfold health; destruct (_load_model w).1; reflexivity).
  destruct (load_model_effective w) as (_ & Hfile & Heff & Hn).
  split; [intros w' Hw'; by rewrite !Hresp, Hw'|].
  rewrite Hworld. split; [exact Heff|]. split; [exact Hfile|].
  intros Hq. rewrite Hn.
  destruct (_artefact w), (model_file w), Hq; try congruence; lia.
Qed.

Lemma handle_effective (req : Request) (w : World) :
  (forall w', effective_model w' = effective_model w ->
              (handle req w').1 = (handle req w).1) /\
  effective_model (handle req w).2 = effective_model w /\
  model_file (handle req w).2 = model_file w.
Proof.
  destruct req as [|body]; cbn.
  - destruct (health_effective w) as (Hr & He & Hf & _).
    split; [intros w' Hw'; by rewrite (Hr w' Hw')|auto].
  - destruct (predict_effective body w) as (Hr & He & Hf & _).
    split; [intros w' Hw'; by rewrite (Hr w' Hw')|auto].
Qed.

(** X1. In a run of requests handled one after the other, every reply is the
    reply the request would get on its own in the world the run started in:
    what earlier requests cached does not change any answer.  The run
    leaves the model file as it was. *)
Theorem serve_replies_independent (reqs : list Request) (w : World) :
  (serve reqs w).1 = (fun req => (handle req w).1) <$> reqs /\
  model_file (serve reqs w).2 = model_file w /\
  effective_model (serve reqs w).2 = effective_model w.
Proof.
  revert w. induction reqs as [|req reqs IH]; intros w; [by cbn|].
  cbn [serve fst snd fmap list_fmap].
  destruct (handle_effective req w) as (_ & He & Hf).
  destruct (IH (handle req w).2) as (IH1 & IH2 & IH3).
  rewrite IH1, IH2, IH3, Hf, He.
  split; [|auto]. f_equal.
  apply list_fmap_ext. intros _ r _.
  destruct (handle_effective r w) as (Hr & _). by apply Hr.
Qed.

Lemma handle_quiet (req : Request) (w : World) :
  (_artefact w <> None \/ model_file w = None) ->
  _artefact (handle req w).2 = _artefact w /\
  model_file (handle req w).2 = model_file w /\
  file_loads (handle req w).2 = file_loads w.
Proof.
  intros Hq.
  assert (Hcache : forall w', effective_model w' = effective_model w ->
            model_file w' = model_file w ->
            (forall a, _artefact w = Some a -> _artefact w' = Some a) ->
            _artefact w' = _artefact w).
  { intros w' He Hf Hk. destruct (_artefact w) as [a|] eqn:Hc; [by apply Hk|].
    destruct Hq as [Hq|Hq]; [congruence|].
    unfold effective_model in He. rewrite Hc, Hq in He.
    destruct (_artefact w'); [discriminate|reflexivity]. }
  destruct req as [|body]; cbn.
  - destruct (health_effective w) as (_ & He & Hf & Hl).
    split; [|auto]. apply Hcache; [exact He|exact Hf|].
    intros a Ha. destruct (load_model_effective w) as (Hload & _).
    unfold effective_model in Hload. rewrite Ha in Hload.
    unfold health. destruct Hload as [-> Hc]. exact Hc.
  - destruct (predict_effective body w) as (_ & He & Hf & Hk & Hl).
    split; [|auto]. by apply Hcache.
Qed.

(** X2. A serving process that starts with [create_app] and then handles any
    list of requests reads the model file once when the file is there at
    start-up, and never when it is not: the cache holds the file's artefact
    from start-up on, the file is left as it was. *)
Theorem model_file_read_once (file : option Artefact) (reqs : list Request) :
  _artefact (serve reqs (create_app (fresh_process file))).2 = file /\
  model_file (serve reqs (create_app (fresh_process file))).2 = file /\
  file_loads (serve reqs (create_app (fresh_process file))).2
    = match file with Some _ => 1 | None => 0 end.
Proof.
  assert (Hrun : forall rs w,
            (_artefact w <> None \/ model_file w = None) ->
            _artefact (serve rs w).2 = _artefact w /\
            model_file (serve rs w).2 = model_file w /\
            file_loads (serve rs w).2 = file_loads w).
  { induction rs as [|r rs IH]; intros w Hq; [by cbn|].
    cbn [serve snd].
    destruct (handle_quiet r w Hq) as (Hc & Hf & Hl).
    destruct (IH (handle r w).2) as (IHc & IHf & IHl).
    { rewrite Hc, Hf. exact Hq. }
    rewrite IHc, IHf, IHl. auto. }
  set (w0 := create_app (fresh_process file)).
  assert (H0 : _artefact w0 = file /\ model_file w0 = file /\
               file_loads w0 = match file with Some _ => 1 | None => 0 end)
    by (destruct file; vm_compute; auto).
  destruct H0 as (Hc0 & Hf0 & Hl0).
  destruct (Hrun reqs w0) as (Hc & Hf & Hl).
  { rewrite Hc0, Hf0. destruct file; [left; discriminate|right; reflexivity]. }
  rewrite Hc, Hf, Hl. auto.
Qed.

Lemma predict_single_effective (d : gmap string json) (w : World) :
  d !! "items" = None ->
  (predict (JsonBody (JObj d)) w).1 =
  match effective_model w with
  | Some a => (PredictionsBody [entry_of d a], 200%Z)
  | None => (ErrorBody "Model not loaded" (Some "Model file not found"), 503%Z)
  end.
Proof.
  intros Hd. rewrite (predict_single d w Hd).
  destruct (predict_checked_effective [JObj d] w) as [-> _].
  unfold checked_response. destruct (effective_model w) as [a|]; [|reflexivity].
  by rewrite (score_items_dicts [d] a).
Qed.

(** X3. A failed load is not remembered.  With no model cached and none on
    disk a single-record request is answered 503 and leaves the cache empty;
    once a model file is there, the same request to the same process is
    answered 200 with the entry scored against that file's artefact. *)
Theorem predict_recovers_when_file_appears (d : gmap string json)
    (a : Artefact) (w : World) :
  d !! "items" = None ->
  effective_model w = None ->
  (predict (JsonBody (JObj d)) w).1
    = (ErrorBody "Model not loaded" (Some "Model file not found"), 503%Z) /\
  _artefact (predict (JsonBody (JObj d)) w).2 = None /\
  (predict (JsonBody (JObj d))
     (with_model_file (Some a) (predict (JsonBody (JObj d)) w).2)).1
    = (PredictionsBody [entry_of d a], 200%Z).
Proof.
  intros Hd Hnone.
  destruct (predict_effective (JsonBody (JObj d)) w) as (_ & He & _).
  rewrite Hnone in He.
  assert (Hc : _artefact (predict (JsonBody (JObj d)) w).2 = None).
  { unfold effective_model in He.
    destruct (_artefact (predict (JsonBody (JObj d)) w).2); [discriminate|reflexivity]. }
  split; [by rewrite (predict_single_effective d w Hd), Hnone|].
  split; [exact Hc|].
  rewrite (predict_single_effective d _ Hd).
  assert (Heff : forall v f, _artefact v = None ->
            effective_model (with_model_file f v) = f)
    by (intros v f Hv; unfold effective_model; cbn; by rewrite Hv).
  by rewrite (Heff _ _ Hc).
Qed.

(** X4. The health probe answers 200 exactly when a single-record request
    in the same state is answered 200, and it answers 503 whenever that
    request is answered 503.  When [health] answers 200, it reports the
    number of feature columns and the threshold of the artefact the request
    is scored against, and it leaves that artefact cached: a single-record
    request that follows is scored against it whatever has become of the
    model file in between. *)
Theorem health_ok_iff_predict_ok (d : gmap string json) (w : World) :
  d !! "items" = None ->
  ((health w).1.2 = 200%Z <-> (predict (JsonBody (JObj d)) w).1.2 = 200%Z) /\
  ((predict (JsonBody (JObj d)) w).1.2 = 503%Z -> (health w).1.2 = 503%Z) /\
  (forall body, (health w).1 = (body, 200%Z) ->
     exists a,
       body = HealthOk true (length (art_feature_cols a)) (art_threshold a) /\
       (predict (JsonBody (JObj d)) w).1
         = (PredictionsBody [entry_of d a], 200%Z) /\
       _artefact (health w).2 = Some a /\
       forall file,
         (predict (JsonBody (JObj d)) (with_model_file file (health w).2)).1
         = (PredictionsBody [entry_of d a], 200%Z)).
Proof.
  intros Hd. rewrite (predict_single_effective d w Hd).
  destruct (load_model_effective w) as (Hload & _).
  assert (Hw : (health w).2 = (_load_model w).2)
    by (unfold health; destruct (_load_model w).1; reflexivity).
  assert (Hh : (health w).1 =
               match (_load_model w).1 with
               | inr a => (HealthOk true (length (art_feature_cols a))
                             (art_threshold a), 200%Z)
               | inl e => (HealthError (exn_msg e), 503%Z)
               end)
    by (unfold health; destruct (_load_model w).1; reflexivity).
  rewrite Hh, Hw.
  destruct (effective_model w) as [a|]; destruct Hload as [-> Hcache].
  - cbn [fst snd]. split; [done|]. split; [done|].
    intros body [= <-]. exists a. split; [reflexivity|].
    split; [reflexivity|]. split; [exact Hcache|].
    intros file. rewrite (predict_single_effective d _ Hd).
    unfold effective_model. cbn [_artefact with_model_file].
    by rewrite Hcache.
  - cbn [fst snd]. split; [split; discriminate|]. split; [done|].
    intros body [=].
Qed.

(** X5. A batch body whose [items] is a non-empty list of dicts is answered,
    when a model is in effect, with status 200 and one prediction per item
    in the order of the items; the prediction of an item is the entry it
    would get on its own. *)
Theorem predict_batch_entries (d : gmap string json)
    (rows : list (gmap string json)) (a : Artefact) (w : World) :
  d !! "items" = Some (JList (JObj <$> rows)) ->
  rows <> [] ->
  effective_model w = Some a ->
  (predict (JsonBody (JObj d)) w).1
    = (PredictionsBody ((fun r => entry_of r a) <$> rows), 200%Z) /\
  forall i r, rows !! i = Some r ->
    _score_items [JObj r] a = inr [entry_of r a].
Proof.
  intros Hd Hne Heff.
  assert (Hsel : select_items (JObj d) = inr (inr (JObj <$> rows))).
  { unfold select_items.
    cbn [contains_items getitem_items mbind exc_bind mret exc_ret].
    rewrite Hd, bool_decide_eq_true_2 by eauto. reflexivity. }
  split.
  - rewrite (predict_passes (JsonBody (JObj d)) w (JObj <$> rows));
      [|discriminate|exact Hsel|by destruct rows].
    destruct (predict_checked_effective (JObj <$> rows) w) as [-> _].
    rewrite Heff. unfold checked_response. by rewrite score_items_dicts.
  - intros i r _. exact (score_items_dicts [r] a).
Qed.

Lemma exc_mapM_inl {A B} (f : A -> exc B) (l : list A) (e : exn) :
  exc_mapM f l = inl e -> exists x, x ∈ l /\ f x = inl e.
Proof.
  induction l as [|x l IH]; cbn; [discriminate|].
  destruct (f x) as [e'|y] eqn:E; cbn.
  - intros [= ->]. exists x. split; [left|exact E].
  - destruct (exc_mapM f l) as [e'|ys]; cbn; [|discriminate].
    intros [= ->]. destruct (IH eq_refl) as (x' & Hx' & Hf).
    exists x'. split; [by right|exact Hf].
Qed.

Lemma score_or_error_non_dict (item : json) (artefact : Artefact) :
  is_obj item = false ->
  score_or_error item artefact
  = inl (Exn AttributeError "object has no attribute 'get'").
Proof. destruct item; intros Hobj; try discriminate; reflexivity. Qed.

Lemma score_or_error_raises (item : json) (artefact : Artefact) (e : exn) :
  score_or_error item artefact = inl e ->
  is_obj item = false /\ exn_kind_of e = AttributeError.
Proof.
  destruct (is_obj item) eqn:Hobj.
  - destruct item; try discriminate. rewrite score_or_error_dict. discriminate.
  - rewrite (score_or_error_non_dict item artefact Hobj). by intros [= <-].
Qed.

Lemma score_items_cases (items : list json) (artefact : Artefact) :
  match _score_items items artefact with
  | inl e =>
      exn_kind_of e = AttributeError /\
      Exists (fun item => is_obj item = false) items
  | inr results =>
      length results = length items /\
      Forall (fun item => is_obj item = true) items
  end.
Proof.
  rewrite score_items_mapM.
  destruct (exc_mapM _ items) as [e|results] eqn:E.
  - apply exc_mapM_inl in E as (item & Hin & Hitem).
    apply score_or_error_raises in Hitem as [Hobj Hkind].
    split; [exact Hkind|]. apply Exists_exists. eauto.
  - split; [by apply exc_mapM_length in E|].
    apply exc_mapM_Forall2 in E. apply Forall_forall. intros item Hin.
    destruct (is_obj item) eqn:Hobj; [reflexivity|].
    apply list_elem_of_lookup in Hin as [i Hi].
    destruct (Forall2_lookup_l _ _ _ _ _ E Hi) as (p & _ & Hp).
    rewrite (score_or_error_non_dict item artefact Hobj) in Hp. discriminate.
Qed.


(** X6. [_score_items] raises exactly when the batch holds an item that is
    not a dict, and what it raises is the [AttributeError] of calling [get]
    on that item inside the handler; when every item is a dict it returns
    one entry per item. *)
Theorem score_items_raises_on_non_dict (items : list json) (artefact : Artefact) :
  match _score_items items artefact with
  | inl e =>
      exn_kind_of e = AttributeError /\
      Exists (fun item => is_obj item = false) items
  | inr results =>
      length results = length items /\
      Forall (fun item => is_obj item = true) items
  end.
Proof. exact (score_items_cases items artefact). Qed.

(** X7. One item that is not a dict fails the whole batch: a body whose
    [items] list holds such an item is answered, when a model is in effect,
    with status 500 and the internal-error body, and no prediction for any
    item. *)
Theorem predict_batch_with_non_dict_item (d : gmap string json)
    (items : list json) (a : Artefact) (w : World) :
  d !! "items" = Some (JList items) ->
  Exists (fun item => is_obj item = false) items ->
  effective_model w = Some a ->
  exists detail,
    (predict (JsonBody (JObj d)) w).1
    = (ErrorBody "Internal server error" (Some detail), 500%Z).
Proof.
  intros Hd Hex Heff.
  assert (Hsel : select_items (JObj d) = inr (inr items)).
  { unfold select_items.
    cbn [contains_items getitem_items mbind exc_bind mret exc_ret].
    rewrite Hd, bool_decide_eq_true_2 by eauto. reflexivity. }
  assert (Hne : items <> []) by (intros ->; by apply Exists_nil in Hex).
  rewrite (predict_passes (JsonBody (JObj d)) w items);
    [|discriminate|exact Hsel|exact Hne].
  destruct (predict_checked_effective items w) as [-> _].
  rewrite Heff. unfold checked_response.
  pose proof (score_items_cases items a) as Hs.
  destruct (_score_items items a) as [e|results].
  - destruct Hs as [Hkind _]. exists (exn_msg e).
    unfold on_exception. by rewrite Hkind.
  - destruct Hs as [_ Hall]. exfalso.
    apply Exists_exists in Hex as (item & Hin & Hobj).
    rewrite Forall_forall in Hall. specialize (Hall item Hin). congruence.
Qed.

(** X8. A body that is valid JSON but neither null nor an object (a number,
    a boolean, a string, a list) is never answered 200 or 400: the answer is
    the internal-error body with status 500 when a model is in effect, and
    500 or 503 when none is. *)
Theorem predict_non_object_payload (j : json) (w : World) :
  j <> JNull -> is_obj j = false ->
  (exists detail,
     (predict (JsonBody j) w).1
     = (ErrorBody "Internal server error" (Some detail), 500%Z)) \/
  (effective_model w = None /\
   (predict (JsonBody j) w).1
   = (ErrorBody "Model not loaded" (Some "Model file not found"), 503%Z)).
Proof.
  intros Hnull Hobj.
  assert (Hsingle : select_items j = inr (inr [j]) ->
            (exists detail, (predict (JsonBody j) w).1
               = (ErrorBody "Internal server error" (Some detail), 500%Z)) \/
            (effective_model w = None /\
             (predict (JsonBody j) w).1
             = (ErrorBody "Model not loaded" (Some "Model file not found"), 503%Z))).
  { intros Hsel.
    rewrite (predict_passes (JsonBody j) w [j] Hnull Hsel) by discriminate.
    destruct (predict_checked_effective [j] w) as [-> _].
    unfold checked_response. destruct (effective_model w) as [a|]; [|by right].
    left. rewrite score_items_mapM. cbn [exc_mapM].
    rewrite (score_or_error_non_dict j a Hobj). by eexists. }
  destruct j as [|b|z|x|s|l|o]; try congruence; try discriminate.
  - left. by eexists.
  - left. by eexists.
  - left. by eexists.
  - destruct (bool_decide (is_Some (index 0 "items" s))) eqn:E.
    + left. unfold predict, select_items.
      cbn [get_json contains_items mbind exc_bind mret exc_ret].
      rewrite E. by eexists.
    + apply Hsingle. unfold select_items.
      cbn [contains_items mbind exc_bind mret exc_ret]. by rewrite E.
  - destruct (existsb (fun v => match v with
                                | JStr s => String.eqb s "items"
                                | _ => false
                                end) l) eqn:E.
    + left. unfold predict, select_items.
      cbn [get_json contains_items mbind exc_bind mret exc_ret].
      rewrite E. by eexists.
    + apply Hsingle. unfold select_items.
      cbn [contains_items mbind exc_bind mret exc_ret]. by rewrite E.
Qed.

End ServingRuns.

(** ** More on entries and on [_engineer_row] *)

Section Entries2.

Context `{Externals}.

Lemma score_item_echo (d : gmap string json) (artefact : Artefact)
    (p : Prediction) :
  score_item (JObj d) artefact = inr p ->
  pr_number p = dict_get d "pr_number" JNull /\
  item_number p = dict_get d "item_number" JNull.
Proof.
  unfold score_item.
  destruct (_engineer_row (JObj d) artefact) as [e|X]; [discriminate|].
  cbn [mbind exc_bind].
  destruct (decision_function (art_model artefact) X) as [e|[|raw scores]];
    [discriminate|discriminate|].
  cbn [mbind exc_bind index0].
  destruct (predict_labels (art_model artefact) X) as [e|[|l labels]];
    [discriminate|discriminate|].
  cbn [mbind exc_bind index0].
  destruct (confidence_of (art_threshold artefact) raw) as [e|conf];
    [discriminate|].
  cbn. intros [= <-]. cbn. auto.
Qed.

Lemma entry_of_echo (d : gmap string json) (artefact : Artefact) :
  pr_number (entry_of d artefact) = dict_get d "pr_number" JNull /\
  item_number (entry_of d artefact) = dict_get d "item_number" JNull.
Proof.
  unfold entry_of.
  destruct (score_item (JObj d) artefact) as [e|p] eqn:E; [by cbn|].
  by apply score_item_echo in E.
Qed.

(** X9. Every entry of a batch of dicts, scored or ERROR, carries the
    [pr_number] and the [item_number] of its own item, and null for a field
    the item does not have. *)
Theorem entries_echo_identifiers (rows : list (gmap string json))
    (artefact : Artefact) :
  exists results,
    _score_items (JObj <$> rows) artefact = inr results /\
    pr_number <$> results = (fun r => dict_get r "pr_number" JNull) <$> rows /\
    item_number <$> results = (fun r => dict_get r "item_number" JNull) <$> rows.
Proof.
  exists ((fun r => entry_of r artefact) <$> rows).
  split; [apply score_items_dicts|].
  rewrite <- !list_fmap_compose.
  split; apply list_fmap_ext; intros _ r _; cbn; apply entry_of_echo.
Qed.

Lemma Z_of_Q_bounds (k lo hi : Z) :
  (inject_Z lo - (1 # 2) <= inject_Z k)%Q ->
  (inject_Z k <= inject_Z hi + (1 # 2))%Q ->
  (lo <= k <= hi)%Z.
Proof.
  intros Hlo Hhi. split.
  - assert (Hlt : (inject_Z (lo - 1) < inject_Z k)%Q).
    { rewrite <- (Z.add_opp_r lo), inject_Z_plus.
      change (inject_Z (- (1))) with (- (1))%Q. lra. }
    rewrite <- Zlt_Qlt in Hlt. lia.
  - assert (Hlt : (inject_Z k < inject_Z (hi + 1))%Q).
    { rewrite inject_Z_plus. change (inject_Z 1) with 1%Q. lra. }
    rewrite <- Zlt_Qlt in Hlt. lia.
Qed.

(** Rounding keeps a value of the unit interval in the unit interval, and
    keeps zero. *)
Lemma py_round_unit (x : Q) (n : nat) :
  (0 <= x)%Q -> (x <= 1)%Q ->
  (0 <= py_round x n)%Q /\ (py_round x n <= 1)%Q /\
  ((x == 0)%Q -> (py_round x n == 0)%Q).
Proof.
  intros H0 H1.
  pose proof (pow10_pos n) as HP.
  pose proof (round_half_even_near (x * pow10 n)) as [Hlo Hhi].
  unfold py_round. set (k := round_half_even (x * pow10 n)) in *.
  assert (HPz : pow10 n = inject_Z (10 ^ Z.of_nat n)) by reflexivity.
  set (P := pow10 n) in *.
  assert (Hinv : (0 < / P)%Q) by (apply Qinv_lt_0_compat; exact HP).
  assert (HPinv : (P * / P == 1)%Q) by (apply Qmult_inv_r; lra).
  assert (Hk : (0 <= k <= 10 ^ Z.of_nat n)%Z).
  { apply Z_of_Q_bounds; rewrite <- ?HPz; change (inject_Z 0) with 0%Q; nra. }
  destruct Hk as [Hk0 Hk1].
  rewrite Zle_Qle in Hk0, Hk1. rewrite <- HPz in Hk1.
  change (inject_Z 0) with 0%Q in Hk0.
  unfold Qdiv. split; [nra|]. split; [nra|].
  intros Hx.
  assert (Hy : (x * P == 0)%Q) by (rewrite Hx; ring).
  assert (Hkz : (0 <= k <= 0)%Z).
  { apply Z_of_Q_bounds; change (inject_Z 0) with 0%Q; lra. }
  assert (k = 0%Z) as -> by lia. change (inject_Z 0) with 0%Q. ring.
Qed.

Lemma confidence_of_inr_inv (t s c : Q) :
  confidence_of t s = inr c ->
  (0 < Qabs (t + eps))%Q /\ c = np_clip ((t - s) / Qabs (t + eps)) 0 1.
Proof.
  unfold confidence_of, py_div.
  destruct (Qeq_bool (Qabs (t + eps)) 0) eqn:E; [discriminate|].
  cbn. intros [= <-]. split; [|reflexivity].
  pose proof (Qabs_nonneg (t + eps)) as Hnn.
  apply Qle_lteq in Hnn as [Hlt|Heq]; [exact Hlt|].
  symmetry in Heq. apply Qeq_bool_iff in Heq. congruence.
Qed.

(** X10. In every list [_score_items] returns, the reported confidence of a
    NORMAL entry is zero, and the reported confidence of an ANOMALY entry
    lies between 0 and 1; a NORMAL entry has the anomaly flag false and an
    ANOMALY entry has it true. *)
Theorem reported_confidence_range (items : list json) (artefact : Artefact)
    (results : list Prediction) :
  _score_items items artefact = inr results ->
  Forall (fun p =>
            (label p = NORMAL ->
             anomaly p = Some false /\
             exists c, confidence p = Some c /\ (c == 0)%Q) /\
            (label p = ANOMALY ->
             anomaly p = Some true /\
             exists c, confidence p = Some c /\ (0 <= c)%Q /\ (c <= 1)%Q))
    results.
Proof.
  intros Hs. rewrite score_items_mapM in Hs. apply exc_mapM_Forall2 in Hs.
  apply Forall_forall. intros p Hp.
  apply list_elem_of_lookup in Hp as [i Hi].
  destruct (Forall2_lookup_r _ _ _ _ _ Hs Hi) as (item & _ & Hshape).
  apply score_or_error_shape in Hshape.
  destruct Hshape as [(Hl & _)|Hscored].
  { rewrite Hl. split; discriminate. }
  destruct Hscored as (X & raw & scores & conf & s & c & _ & _ & Hconf & Ha &
                       Hlt & Hl & _ & _ & _ & _ & Hc & -> & _ & _ & _).
  apply confidence_of_inr_inv in Hconf as [HD ->].
  set (r := ((art_threshold artefact - raw) / Qabs (art_threshold artefact + eps))%Q).
  destruct (np_clip_unit r) as (H0 & H1 & Hz & _).
  destruct (py_round_unit (np_clip r 0 1) 4 H0 H1) as (Hr0 & Hr1 & Hrz).
  rewrite Hl, Ha, Hc.
  destruct (Qltb raw (art_threshold artefact)) eqn:E.
  - split; [discriminate|]. intros _. split; [reflexivity|]. eauto.
  - split; [|discriminate]. intros _. split; [reflexivity|].
    eexists. split; [reflexivity|]. apply Hrz, Hz.
    assert (Hge : (art_threshold artefact <= raw)%Q).
    { apply Qnot_lt_le. intros Hlt'. apply Hlt in Hlt'. congruence. }
    assert (Hinv : (0 < / Qabs (art_threshold artefact + eps))%Q)
      by (apply Qinv_lt_0_compat; exact HD).
    unfold r, Qdiv. nra.
Qed.

(** X11. For a fixed threshold the confidence does not grow with the score:
    of two scores for which it is defined, the lower one has the larger or
    equal confidence; and the confidence is 1 once the score is below the
    threshold by at least [abs(threshold + 1e-9)]. *)
Theorem confidence_antitone (t s1 s2 c1 c2 : Q) :
  (s1 <= s2)%Q ->
  confidence_of t s1 = inr c1 ->
  confidence_of t s2 = inr c2 ->
  (c2 <= c1)%Q /\
  ((Qabs (t + eps) <= t - s1)%Q -> (c1 == 1)%Q).
Proof.
  intros Hs H1 H2.
  apply confidence_of_inr_inv in H1 as [HD ->].
  apply confidence_of_inr_inv in H2 as [_ ->].
  set (D := Qabs (t + eps)) in *.
  assert (Hinv : (0 < / D)%Q) by (apply Qinv_lt_0_compat; exact HD).
  assert (HDinv : (D * / D == 1)%Q) by (apply Qmult_inv_r; lra).
  set (r1 := ((t - s1) / D)%Q). set (r2 := ((t - s2) / D)%Q).
  assert (Hr : (r2 <= r1)%Q) by (unfold r1, r2, Qdiv; nra).
  destruct (np_clip_unit r1) as (A0 & A1 & Az & Am & Ao).
  destruct (np_clip_unit r2) as (B0 & B1 & Bz & Bm & Bo).
  split.
  - destruct (Qlt_le_dec r2 0) as [?|?]; [rewrite Bz by lra; exact A0|].
    destruct (Qlt_le_dec 1 r1) as [?|?]; [rewrite Ao by lra; exact B1|].
    rewrite Am, Bm by lra. exact Hr.
  - intros Hsat. apply Ao. unfold r1, Qdiv. nra.
Qed.

End Entries2.

Section EngineerRow2.

Context `{Externals}.

Lemma foldl_insert_codes_ext (f g : string -> Z) (cols : list string)
    (record : gmap string json) :
  (forall col, col ∈ cols -> f col = g col) ->
  foldl (fun rec col => <[enc_name col := JInt (f col)]> rec) record cols =
  foldl (fun rec col => <[enc_name col := JInt (g col)]> rec) record cols.
Proof.
  revert record. induction cols as [|col cols IH]; intros record Hfg;
    [reflexivity|].
  cbn. rewrite (Hfg col) by left. apply IH. intros c Hc. apply Hfg. by right.
Qed.

(** X12. [_engineer_row] reads the eleven categorical fields, [pr_date],
    [quantity], [net_price] and [short_text] of a record and nothing else:
    two records that agree on these fields get the same result, frame or
    exception, against every artefact. *)
Theorem engineer_row_reads_only (d1 d2 : gmap string json) (artefact : Artefact) :
  (forall k, k ∈ fields_read -> d1 !! k = d2 !! k) ->
  _engineer_row (JObj d1) artefact = _engineer_row (JObj d2) artefact.
Proof.
  intros Hagree.
  assert (Hin : forall k, bool_decide (k ∈ fields_read) = true ->
                          d1 !! k = d2 !! k).
  { intros k Hk. apply Hagree. by apply bool_decide_eq_true in Hk. }
  unfold _engineer_row. rewrite !encode_categoricals_dict.
  rewrite (foldl_insert_codes_ext (cat_code (art_encoders artefact) d1)
             (cat_code (art_encoders artefact) d2)).
  - cbn [py_get mbind exc_bind mret exc_ret]. unfold dict_get.
    rewrite (Hin "pr_date"), (Hin "quantity"), (Hin "net_price"),
      (Hin "short_text") by reflexivity.
    reflexivity.
  - intros col Hcol. unfold cat_code, cat_value, dict_get.
    rewrite (Hagree col); [reflexivity|].
    unfold fields_read. apply elem_of_app. by left.
Qed.

Lemma exc_mapM_raises_at {A B} (f : A -> exc B) (l : list A) (x : A) :
  x ∈ l -> (exists e, f x = inl e) -> exists e, exc_mapM f l = inl e.
Proof.
  intros Hin [e He]. induction l as [|y l IH]; [by apply elem_of_nil in Hin|].
  cbn. destruct (f y) as [e'|b] eqn:E; cbn; [by eexists|].
  apply elem_of_cons in Hin as [->|Hin]; [congruence|].
  destruct (IH Hin) as [e' ->]. cbn. by eexists.
Qed.

(** X13. When the artefact's [feature_cols] names a column that
    [_engineer_row] does not produce, [_engineer_row] raises for every
    record, whatever the record holds, and the record gets an ERROR entry. *)
Theorem engineer_row_unknown_column (d : gmap string json)
    (artefact : Artefact) (c : string) :
  c ∈ art_feature_cols artefact ->
  c ∉ feature_cols_of_training ->
  (exists e, _engineer_row (JObj d) artefact = inl e) /\
  label (entry_of d artefact) = ERROR.
Proof.
  intros Hc Hnot.
  assert (Hne : forall k, bool_decide (k ∈ feature_cols_of_training) = true ->
                          k <> c).
  { intros k Hk ->. apply bool_decide_eq_true in Hk. contradiction. }
  assert (Hraise : exists e, _engineer_row (JObj d) artefact = inl e).
  { unfold _engineer_row. rewrite encode_categoricals_dict.
    cbn [py_get mbind exc_bind mret exc_ret].
    destruct (to_datetime (dict_get d "pr_date" JNull)) as [e|date];
      [by eexists|].
    cbn [mbind exc_bind].
    destruct (py_float (py_or (dict_get d "quantity" (JInt 0)) (JInt 0)))
      as [e|q]; [by eexists|].
    cbn [mbind exc_bind].
    destruct (py_float (py_or (dict_get d "net_price" (JInt 0)) (JInt 0)))
      as [e|np]; [by eexists|].
    cbn [mbind exc_bind].
    apply (exc_mapM_raises_at _ _ c Hc).
    cbn [foldl CATEGORICAL_FEATURES].
    rewrite !lookup_insert_ne by (apply Hne; reflexivity).
    rewrite lookup_empty. by eexists. }
  split; [exact Hraise|].
  destruct Hraise as [e He]. by apply (entry_of_engineer_raises d artefact e).
Qed.

End EngineerRow2.

(** ** Frames: [load_data] and [engineer_features] *)

Lemma df_get_set_eq (df : DataFrame) (c : string) (s : Series) :
  df_get (df_set df c s) c = inr s.
Proof.
  induction df as [|[c' s'] df IH]; cbn.
  - by rewrite String.eqb_refl.
  - destruct (String.eqb c' c) eqn:E; cbn; rewrite E; [reflexivity|exact IH].
Qed.

Lemma df_get_set_ne (df : DataFrame) (c k : string) (s : Series) :
  c <> k -> df_get (df_set df c s) k = df_get df k.
Proof.
  intros Hne. induction df as [|[c' s'] df IH]; cbn.
  - apply String.eqb_neq in Hne. by rewrite Hne.
  - destruct (String.eqb c' c) eqn:E; cbn.
    + apply String.eqb_eq in E as ->.
      apply String.eqb_neq in Hne. by rewrite Hne.
    + destruct (String.eqb c' k); [reflexivity|exact IH].
Qed.

Lemma df_get_columns (df : DataFrame) (c : string) :
  match df_get df c with
  | inr _ => c ∈ df_columns df
  | inl e => (c ∉ df_columns df) /\ e = Exn KeyError c
  end.
Proof.
  induction df as [|[c' s'] df IH]; cbn.
  - split; [apply not_elem_of_nil|reflexivity].
  - destruct (String.eqb c' c) eqn:E.
    + apply String.eqb_eq in E as ->. left.
    + apply String.eqb_neq in E. destruct (df_get df c) as [e|s].
      * destruct IH as [Hn ->]. split; [|reflexivity].
        intros Hin. apply elem_of_cons in Hin as [->|Hin]; [congruence|contradiction].
      * by right.
Qed.

Lemma df_get_present (df : DataFrame) (c : string) :
  c ∈ df_columns df -> exists s, df_get df c = inr s.
Proof.
  intros Hin. pose proof (df_get_columns df c) as Hc.
  destruct (df_get df c) as [e|s]; [|by eexists].
  destruct Hc as [Hn _]. contradiction.
Qed.

Lemma load_data_cases (read_csv : string -> exc DataFrame)
    (path : string) :
  match load_data read_csv path with
  | inr df =>
      read_csv path = inr df /\
      forall c, c ∈ REQUIRED_COLS -> c ∈ df_columns df
  | inl e =>
      read_csv path = inl e \/
      exists df c,
        read_csv path = inr df /\ c ∈ REQUIRED_COLS /\ (c ∉ df_columns df) /\
        exn_kind_of e = ValueError
  end.
Proof.
  unfold load_data.
  destruct (read_csv path) as [e|df]; cbn [mbind exc_bind]; [by left|].
  destruct (List.filter _ REQUIRED_COLS) as [|m missing] eqn:E.
  - split; [reflexivity|]. intros c Hc.
    destruct (decide (c ∈ df_columns df)) as [Hin|Hn]; [exact Hin|].
    exfalso. apply list_elem_of_In in Hc.
    assert (Hf : In c []).
    { rewrite <- E. apply List.filter_In. split; [exact Hc|].
      by rewrite bool_decide_eq_false_2. }
    destruct Hf.
  - right. exists df, m.
    assert (Hm : In m (m :: missing)) by (left; reflexivity).
    rewrite <- E in Hm. apply List.filter_In in Hm as [Hreq Hneg].
    apply negb_true_iff, bool_decide_eq_false in Hneg.
    split; [reflexivity|]. split; [by apply list_elem_of_In|]. auto.
Qed.

(** X14. [load_data] returns a frame exactly when the reader returns it and
    it has every required column, and then it returns the frame as read; an
    exception of the reader is passed on, and a frame that lacks a required
    column is refused with a [ValueError]. *)
Theorem load_data_required_columns (read_csv : string -> exc DataFrame)
    (path : string) :
  match load_data read_csv path with
  | inr df =>
      read_csv path = inr df /\
      forall c, c ∈ REQUIRED_COLS -> c ∈ df_columns df
  | inl e =>
      read_csv path = inl e \/
      exists df c,
        read_csv path = inr df /\ c ∈ REQUIRED_COLS /\ (c ∉ df_columns df) /\
        exn_kind_of e = ValueError
  end.
Proof. exact (load_data_cases read_csv path). Qed.

Section Training.

Context `{Externals}.

Lemma col_strings_get (df : DataFrame) (col : string) (cells : Series) :
  df_get df col = inr cells ->
  col_strings df col = py_str <$> fillna (JStr UNKNOWN) cells.
Proof.
  intros Hg. unfold col_strings, fillna. rewrite Hg.
  rewrite <- list_fmap_compose. reflexivity.
Qed.

Lemma col_strings_same (df df' : DataFrame) (col : string) :
  df_get df' col = df_get df col ->
  col_strings df' col = col_strings df col /\
  col_codes df' col = col_codes df col.
Proof.
  intros Hg. assert (Hs : col_strings df' col = col_strings df col)
    by (unfold col_strings; by rewrite Hg).
  split; [exact Hs|]. unfold col_codes. by rewrite Hs.
Qed.

(** The outcome of the loop over the categorical columns, for column names
    that differ from each other and from each other's code columns. *)
Lemma fit_categoricals_cases (cols : list string) (df : DataFrame)
    (encoders : gmap string LabelEncoder) :
  NoDup cols ->
  NoDup (enc_name <$> cols) ->
  (forall c c', c ∈ cols -> c' ∈ cols -> enc_name c <> c') ->
  match fit_categoricals cols df encoders with
  | inr (df', encoders') =>
      (forall c, c ∈ cols ->
         (exists cells, df_get df c = inr cells) /\
         encoders' !! c = Some (le_fit (col_strings df c)) /\
         df_get df' (enc_name c) = inr (col_codes df c)) /\
      (forall c, c ∉ cols -> encoders' !! c = encoders !! c) /\
      (forall k, k ∉ cols -> k ∉ enc_name <$> cols ->
                 df_get df' k = df_get df k)
  | inl e => exists c, c ∈ cols /\ df_get df c = inl e
  end.
Proof.
  revert df encoders.
  induction cols as [|col cols IH]; intros df encoders Hnd Hnde Hdis.
  { cbn. split; [intros c Hc; by apply elem_of_nil in Hc|]. auto. }
  apply NoDup_cons in Hnd as [Hcol Hnd].
  rewrite fmap_cons in Hnde. apply NoDup_cons in Hnde as [Hecol Hnde].
  cbn [fit_categoricals].
  destruct (df_get df col) as [e|cells] eqn:Hget; cbn [mbind exc_bind].
  { exists col. split; [left|exact Hget]. }
  rewrite le_fit_transform_total. cbn [mbind exc_bind fst snd].
  set (strs := py_str <$> fillna (JStr UNKNOWN) cells).
  set (df2 := df_set (df_set df col (JStr <$> strs)) (enc_name col)
                (JInt <$> (code_in (unique_sorted strs) <$> strs))).
  assert (Hstrs : col_strings df col = strs) by (by apply col_strings_get).
  assert (Hsame : forall k, k <> col -> k <> enc_name col ->
                            df_get df2 k = df_get df k).
  { intros k Hk1 Hk2. unfold df2. rewrite !df_get_set_ne by congruence.
    reflexivity. }
  assert (Hself : enc_name col <> col) by (apply Hdis; left).
  specialize (IH df2 (<[col := le_fit strs]> encoders) Hnd Hnde).
  destruct (fit_categoricals cols df2 (<[col := le_fit strs]> encoders))
    as [e|[df' encoders']].
  - destruct IH as (c & Hc & He).
    { intros c c' Hc Hc'. apply Hdis; by right. }
    exists c. split; [by right|].
    rewrite <- (Hsame c); [exact He| |].
    + intros ->. contradiction.
    + intros ->. apply (Hdis col (enc_name col)); [left|by right|reflexivity].
  - destruct IH as (Hin & Hout & Hrest).
    { intros c c' Hc Hc'. apply Hdis; by right. }
    assert (Hkeep : forall c, c ∈ cols -> df_get df2 c = df_get df c).
    { intros c Hc. apply Hsame.
      - intros ->. contradiction.
      - intros ->. apply (Hdis col (enc_name col)); [left|by right|reflexivity]. }
    split; [|split].
    + intros c Hc. apply elem_of_cons in Hc as [->|Hc].
      * split; [by eexists|]. split.
        -- rewrite (Hout col Hcol), lookup_insert_eq, Hstrs. reflexivity.
        -- rewrite Hrest.
           ++ unfold df2. rewrite df_get_set_eq. unfold col_codes.
              by rewrite Hstrs.
           ++ intros Hc'. apply (Hdis col (enc_name col)); [left|by right|reflexivity].
           ++ exact Hecol.
      * destruct (Hin c Hc) as ((cells' & Hcells) & Henc & Hcodes).
        destruct (col_strings_same df df2 c (Hkeep c Hc)) as [Hs1 Hs2].
        rewrite Hs1 in Henc. rewrite Hs2 in Hcodes.
        split; [exists cells'; by rewrite <- (Hkeep c Hc)|]. auto.
    + intros c Hc. rewrite Hout.
      * apply lookup_insert_ne. intros ->. apply Hc. left.
      * intros Hc'. apply Hc. by right.
    + intros k Hk Hke. rewrite Hrest.
      * apply Hsame.
        -- intros ->. apply Hk. left.
        -- intros ->. apply Hke. rewrite fmap_cons. left.
      * intros Hk'. apply Hk. by right.
      * intros Hk'. apply Hke. rewrite fmap_cons. by right.
Qed.

Lemma categorical_names :
  NoDup CATEGORICAL_FEATURES /\
  NoDup (enc_name <$> CATEGORICAL_FEATURES) /\
  (forall c c', c ∈ CATEGORICAL_FEATURES -> c' ∈ CATEGORICAL_FEATURES ->
                enc_name c <> c') /\
  (forall c, c ∈ CATEGORICAL_FEATURES ->
     c ∈ REQUIRED_COLS /\ c <> "day_of_week" /\ c <> "month" /\
     c <> "text_length").
Proof.
  split; [apply (bool_decide_unpack _); vm_compute; exact I|].
  split; [apply (bool_decide_unpack _); vm_compute; exact I|].
  split.
  - assert (Hall : Forall (fun c => Forall (fun c' => enc_name c <> c')
                                      CATEGORICAL_FEATURES)
                     CATEGORICAL_FEATURES)
      by (apply (bool_decide_unpack _); vm_compute; exact I).
    intros c c' Hc Hc'. rewrite Forall_forall in Hall.
    specialize (Hall c Hc). rewrite Forall_forall in Hall. by apply Hall.
  - assert (Hall : Forall (fun c => c ∈ REQUIRED_COLS /\ c <> "day_of_week" /\
                                    c <> "month" /\ c <> "text_length")
                     CATEGORICAL_FEATURES)
      by (apply (bool_decide_unpack _); vm_compute; exact I).
    intros c Hc. rewrite Forall_forall in Hall. by apply Hall.
Qed.

(** The outcome of [engineer_features]: the matrix and the encoders in closed
    form, or the exception with the step that raised it. *)
Lemma engineer_features_cases (df : DataFrame) :
  match engineer_features df with
  | inr (X, encoders) =>
      exists raw_dates dates raw_text lens quantity net_price,
        df_get df "pr_date" = inr raw_dates /\
        series_to_datetime raw_dates = inr dates /\
        df_get df "short_text" = inr raw_text /\
        series_str_len (fillna (JStr "") raw_text) = inr lens /\
        df_get df "quantity" = inr quantity /\
        df_get df "net_price" = inr net_price /\
        X = training_matrix (col_codes df) quantity net_price dates lens /\
        forall c, c ∈ CATEGORICAL_FEATURES ->
          (exists cells, df_get df c = inr cells) /\
          encoders !! c = Some (le_fit (col_strings df c))
  | inl e =>
      (exists c, c ∈ REQUIRED_COLS /\ df_get df c = inl e) \/
      (exists raw, df_get df "pr_date" = inr raw /\
                   series_to_datetime raw = inl e) \/
      (exists raw, df_get df "short_text" = inr raw /\
                   series_str_len (fillna (JStr "") raw) = inl e)
  end.
Proof.
  destruct categorical_names as (Hnd & Hnde & Hdis & Hcat).
  assert (Hreq : forall c, bool_decide (c ∈ REQUIRED_COLS) = true ->
                           c ∈ REQUIRED_COLS)
    by (intros c Hc; by apply bool_decide_eq_true in Hc).
  unfold engineer_features.
  destruct (df_get df "pr_date") as [e|raw_dates] eqn:Hdate; cbn [mbind exc_bind].
  { left. exists "pr_date". split; [by apply Hreq|exact Hdate]. }
  destruct (series_to_datetime raw_dates) as [e|dates] eqn:Hparse;
    cbn [mbind exc_bind].
  { right. left. eauto. }
  rewrite !df_get_set_ne by discriminate.
  destruct (df_get df "short_text") as [e|raw_text] eqn:Htext; cbn [mbind exc_bind].
  { left. exists "short_text". split; [by apply Hreq|exact Htext]. }
  destruct (series_str_len (fillna (JStr "") raw_text)) as [e|lens] eqn:Hlen;
    cbn [mbind exc_bind].
  { right. right. eauto. }
  set (df3 := df_set (df_set (df_set df "day_of_week" _) "month" _)
                "text_length" lens).
  assert (Hsame : forall k, k <> "day_of_week" -> k <> "month" ->
                            k <> "text_length" -> df_get df3 k = df_get df k).
  { intros k H1 H2 H3. unfold df3. rewrite !df_get_set_ne by congruence.
    reflexivity. }
  pose proof (fit_categoricals_cases CATEGORICAL_FEATURES df3 ∅ Hnd Hnde Hdis)
    as Hfit.
  destruct (fit_categoricals CATEGORICAL_FEATURES df3 ∅) as [e|[df' encoders]];
    cbn [mbind exc_bind fst snd].
  { destruct Hfit as (c & Hc & He). left. exists c.
    destruct (Hcat c Hc) as (Hr & H1 & H2 & H3).
    split; [exact Hr|]. by rewrite <- (Hsame c H1 H2 H3). }
  destruct Hfit as (Hin & _ & Hrest).
  assert (Hcodes : forall c, bool_decide (c ∈ CATEGORICAL_FEATURES) = true ->
            df_get df' (enc_name c) = inr (col_codes df c)).
  { intros c Hc. apply bool_decide_eq_true in Hc.
    destruct (Hin c Hc) as (_ & _ & Hcode).
    destruct (Hcat c Hc) as (_ & H1 & H2 & H3).
    destruct (col_strings_same df df3 c (Hsame c H1 H2 H3)) as [_ Hs].
    by rewrite Hcode, Hs. }
  assert (Hother : forall k,
            bool_decide (k ∈ CATEGORICAL_FEATURES) = false ->
            bool_decide (k ∈ enc_name <$> CATEGORICAL_FEATURES) = false ->
            df_get df' k = df_get df3 k).
  { intros k Hk1 Hk2. apply bool_decide_eq_false in Hk1, Hk2. by apply Hrest. }
  unfold df_select, feature_cols_of_training.
  cbn [fmap list_fmap CATEGORICAL_FEATURES NUMERIC_FEATURES app exc_mapM].
  rewrite !Hcodes by reflexivity.
  rewrite (Hother "quantity"), (Hother "net_price"), (Hother "day_of_week"),
    (Hother "month"), (Hother "text_length") by reflexivity.
  rewrite (Hsame "quantity"), (Hsame "net_price") by discriminate.
  unfold df3. rewrite df_get_set_eq.
  rewrite (df_get_set_ne _ "text_length" "month") by discriminate.
  rewrite df_get_set_eq.
  rewrite (df_get_set_ne _ "text_length" "day_of_week") by discriminate.
  rewrite (df_get_set_ne _ "month" "day_of_week") by discriminate.
  rewrite df_get_set_eq.
  cbn [mbind exc_bind mret exc_ret].
  destruct (df_get df "quantity") as [e|quantity] eqn:Hq; cbn [mbind exc_bind].
  { left. exists "quantity". split; [by apply Hreq|exact Hq]. }
  destruct (df_get df "net_price") as [e|net_price] eqn:Hn; cbn [mbind exc_bind].
  { left. exists "net_price". split; [by apply Hreq|exact Hn]. }
  cbn [fst snd].
  exists raw_dates, dates, raw_text, lens, quantity, net_price.
  do 7 (split; [assumption || reflexivity|]).
  intros c Hc. destruct (Hin c Hc) as ((cells & Hcells) & Henc & _).
  destruct (Hcat c Hc) as (_ & H1 & H2 & H3).
  pose proof (Hsame c H1 H2 H3) as Hk.
  destruct (col_strings_same df df3 c Hk) as [Hs _].
  split; [exists cells; by rewrite <- Hk|]. by rewrite Henc, Hs.
Qed.

Lemma training_matrix_get (codes : string -> Series) (q np : Series)
    (dates : list (option (Z * Z))) (lens : Series) (col : string) :
  col ∈ CATEGORICAL_FEATURES ->
  df_get (training_matrix codes q np dates lens) (enc_name col)
  = inr (codes col).
Proof.
  intros Hcol. unfold CATEGORICAL_FEATURES in Hcol.
  repeat (apply elem_of_cons in Hcol as [->|Hcol]; [reflexivity|]).
  by apply elem_of_nil in Hcol.
Qed.


Lemma training_matrix_columns (codes : string -> Series) (q np : Series)
    (dates : list (option (Z * Z))) (lens : Series) :
  df_columns (training_matrix codes q np dates lens) = feature_cols_of_training.
Proof. reflexivity. Qed.

(** X15. A frame that [load_data] has accepted never makes
    [engineer_features] fail on a missing column: [engineer_features] raises
    only when the date parsing of column [pr_date] or the length of column
    [short_text] raises.  When it returns, the matrix has the sixteen feature
    columns in order; [quantity] and [net_price] are the frame's own columns,
    passed through as they are; each code column has one code per cell of
    the column it encodes; and each categorical column has its encoder,
    fitted on the strings of that column. *)
Theorem engineer_features_after_load_data (read_csv : string -> exc DataFrame)
    (path : string) (df : DataFrame) :
  load_data read_csv path = inr df ->
  match engineer_features df with
  | inr (X, encoders) =>
      df_columns X = feature_cols_of_training /\
      df_get X "quantity" = df_get df "quantity" /\
      df_get X "net_price" = df_get df "net_price" /\
      forall c, c ∈ CATEGORICAL_FEATURES ->
        exists cells,
          df_get df c = inr cells /\
          df_get X (enc_name c) = inr (col_codes df c) /\
          length (col_codes df c) = length cells /\
          encoders !! c = Some (le_fit (col_strings df c))
  | inl e =>
      (exists raw, df_get df "pr_date" = inr raw /\
                   series_to_datetime raw = inl e) \/
      (exists raw, df_get df "short_text" = inr raw /\
                   series_str_len (fillna (JStr "") raw) = inl e)
  end.
Proof.
  intros Hload.
  pose proof (load_data_cases read_csv path) as Hreq.
  rewrite Hload in Hreq. destruct Hreq as [_ Hreq].
  pose proof (engineer_features_cases df) as Hcases.
  destruct (engineer_features df) as [e|[X encoders]].
  - destruct Hcases as [(c & Hc & He)|Hext]; [|exact Hext].
    destruct (df_get_present df c (Hreq c Hc)) as [s Hs]. congruence.
  - destruct Hcases as (raw_dates & dates & raw_text & lens & q & np & _ & _ &
                        _ & _ & Hq & Hn & -> & Henc).
    split; [apply training_matrix_columns|].
    split; [by rewrite Hq|]. split; [by rewrite Hn|].
    intros c Hc. destruct (Henc c Hc) as ((cells & Hcells) & He).
    exists cells. split; [exact Hcells|].
    split; [by apply training_matrix_get|]. split; [|exact He].
    unfold col_codes, col_strings. rewrite Hcells. by rewrite !length_fmap.
Qed.






End Training.

(** ** Empty fields of the training file *)


Section EmptyFields.

Context `{Externals}.


Lemma training_string_missing (cell : json) :
  is_missing cell = true -> training_string cell = UNKNOWN.
Proof. unfold training_string. by intros ->. Qed.


End EmptyFields.

(** ** The threshold among the training scores *)

Lemma count_below_not_all (thr x : Q) (l : list Q) :
  x ∈ l -> (thr <= x)%Q -> count_below thr l < length l.
Proof.
  intros Hin Hx. unfold count_below.
  induction l as [|y l IH]; [by apply elem_of_nil in Hin|].
  pose proof (List.filter_length_le (fun z => Qltb z thr) l) as Hle.
  cbn [List.filter length].
  apply elem_of_cons in Hin as [<-|Hin].
  - destruct (Qltb x thr) eqn:E; [apply Qltb_lt in E; lra|]. lia.
  - specialize (IH Hin). destruct (Qltb y thr); cbn [length]; lia.
Qed.

(** Whenever [np.percentile] returns, its value lies between two of the
    scores, and for [q = 0] no score lies below it. *)
Lemma np_percentile_between (S : list Q) (q thr : Q) :
  np_percentile S q = inr thr ->
  (0 <= q)%Q /\ (q <= 100)%Q /\
  (exists x_lo x_hi, x_lo ∈ S /\ x_hi ∈ S /\ (x_lo <= thr)%Q /\ (thr <= x_hi)%Q) /\
  ((q == 0)%Q -> Forall (fun x => (thr <= x)%Q) S).
Proof.
  unfold np_percentile.
  destruct (Qle_bool 0 q) eqn:Hq0; [|discriminate].
  destruct (Qle_bool q 100) eqn:Hq1; [|discriminate].
  apply Qle_bool_iff in Hq0, Hq1. cbn [negb andb].
  pose proof (np_sort_sorted S) as Hsorted.
  pose proof (np_sort_perm S) as Hperm.
  destruct (np_sort S) as [|x0 arr'] eqn:E; [discriminate|].
  set (arr := x0 :: arr') in *.
  set (n := length arr).
  assert (Hn : 1 <= n) by (unfold n, arr; cbn; lia).
  change (q / 100)%Q with (q * (1 # 100))%Q.
  set (v := (q * (1 # 100) * inject_Z (Z.of_nat n - 1))%Q).
  assert (Hm : (0 <= inject_Z (Z.of_nat n - 1))%Q).
  { change 0%Q with (inject_Z 0). rewrite <- Zle_Qle. lia. }
  assert (Hp0 : (0 <= q * (1 # 100))%Q) by lra.
  assert (Hp1 : (q * (1 # 100) <= 1)%Q) by lra.
  assert (Hv0 : (0 <= v)%Q) by (unfold v; nra).
  assert (Hv1 : (v <= inject_Z (Z.of_nat n - 1))%Q) by (unfold v; nra).
  pose proof (Qfloor_le v) as Hfl. pose proof (Qlt_floor v) as Hfu.
  rewrite inject_Z_plus in Hfu. change (inject_Z 1) with 1%Q in Hfu.
  pose proof (Qfloor_resp_le _ _ Hv0) as Hf0. change (Qfloor 0) with 0%Z in Hf0.
  pose proof (Qfloor_resp_le _ _ Hv1) as Hf1. rewrite Qfloor_Z in Hf1.
  set (lo := Z.to_nat (Qfloor v)).
  set (hi := Nat.min (lo + 1) (n - 1)).
  assert (Hlo : lo < length arr) by (fold n; lia).
  assert (Hhi : hi < length arr) by (fold n; lia).
  destruct (lookup_lt_is_Some_2 _ _ Hlo) as [x_lo Hxlo].
  destruct (lookup_lt_is_Some_2 _ _ Hhi) as [x_hi Hxhi].
  set (g := (v - inject_Z (Qfloor v))%Q).
  intros Hres.
  assert (Hlerp : lerp (nth lo arr x0) (nth hi arr x0) g = thr)
    by (injection Hres as Hres; exact Hres).
  assert (Hthr : (thr == x_lo + (x_hi - x_lo) * g)%Q).
  { rewrite <- Hlerp, lerp_eq, !nth_lookup, Hxlo, Hxhi. reflexivity. }
  clear Hres Hlerp.
  assert (Hle : (x_lo <= x_hi)%Q).
  { apply (sorted_lookup_le arr lo hi); [assumption|lia|assumption..]. }
  assert (Hg0 : (0 <= g)%Q) by (unfold g; lra).
  assert (Hg1 : (g < 1)%Q) by (unfold g; lra).
  split; [exact Hq0|]. split; [exact Hq1|]. split.
  - exists x_lo, x_hi.
    split; [rewrite <- Hperm; eapply list_elem_of_lookup_2; exact Hxlo|].
    split; [rewrite <- Hperm; eapply list_elem_of_lookup_2; exact Hxhi|].
    split; nra.
  - intros Hqz.
    assert (Hvz : (v == 0)%Q) by (unfold v; rewrite Hqz; ring).
    assert (Hfz : Qfloor v = 0%Z) by (rewrite Hvz; reflexivity).
    assert (Hgz : (g == 0)%Q) by (unfold g; rewrite Hfz, Hvz; reflexivity).
    assert (Hlo0 : lo = 0) by (unfold lo; by rewrite Hfz).
    rewrite Hlo0 in Hxlo.
    rewrite <- Hperm. apply Forall_lookup. intros j y Hy.
    pose proof (sorted_lookup_le arr 0 j x_lo y Hsorted ltac:(lia) Hxlo Hy).
    nra.
Qed.

Section Threshold.

Context `{Externals}.

(** X18. Whenever [train] returns, the contamination is in [0, 1], the
    stored threshold lies between two of the decision scores of the training
    matrix, and it never puts every training row below it: at least one
    training score is not strictly below the threshold.  With contamination
    0 no training score is strictly below it. *)
Theorem threshold_within_scores (cfg : Config) (df : DataFrame)
    (artefact : Artefact) (encoders : gmap string LabelEncoder) :
  train cfg df = inr (artefact, encoders) ->
  (0 <= CONTAMINATION cfg)%Q /\ (CONTAMINATION cfg <= 1)%Q /\
  exists X scores x_lo x_hi,
    engineer_features df = inr (X, encoders) /\
    decision_function (art_model artefact) X = inr scores /\
    x_lo ∈ scores /\ x_hi ∈ scores /\
    (x_lo <= art_threshold artefact)%Q /\
    (art_threshold artefact <= x_hi)%Q /\
    count_below (art_threshold artefact) scores < length scores /\
    ((CONTAMINATION cfg == 0)%Q ->
     count_below (art_threshold artefact) scores = 0).
Proof.
  intros Ht.
  apply train_inr in Ht as (X & scores & HX & _ & Hs & Hperc & _ & _).
  apply np_percentile_between in Hperc
    as (Hq0 & Hq1 & (x_lo & x_hi & Hlo & Hhi & Hle & Hge) & Hzero).
  split; [lra|]. split; [lra|].
  exists X, scores, x_lo, x_hi.
  do 6 (split; [assumption|]).
  split; [by apply (count_below_not_all _ x_hi)|].
  intros Hc. apply count_below_none, Hzero. rewrite Hc. reflexivity.
Qed.

End Threshold.

(** ** The further properties at the examples *)

Lemma predict_recovers_when_file_appears_witness :
  (∅ : gmap string json) !! "items" = None /\
  effective_model (fresh_process None) = None /\
  (predict (H := plain_externals) (JsonBody (JObj ∅)) (fresh_process None)).1
    = (ErrorBody "Model not loaded" (Some "Model file not found"), 503%Z) /\
  (predict (H := plain_externals) (JsonBody (JObj ∅))
     (with_model_file (Some example_artefact)
        (predict (H := plain_externals) (JsonBody (JObj ∅))
           (fresh_process None)).2)).1
    = (PredictionsBody [entry_of (H := plain_externals) ∅ example_artefact],
       200%Z).
Proof.
  assert (Hd : (∅ : gmap string json) !! "items" = None) by reflexivity.
  assert (Hw : effective_model (fresh_process None) = None) by reflexivity.
  destruct (predict_recovers_when_file_appears (H := plain_externals)
              ∅ example_artefact (fresh_process None) Hd Hw) as (H1 & _ & H3).
  auto.
Defined.

Lemma health_ok_iff_predict_ok_witness :
  (∅ : gmap string json) !! "items" = None /\
  (health example_world).1.2 = 200%Z /\
  (predict (H := plain_externals) (JsonBody (JObj ∅)) example_world).1.2
    = 200%Z /\
  (predict (H := plain_externals) (JsonBody (JObj ∅))
     (with_model_file None (health example_world).2)).1.2 = 200%Z.
Proof.
  assert (Hd : (∅ : gmap string json) !! "items" = None) by reflexivity.
  destruct (health_ok_iff_predict_ok (H := plain_externals) ∅ example_world Hd)
    as (Hiff & _ & Hcached).
  assert (Hh : (health example_world).1.2 = 200%Z) by reflexivity.
  split; [exact Hd|]. split; [exact Hh|].
  split; [by apply Hiff|].
  destruct (Hcached _ eq_refl) as (a & _ & _ & _ & Hlater).
  by rewrite (Hlater None).
Defined.

Lemma predict_batch_entries_witness :
  (<["items" := JList (JObj <$> example_batch)]> ∅ : gmap string json) !! "items"
    = Some (JList (JObj <$> example_batch)) /\
  example_batch <> [] /\
  effective_model example_world = Some example_artefact /\
  (predict (H := plain_externals)
     (JsonBody (JObj (<["items" := JList (JObj <$> example_batch)]> ∅)))
     example_world).1
  = (PredictionsBody
       ((fun r => entry_of (H := plain_externals) r example_artefact)
          <$> example_batch), 200%Z).
Proof.
  assert (Hd : (<["items" := JList (JObj <$> example_batch)]> ∅
                : gmap string json) !! "items"
               = Some (JList (JObj <$> example_batch))) by reflexivity.
  assert (Hne : example_batch <> []) by discriminate.
  assert (Hw : effective_model example_world = Some example_artefact)
    by reflexivity.
  destruct (predict_batch_entries (H := plain_externals) _ _ _ _ Hd Hne Hw)
    as [Hp _].
  auto.
Defined.

Lemma predict_batch_with_non_dict_item_witness :
  (<["items" := JList [JObj ∅; JInt 5]]> ∅ : gmap string json) !! "items"
    = Some (JList [JObj ∅; JInt 5]) /\
  Exists (fun item => is_obj item = false) [JObj ∅; JInt 5] /\
  effective_model example_world = Some example_artefact /\
  exists detail,
    (predict (H := plain_externals)
       (JsonBody (JObj (<["items" := JList [JObj ∅; JInt 5]]> ∅)))
       example_world).1
    = (ErrorBody "Internal server error" (Some detail), 500%Z).
Proof.
  assert (Hd : (<["items" := JList [JObj ∅; JInt 5]]> ∅
                : gmap string json) !! "items"
               = Some (JList [JObj ∅; JInt 5])) by reflexivity.
  assert (Hex : Exists (fun item => is_obj item = false) [JObj ∅; JInt 5])
    by (right; left; reflexivity).
  assert (Hw : effective_model example_world = Some example_artefact)
    by reflexivity.
  split; [exact Hd|]. split; [exact Hex|]. split; [exact Hw|].
  exact (predict_batch_with_non_dict_item (H := plain_externals) _ _ _ _
           Hd Hex Hw).
Defined.

Lemma predict_non_object_payload_witness :
  JInt 5 <> JNull /\ is_obj (JInt 5) = false /\
  ((exists detail,
      (predict (H := plain_externals) (JsonBody (JInt 5)) example_world).1
      = (ErrorBody "Internal server error" (Some detail), 500%Z)) \/
   (effective_model example_world = None /\
    (predict (H := plain_externals) (JsonBody (JInt 5)) example_world).1
    = (ErrorBody "Model not loaded" (Some "Model file not found"), 503%Z))).
Proof.
  assert (Hn : JInt 5 <> JNull) by discriminate.
  assert (Ho : is_obj (JInt 5) = false) by reflexivity.
  split; [exact Hn|]. split; [exact Ho|].
  exact (predict_non_object_payload (H := plain_externals) _ example_world Hn Ho).
Defined.

Lemma reported_confidence_range_witness :
  _score_items (H := plain_externals) example_items example_artefact
    = inr example_results /\
  Forall (fun p =>
            (label p = NORMAL ->
             anomaly p = Some false /\
             exists c, confidence p = Some c /\ (c == 0)%Q) /\
            (label p = ANOMALY ->
             anomaly p = Some true /\
             exists c, confidence p = Some c /\ (0 <= c)%Q /\ (c <= 1)%Q))
    example_results.
Proof.
  assert (Hs : _score_items (H := plain_externals) example_items example_artefact
               = inr example_results)
    by (vm_compute; reflexivity).
  split; [exact Hs|].
  exact (reported_confidence_range (H := plain_externals) _ _ _ Hs).
Defined.

Lemma confidence_antitone_witness :
  (-1 <= 0)%Q /\
  confidence_of 0 (-1) = inr (np_clip ((0 - -1) / Qabs (0 + eps)) 0 1) /\
  confidence_of 0 0 = inr (np_clip ((0 - 0) / Qabs (0 + eps)) 0 1) /\
  (np_clip ((0 - 0) / Qabs (0 + eps)) 0 1
   <= np_clip ((0 - -1) / Qabs (0 + eps)) 0 1)%Q.
Proof.
  assert (Hs : (-1 <= 0)%Q) by discriminate.
  assert (H1 : confidence_of 0 (-1)
               = inr (np_clip ((0 - -1) / Qabs (0 + eps)) 0 1)) by reflexivity.
  assert (H2 : confidence_of 0 0
               = inr (np_clip ((0 - 0) / Qabs (0 + eps)) 0 1)) by reflexivity.
  destruct (confidence_antitone 0 (-1) 0 _ _ Hs H1 H2) as [Hle _].
  auto.
Defined.

Lemma engineer_row_reads_only_witness :
  (forall k, k ∈ fields_read ->
     (∅ : gmap string json) !! k
     = (<["pr_number" := JStr "1000012345"]> ∅ : gmap string json) !! k) /\
  _engineer_row (H := plain_externals) (JObj ∅) example_artefact
  = _engineer_row (H := plain_externals)
      (JObj (<["pr_number" := JStr "1000012345"]> ∅)) example_artefact.
Proof.
  assert (Hk : forall k, k ∈ fields_read ->
             (∅ : gmap string json) !! k
             = (<["pr_number" := JStr "1000012345"]> ∅ : gmap string json) !! k).
  { intros k Hin. rewrite lookup_insert_ne; [reflexivity|].
    intros <-. revert Hin. apply (bool_decide_unpack _). vm_compute. exact I. }
  split; [exact Hk|].
  exact (engineer_row_reads_only (H := plain_externals) _ _ example_artefact Hk).
Defined.

Lemma engineer_row_unknown_column_witness :
  "vendor_enc" ∈ art_feature_cols example_stale_artefact /\
  ("vendor_enc" ∉ feature_cols_of_training) /\
  (exists e, _engineer_row (H := plain_externals) (JObj ∅) example_stale_artefact
             = inl e) /\
  label (entry_of (H := plain_externals) ∅ example_stale_artefact) = ERROR.
Proof.
  assert (Hin : "vendor_enc" ∈ art_feature_cols example_stale_artefact)
    by (apply (bool_decide_unpack _); vm_compute; exact I).
  assert (Hout : "vendor_enc" ∉ feature_cols_of_training)
    by (apply (bool_decide_unpack _); vm_compute; exact I).
  split; [exact Hin|]. split; [exact Hout|].
  exact (engineer_row_unknown_column (H := plain_externals) ∅
           example_stale_artefact "vendor_enc" Hin Hout).
Defined.

Lemma engineer_features_after_load_data_witness :
  load_data example_reader "alldata.csv" = inr example_csv /\
  match engineer_features (H := plain_externals) example_csv with
  | inr (X, encoders) =>
      df_columns X = feature_cols_of_training /\
      df_get X "quantity" = df_get example_csv "quantity" /\
      df_get X "net_price" = df_get example_csv "net_price"
  | inl e => False
  end.
Proof.
  assert (Hl : load_data example_reader "alldata.csv" = inr example_csv)
    by (vm_compute; reflexivity).
  split; [exact Hl|].
  pose proof (engineer_features_after_load_data (H := plain_externals)
                example_reader "alldata.csv" example_csv Hl) as Hf.
  destruct (engineer_features (H := plain_externals) example_csv)
    as [e|[X encoders]].
  - destruct Hf as [(raw & _ & Hr)|(raw & _ & Hr)]; discriminate Hr.
  - destruct Hf as (Hc & Hq & Hn & _). auto.
Defined.



Lemma threshold_within_scores_witness :
  train (H := plain_externals) example_config example_frame
    = inr (example_artefact, example_trained.2) /\
  (0 <= CONTAMINATION example_config)%Q /\
  (CONTAMINATION example_config <= 1)%Q /\
  exists scores,
    count_below (art_threshold example_artefact) scores < length scores.
Proof.
  pose proof example_train_runs as Ht.
  split; [exact Ht|].
  destruct (threshold_within_scores (H := plain_externals) _ _ _ _ Ht)
    as (H0 & H1 & X & scores & x_lo & x_hi & _ & _ & _ & _ & _ & _ & Hc & _).
  split; [exact H0|]. split; [exact H1|]. exists scores. exact Hc.
Defined.

